(** * Code Review Assistant: the analysis pipeline of the web client

    A shallow embedding of the JavaScript that scores, orders, validates,
    retries and parses analysis results ([app.js], [api-client.js] and the
    Gemini client), and of the chunker of the analysis service, which is
    written from the specification; the properties proved about them
    follow.

    Conventions of the embedding:
    - a JavaScript string is the list of its UTF-16 code units ([jsstring]);
    - a property that may be missing is an [option] ([None] is [undefined]);
    - a function that can throw returns [Exc];
    - the clock, the random generator, the network and the browser's
      connectivity flag are explicit inputs. *)

From stdpp Require Import gmap.
From Equations Require Import Equations.
From Stdlib Require Import ZArith NArith QArith Qround List String Ascii Bool Lia
  Permutation Sorted DecimalString DecimalZ DecimalPos.
Import ListNotations.

Local Open Scope Z_scope.
Set Warnings "-register-all".

(** ** JavaScript strings and exceptions *)

Module JS.

Abbreviation jsstring := (list N).

(** The code units of an ASCII literal. *)
Definition js (s : string) : jsstring :=
  List.map N_of_ascii (list_ascii_of_string s).

Definition ch (a : ascii) : N := N_of_ascii a.

Arguments js s%_string.
Arguments ch a%_char.

Fixpoint str_eqb (s t : jsstring) : bool :=
  match s, t with
  | [], [] => true
  | c :: s', d :: t' => N.eqb c d && str_eqb s' t'
  | _, _ => false
  end.

(** [Array.prototype.includes] on an array of strings. *)
Definition includes (l : list jsstring) (s : jsstring) : bool :=
  existsb (str_eqb s) l.

(** WhiteSpace and LineTerminator code units: what [\s] matches and what
    [String.prototype.trim] strips. *)
Definition is_space (c : N) : bool :=
  ((9 <=? c) && (c <=? 13) || (c =? 32) || (c =? 160) || (c =? 5760)
   || (8192 <=? c) && (c <=? 8202) || (c =? 8232) || (c =? 8233)
   || (c =? 8239) || (c =? 8287) || (c =? 12288) || (c =? 65279))%N.

Fixpoint trimStart (s : jsstring) : jsstring :=
  match s with
  | c :: s' => if is_space c then trimStart s' else s
  | [] => []
  end.

Definition trim (s : jsstring) : jsstring :=
  rev (trimStart (rev (trimStart s))).

(** [String.prototype.toLowerCase], code unit by code unit.  The letters
    A-Z give a-z.  Two code units outside ASCII have a lower case that
    holds an ASCII letter: U+212A (the Kelvin sign) gives [k], and U+0130
    gives [i] followed by U+0307.  Every other code unit outside ASCII
    is lowered by JavaScript to code units outside ASCII; the model keeps
    it as it is.  The model therefore agrees with JavaScript on the ASCII
    letters of the result and on whether the result is a given ASCII
    word, which is all the code asks of a lower-cased string; it does not
    give the lower case of the other letters. *)
Definition lower (c : N) : jsstring :=
  if ((65 <=? c) && (c <=? 90))%N then [(c + 32)%N]
  else if (c =? 8490)%N then [107%N]
  else if (c =? 304)%N then [105%N; 775%N]
  else [c].

Definition toLowerCase (s : jsstring) : jsstring := List.flat_map lower s.

(** [s.split('.').pop()]: what follows the last dot, the whole string
    when there is none. *)
Fixpoint split_pop (sep : N) (acc s : jsstring) : jsstring :=
  match s with
  | [] => rev acc
  | c :: s' =>
      if N.eqb c sep then split_pop sep [] s' else split_pop sep (c :: acc) s'
  end.

(** The outcome of a call: a value, or the exception it threw. *)
Inductive Exc (E A : Type) :=
| Return (a : A)
| Throw (e : E).
Arguments Return {E A} a.
Arguments Throw {E A} e.

Definition bind {E A B} (m : Exc E A) (k : A -> Exc E B) : Exc E B :=
  match m with
  | Return a => k a
  | Throw e => Throw e
  end.

(** [try { body } catch (error) { handler }] *)
Definition try_catch {E A} (body : Exc E A) (handler : E -> Exc E A) : Exc E A :=
  match body with
  | Return a => Return a
  | Throw e => handler e
  end.

Definition returned {E A} (m : Exc E A) : bool :=
  match m with
  | Return _ => true
  | Throw _ => false
  end.

Fixpoint starts_with (prefix s : jsstring) : bool :=
  match prefix, s with
  | [], _ => true
  | p :: prefix', c :: s' => N.eqb p c && starts_with prefix' s'
  | _ :: _, [] => false
  end.

(** What follows the first occurrence of [pattern] in [s]. *)
Fixpoint after_first (pattern s : jsstring) : option jsstring :=
  if starts_with pattern s then Some (skipn (List.length pattern) s)
  else match s with
       | [] => None
       | _ :: s' => after_first pattern s'
       end.

(** [s.substr(start, length)] for non-negative arguments. *)
Definition substr (start length : nat) (s : jsstring) : jsstring :=
  firstn length (skipn start s).

End JS.

Import JS.

Notation "'let*' x := m 'in' k" := (JS.bind m (fun x => k))
  (at level 10, x name, m at level 100, k at level 200).

(** ** JSON values and [JSON.parse] *)

Module JSON.

(** The values the Gemini client handles: what [JSON.parse] returns, and
    an array on which named properties were written.  A number is
    [mantissa * 10 ^ exponent]. *)
Inductive Value :=
| JNull
| JBool (b : bool)
| JNumber (mantissa exponent : Z)
| JString (s : jsstring)
| JArray (elements : list Value)
| JObject (members : list (jsstring * Value))
| JArrayWith (elements : list Value) (properties : list (jsstring * Value)).

(** The errors thrown in the client.  [ErrorWith prefix detail] is the
    error thrown by [throw new Error(`prefix${detail}`)]: an [Error] whose
    message is the prefix followed by the detail as a string. *)
Inductive JsError :=
| TypeError
| SyntaxError
| Error (message : jsstring)
| ErrorWith (prefix : jsstring) (detail : Value).

(** The double nearest to [m * 10 ^ e] is zero: the number is zero or at
    most 2^-1075 in absolute value. *)
Definition is_zero (m e : Z) : bool :=
  (m =? 0) || ((e <? 0) && (Z.abs m * 2 ^ 1075 <=? 10 ^ (- e))).

(** [ToBoolean] *)
Definition truthy (v : option Value) : bool :=
  match v with
  | None | Some JNull => false
  | Some (JBool b) => b
  | Some (JNumber m e) => negb (is_zero m e)
  | Some (JString s) => negb (str_eqb s [])
  | Some (JArray _) | Some (JObject _) | Some (JArrayWith _ _) => true
  end.

(** The last member named [key]: a later duplicate replaces an earlier
    one. *)
Fixpoint member (key : jsstring) (members : list (jsstring * Value)) : option Value :=
  match members with
  | [] => None
  | (k, v) :: rest =>
      match member key rest with
      | Some w => Some w
      | None => if str_eqb k key then Some v else None
      end
  end.

(** [v.key], for the keys the client reads; none of them names a member
    of a built-in prototype, so a string, number, boolean or array has no
    such property.  Reading a property of [null] throws. *)
Definition get (v : Value) (key : string) : Exc JsError (option Value) :=
  match v with
  | JNull => Throw TypeError
  | JObject members => Return (member (js key) members)
  | JArrayWith _ properties => Return (member (js key) properties)
  | _ => Return None
  end.
Arguments get v key%_string.

(** [v?.key]: [undefined] when [v] is [null] or [undefined]. *)
Definition get_optional (v : option Value) (key : string) : option Value :=
  match v with
  | None | Some JNull => None
  | Some (JObject members) => member (js key) members
  | Some (JArrayWith _ properties) => member (js key) properties
  | Some _ => None
  end.
Arguments get_optional v key%_string.

(** [v?.[0]] *)
Definition first_optional (v : option Value) : option Value :=
  match v with
  | None | Some JNull => None
  | Some (JArray elements) | Some (JArrayWith elements _) => List.head elements
  | Some (JString s) =>
      match s with
      | c :: _ => Some (JString [c])
      | [] => None
      end
  | Some (JObject members) => member (js "0") members
  | Some _ => None
  end.

(** [object.key = n] in strict code: it writes on an object or an array
    and throws on anything else. *)
Fixpoint assign (key : jsstring) (v : Value) (members : list (jsstring * Value))
  : list (jsstring * Value) :=
  match members with
  | [] => [(key, v)]
  | (k, w) :: rest =>
      if str_eqb k key then (k, v) :: List.filter (fun m => negb (str_eqb (fst m) key)) rest
      else (k, w) :: assign key v rest
  end.

Definition set (object : Value) (key : string) (n : Z) : Exc JsError Value :=
  match object with
  | JObject members => Return (JObject (assign (js key) (JNumber n 0) members))
  | JArray elements => Return (JArrayWith elements [(js key, JNumber n 0)])
  | JArrayWith elements properties =>
      Return (JArrayWith elements (assign (js key) (JNumber n 0) properties))
  | _ => Throw TypeError
  end.
Arguments set object key%_string n%_Z.

(** *** The lexer *)

Inductive Token :=
| TLBrace | TRBrace | TLBracket | TRBracket | TColon | TComma
| TString (s : jsstring)
| TNumber (mantissa exponent : Z)
| TTrue | TFalse | TNull.

(** Where the lexer is inside a number. *)
Inductive NumberPart :=
| Minus | LeadingZero | Integer | Point | Fraction | ExpMark | ExpSign | ExpDigits.

Record NumberAcc := {
  negative : bool;
  digits : Z;
  scale : Z;
  exp_negative : bool;
  exp_digits : Z
}.

Inductive Lexer :=
| Between
| InString (acc : jsstring)
| Escape (acc : jsstring)
| Unicode (acc : jsstring) (code : N) (remaining : nat)
| InNumber (part : NumberPart) (n : NumberAcc)
| InLiteral (rest : jsstring) (t : Token).

Definition digit (c : N) : option Z :=
  if ((48 <=? c) && (c <=? 57))%N then Some (Z.of_N c - 48) else None.

Definition hex_digit (c : N) : option N :=
  if ((48 <=? c) && (c <=? 57))%N then Some (c - 48)%N
  else if ((65 <=? c) && (c <=? 70))%N then Some (c - 55)%N
  else if ((97 <=? c) && (c <=? 102))%N then Some (c - 87)%N
  else None.

Definition number_token (n : NumberAcc) : Token :=
  TNumber (if negative n then - digits n else digits n)
          ((if exp_negative n then - exp_digits n else exp_digits n) - scale n).

Definition fresh (neg : bool) (d : Z) : NumberAcc :=
  {| negative := neg; digits := d; scale := 0; exp_negative := false; exp_digits := 0 |}.

Definition add_digit (n : NumberAcc) (d : Z) (fraction : bool) : NumberAcc :=
  {| negative := negative n; digits := digits n * 10 + d;
     scale := if fraction then scale n + 1 else scale n;
     exp_negative := exp_negative n; exp_digits := exp_digits n |}.

Definition add_exp_digit (n : NumberAcc) (d : Z) : NumberAcc :=
  {| negative := negative n; digits := digits n; scale := scale n;
     exp_negative := exp_negative n; exp_digits := exp_digits n * 10 + d |}.

Definition set_exp_negative (n : NumberAcc) : NumberAcc :=
  {| negative := negative n; digits := digits n; scale := scale n;
     exp_negative := true; exp_digits := exp_digits n |}.

(** One code unit read between two tokens. *)
Definition step_between (c : N) : option (Lexer * list Token) :=
  if ((c =? 9) || (c =? 10) || (c =? 13) || (c =? 32))%N then Some (Between, [])
  else if (c =? ch "{")%N then Some (Between, [TLBrace])
  else if (c =? ch "}")%N then Some (Between, [TRBrace])
  else if (c =? ch "[")%N then Some (Between, [TLBracket])
  else if (c =? ch "]")%N then Some (Between, [TRBracket])
  else if (c =? ch ":")%N then Some (Between, [TColon])
  else if (c =? ch ",")%N then Some (Between, [TComma])
  else if (c =? 34)%N then Some (InString [], [])
  else if (c =? ch "-")%N then Some (InNumber Minus (fresh true 0), [])
  else if (c =? ch "0")%N then Some (InNumber LeadingZero (fresh false 0), [])
  else if (c =? ch "t")%N then Some (InLiteral (js "rue") TTrue, [])
  else if (c =? ch "f")%N then Some (InLiteral (js "alse") TFalse, [])
  else if (c =? ch "n")%N then Some (InLiteral (js "ull") TNull, [])
  else match digit c with
       | Some d => Some (InNumber Integer (fresh false d), [])
       | None => None
       end.

(** The number ends before [c]. *)
Definition end_number (n : NumberAcc) (c : N) : option (Lexer * list Token) :=
  match step_between c with
  | Some (state, tokens) => Some (state, number_token n :: tokens)
  | None => None
  end.

Definition is_e (c : N) : bool := ((c =? ch "e") || (c =? ch "E"))%N.

Definition step_number (part : NumberPart) (n : NumberAcc) (c : N)
  : option (Lexer * list Token) :=
  match part, digit c with
  | Minus, Some d =>
      Some (InNumber (if d =? 0 then LeadingZero else Integer) (add_digit n d false), [])
  | Minus, None => None
  | LeadingZero, _ =>
      if (c =? ch ".")%N then Some (InNumber Point n, [])
      else if is_e c then Some (InNumber ExpMark n, [])
      else end_number n c
  | Integer, Some d => Some (InNumber Integer (add_digit n d false), [])
  | Integer, None =>
      if (c =? ch ".")%N then Some (InNumber Point n, [])
      else if is_e c then Some (InNumber ExpMark n, [])
      else end_number n c
  | Point, Some d => Some (InNumber Fraction (add_digit n d true), [])
  | Point, None => None
  | Fraction, Some d => Some (InNumber Fraction (add_digit n d true), [])
  | Fraction, None =>
      if is_e c then Some (InNumber ExpMark n, []) else end_number n c
  | ExpMark, Some d => Some (InNumber ExpDigits (add_exp_digit n d), [])
  | ExpMark, None =>
      if (c =? ch "+")%N then Some (InNumber ExpSign n, [])
      else if (c =? ch "-")%N then Some (InNumber ExpSign (set_exp_negative n), [])
      else None
  | ExpSign, Some d => Some (InNumber ExpDigits (add_exp_digit n d), [])
  | ExpSign, None => None
  | ExpDigits, Some d => Some (InNumber ExpDigits (add_exp_digit n d), [])
  | ExpDigits, None => end_number n c
  end.

Definition step_escape (acc : jsstring) (c : N) : option (Lexer * list Token) :=
  if (c =? 34)%N then Some (InString (34%N :: acc), [])
  else if (c =? 92)%N then Some (InString (92%N :: acc), [])
  else if (c =? ch "/")%N then Some (InString (ch "/" :: acc), [])
  else if (c =? ch "b")%N then Some (InString (8%N :: acc), [])
  else if (c =? ch "f")%N then Some (InString (12%N :: acc), [])
  else if (c =? ch "n")%N then Some (InString (10%N :: acc), [])
  else if (c =? ch "r")%N then Some (InString (13%N :: acc), [])
  else if (c =? ch "t")%N then Some (InString (9%N :: acc), [])
  else if (c =? ch "u")%N then Some (Unicode acc 0 4, [])
  else None.

Definition step (state : Lexer) (c : N) : option (Lexer * list Token) :=
  match state with
  | Between => step_between c
  | InString acc =>
      if (c =? 34)%N then Some (Between, [TString (rev acc)])
      else if (c =? 92)%N then Some (Escape acc, [])
      else if (c <? 32)%N then None
      else Some (InString (c :: acc), [])
  | Escape acc => step_escape acc c
  | Unicode acc code remaining =>
      match hex_digit c, remaining with
      | Some h, 1%nat => Some (InString ((code * 16 + h)%N :: acc), [])
      | Some h, S remaining' => Some (Unicode acc (code * 16 + h)%N remaining', [])
      | _, _ => None
      end
  | InNumber part n => step_number part n c
  | InLiteral rest t =>
      match rest with
      | [r] => if (c =? r)%N then Some (Between, [t]) else None
      | r :: rest' => if (c =? r)%N then Some (InLiteral rest' t, []) else None
      | [] => None
      end
  end.

(** At the end of the text only a finished number may be pending. *)
Definition finish (state : Lexer) : option (list Token) :=
  match state with
  | Between => Some []
  | InNumber (LeadingZero | Integer | Fraction | ExpDigits) n => Some [number_token n]
  | _ => None
  end.

Fixpoint lex (state : Lexer) (text : jsstring) : option (list Token) :=
  match text with
  | [] => finish state
  | c :: text' =>
      match step state c with
      | Some (state', tokens) =>
          match lex state' text' with
          | Some more => Some (tokens ++ more)
          | None => None
          end
      | None => None
      end
  end.

(** *** The parser: a stack of the arrays and objects left open *)

Inductive Frame :=
| InArray (before : list Value)
| InObject (before : list (jsstring * Value)) (key : jsstring).

Inductive Expect :=
| AValue
| FirstElement
| FirstKey
| NextKey (before : list (jsstring * Value))
| Colon (before : list (jsstring * Value)) (key : jsstring)
| After (v : Value).

(** A token where a value starts. *)
Definition start_value (stack : list Frame) (t : Token) : option (list Frame * Expect) :=
  match t with
  | TLBrace => Some (stack, FirstKey)
  | TLBracket => Some (stack, FirstElement)
  | TString s => Some (stack, After (JString s))
  | TNumber m e => Some (stack, After (JNumber m e))
  | TTrue => Some (stack, After (JBool true))
  | TFalse => Some (stack, After (JBool false))
  | TNull => Some (stack, After JNull)
  | _ => None
  end.

Definition shift (stack : list Frame) (expect : Expect) (t : Token)
  : option (list Frame * Expect) :=
  match expect, t with
  | AValue, _ => start_value stack t
  | FirstElement, TRBracket => Some (stack, After (JArray []))
  | FirstElement, _ => start_value (InArray [] :: stack) t
  | FirstKey, TRBrace => Some (stack, After (JObject []))
  | FirstKey, TString k => Some (stack, Colon [] k)
  | NextKey before, TString k => Some (stack, Colon before k)
  | Colon before k, TColon => Some (InObject before k :: stack, AValue)
  | After v, TComma =>
      match stack with
      | InArray before :: stack' => Some (InArray (v :: before) :: stack', AValue)
      | InObject before k :: stack' => Some (stack', NextKey ((k, v) :: before))
      | [] => None
      end
  | After v, TRBracket =>
      match stack with
      | InArray before :: stack' => Some (stack', After (JArray (rev (v :: before))))
      | _ => None
      end
  | After v, TRBrace =>
      match stack with
      | InObject before k :: stack' =>
          Some (stack', After (JObject (rev ((k, v) :: before))))
      | _ => None
      end
  | _, _ => None
  end.

Fixpoint run (stack : list Frame) (expect : Expect) (tokens : list Token)
  : option Value :=
  match tokens with
  | [] =>
      match stack, expect with
      | [], After v => Some v
      | _, _ => None
      end
  | t :: tokens' =>
      match shift stack expect t with
      | Some (stack', expect') => run stack' expect' tokens'
      | None => None
      end
  end.

(** [JSON.parse(text)] *)
Definition parse (text : jsstring) : Exc JsError Value :=
  match lex Between text with
  | Some tokens =>
      match run [] AValue tokens with
      | Some v => Return v
      | None => Throw SyntaxError
      end
  | None => Throw SyntaxError
  end.

End JSON.

Import JSON.

(** ** Object literals used as tables *)

Module JSObject.

(** The members every object literal inherits from [Object.prototype]. *)
Definition prototype_members : list jsstring :=
  List.map js ["constructor"; "hasOwnProperty"; "isPrototypeOf";
               "propertyIsEnumerable"; "toLocaleString"; "toString"; "valueOf";
               "__proto__"; "__defineGetter__"; "__defineSetter__";
               "__lookupGetter__"; "__lookupSetter__"]%string.

(** What [literal[key]] gives: the value of an own property, an inherited
    member (a function or an object), or [undefined]. *)
Inductive Read (A : Type) :=
| Own (v : A)
| Inherited
| Missing.
Arguments Own {A} v.
Arguments Inherited {A}.
Arguments Missing {A}.

Fixpoint own {A} (literal : list (string * A)) (key : jsstring) : option A :=
  match literal with
  | [] => None
  | (k, v) :: rest => if str_eqb key (js k) then Some v else own rest key
  end.

Definition read {A} (literal : list (string * A)) (key : jsstring) : Read A :=
  match own literal key with
  | Some v => Own v
  | None => if includes prototype_members key then Inherited else Missing
  end.

(** [literal[key] || fallback] for a table of non-empty strings: an
    inherited member is truthy and is returned as it is. *)
Definition read_or (literal : list (string * string)) (key : jsstring)
    (fallback : string) : Read jsstring :=
  match read literal key with
  | Own v => Own (js v)
  | Inherited => Inherited
  | Missing => Own (js fallback)
  end.
Arguments read_or literal key fallback%_string.

End JSObject.

(** ** The Gemini client *)

Module GeminiClient.

(** The clock and the random generator, by reading: [Date.now()] and
    [Math.random().toString(36)] in [generateReportId], and
    [new Date().toISOString()] for the timestamp. *)
Record Env := {
  Date_now : nat -> Z;
  Math_random_toString36 : nat -> jsstring;
  Date_toISOString : nat -> jsstring
}.

Record Report := {
  id : jsstring;
  filename : jsstring;
  status : jsstring;
  timestamp : jsstring;
  report_summary : Value;
  issues : Value;
  recommendations : Value;
  positive_aspects : Value
}.

(** The decimal digits of an integer. *)
Definition decimal (z : Z) : jsstring := js (NilZero.string_of_int (Z.to_int z)).

(** ['report_' + Date.now() + '_' + Math.random().toString(36).substr(2, 9)] *)
Definition generateReportId (env : Env) (reading : nat) : jsstring :=
  js "report_" ++ decimal (Date_now env reading) ++ js "_"
  ++ substr 2 9 (Math_random_toString36 env reading).

Definition number (n : Z) : Value := JNumber n 0.

Definition object (members : list (string * Value)) : Value :=
  JObject (List.map (fun m => (js (fst m), snd m)) members).

(** The first capture of [/```json\s*([\s\S]*?)\s*```/]: after the first
    opening fence and the white space that follows it, the shortest text
    followed by optional white space and a closing fence. *)
Fixpoint lazy_capture (acc s : jsstring) : option jsstring :=
  if starts_with (js "```") (trimStart s) then Some (rev acc)
  else match s with
       | [] => None
       | c :: s' => lazy_capture (c :: acc) s'
       end.

Definition jsonMatch (analysisText : jsstring) : option jsstring :=
  match after_first (js "```json") analysisText with
  | Some rest => lazy_capture [] (trimStart rest)
  | None => None
  end.

(** The text handed to [JSON.parse]. *)
Definition jsonText (analysisText : jsstring) : jsstring :=
  trim (match jsonMatch analysisText with
        | Some captured => captured
        | None => analysisText
        end).

(** [v || fallback] *)
Definition or_else (v : option Value) (fallback : Value) : Value :=
  match v with
  | Some w => if truthy v then w else fallback
  | None => fallback
  end.

Record SeverityCounts := {
  high : Z;
  medium : Z;
  low : Z
}.

(** [issue.severity?.toLowerCase()] *)
Definition severity_of (issue : Value) : Exc JsError (option jsstring) :=
  let* severity := get issue "severity" in
  match severity with
  | None | Some JNull => Return None
  | Some (JString s) => Return (Some (toLowerCase s))
  | Some _ => Throw TypeError
  end.

(** The body of the [forEach]: count the severity when it is an own
    property of [severityCounts]. *)
Definition count_issue (severityCounts : SeverityCounts) (issue : Value)
  : Exc JsError SeverityCounts :=
  let* severity := severity_of issue in
  match severity with
  | None => Return severityCounts
  | Some s =>
      if str_eqb s (js "high") then
        Return {| high := high severityCounts + 1; medium := medium severityCounts;
                  low := low severityCounts |}
      else if str_eqb s (js "medium") then
        Return {| high := high severityCounts; medium := medium severityCounts + 1;
                  low := low severityCounts |}
      else if str_eqb s (js "low") then
        Return {| high := high severityCounts; medium := medium severityCounts;
                  low := low severityCounts + 1 |}
      else Return severityCounts
  end.

Fixpoint forEach (severityCounts : SeverityCounts) (issues : list Value)
  : Exc JsError SeverityCounts :=
  match issues with
  | [] => Return severityCounts
  | issue :: rest =>
      let* severityCounts := count_issue severityCounts issue in
      forEach severityCounts rest
  end.

(** [issues.forEach] exists on arrays only. *)
Definition elements_of (issues : Value) : Exc JsError (list Value) :=
  match issues with
  | JArray elements | JArrayWith elements _ => Return elements
  | _ => Throw TypeError
  end.

Definition with_summary (report : Report) (summary : Value) : Report :=
  {| id := id report; filename := filename report; status := status report;
     timestamp := timestamp report; report_summary := summary;
     issues := issues report; recommendations := recommendations report;
     positive_aspects := positive_aspects report |}.

(** The report with the four counts written on its summary. *)
Definition validateIssueCounts (report : Report) : Exc JsError Report :=
  let issues := or_else (Some (issues report)) (JArray []) in
  let* elements := elements_of issues in
  let* severityCounts := forEach {| high := 0; medium := 0; low := 0 |} elements in
  let* summary := set (report_summary report) "total_issues"
                    (Z.of_nat (List.length elements)) in
  let* summary := set summary "high_severity_issues" (high severityCounts) in
  let* summary := set summary "medium_severity_issues" (medium severityCounts) in
  let* summary := set summary "low_severity_issues" (low severityCounts) in
  Return (with_summary report summary).

Definition default_summary : Value :=
  object [("total_issues", number 0); ("high_severity_issues", number 0);
          ("medium_severity_issues", number 0); ("low_severity_issues", number 0);
          ("overall_quality_score", number 85); ("security_score", number 90);
          ("performance_score", number 80)]%string.

(** The object literal of the [try] block, its properties evaluated in
    order: the identifier and the timestamp are read before [analysis]
    is. *)
Definition build (env : Env) (analysis : Value) (filename : jsstring)
  : Exc JsError Report :=
  let id := generateReportId env 0 in
  let timestamp := Date_toISOString env 0 in
  let* summary := get analysis "summary" in
  let* issues := get analysis "issues" in
  let* recommendations := get analysis "recommendations" in
  let* positive_aspects := get analysis "positive_aspects" in
  Return {| id := id; filename := filename; status := js "completed";
            timestamp := timestamp;
            report_summary := or_else summary default_summary;
            issues := or_else issues (JArray []);
            recommendations := or_else recommendations (JArray []);
            positive_aspects := or_else positive_aspects (JArray []) |}.

Definition fallback_summary : Value :=
  object [("total_issues", number 0); ("high_severity_issues", number 0);
          ("medium_severity_issues", number 0); ("low_severity_issues", number 0);
          ("overall_quality_score", number 75); ("security_score", number 80);
          ("performance_score", number 75)]%string.

Definition fallback_issue : Value :=
  object [("type", JString (js "quality")); ("severity", JString (js "low"));
          ("line", number 1);
          ("message",
            JString (js "Analysis completed but response format was unexpected"));
          ("suggestion",
            JString (js "The code was analyzed but the detailed results could not be parsed properly."));
          ("confidence", JNumber 5 (-1))]%string.

(** The report returned from the [catch] block. *)
Definition fallback (env : Env) (reading : nat) (filename : jsstring) : Report :=
  {| id := generateReportId env reading; filename := filename;
     status := js "completed"; timestamp := Date_toISOString env reading;
     report_summary := fallback_summary;
     issues := JArray [fallback_issue];
     recommendations :=
       JArray [JString (js "Consider running the analysis again for detailed results")];
     positive_aspects := JArray [JString (js "Code was successfully processed")] |}.

(** [JSON.parse] of the extracted text; [analysisText.match] exists on
    strings only. *)
Definition parsed (analysisText : Value) : Exc JsError Value :=
  match analysisText with
  | JString text => JSON.parse (jsonText text)
  | _ => Throw TypeError
  end.

(** The [try] block. *)
Definition parsed_report (env : Env) (analysisText : Value) (filename : jsstring)
  : Exc JsError Report :=
  let* analysis := parsed analysisText in
  let* report := build env analysis filename in
  validateIssueCounts report.

(** When the [try] block fails after [JSON.parse], the clock and the
    generator were already read once. *)
Definition parseAnalysisResponse (env : Env) (analysisText : Value)
    (filename : jsstring) : Report :=
  match parsed_report env analysisText filename with
  | Return report => report
  | Throw _ =>
      fallback env (if returned (parsed analysisText) then 1 else 0) filename
  end.

(** The exchange with the provider: [fetch] rejects, or a response comes
    with its [ok] flag, status text and body. *)
Inductive Fetched :=
| Rejected (error : JsError)
| Responded (ok : bool) (statusText body : jsstring).

(** [data.candidates?.[0]?.content?.parts?.[0]?.text] *)
Definition analysisText_of (data : Value) : Exc JsError (option Value) :=
  let* candidates := get data "candidates" in
  Return (get_optional
            (first_optional
               (get_optional (get_optional (first_optional candidates) "content")
                  "parts"))
            "text").

(** [analyzeCode]; the request it sends (language, prompt) has no part
    in what it returns once the exchange is given. *)
Definition analyzeCode (apiKey : option jsstring) (env : Env) (fetched : Fetched)
    (code filename : jsstring) : Exc JsError Report :=
  if negb (truthy (option_map JString apiKey)) then
    Throw (Error (js "Gemini API key is required"))
  else
    try_catch
      match fetched with
      | Rejected error => Throw error
      | Responded ok statusText body =>
          if negb ok then
            let* errorData := JSON.parse body in
            let* error := get errorData "error" in
            Throw (ErrorWith (js "Gemini API error: ")
                     (or_else (get_optional error "message") (JString statusText)))
          else
            let* data := JSON.parse body in
            let* analysisText := analysisText_of data in
            match analysisText with
            | Some text =>
                if truthy analysisText then
                  Return (parseAnalysisResponse env text filename)
                else Throw (Error (js "No analysis received from Gemini API"))
            | None => Throw (Error (js "No analysis received from Gemini API"))
            end
      end
      (fun error => Throw error).

(** [detectLanguage]: the name of the language of a file extension. *)
Definition languageMap : list (string * string) :=
  [("js", "JavaScript"); ("ts", "TypeScript"); ("py", "Python"); ("java", "Java");
   ("cpp", "C++"); ("c", "C"); ("cs", "C#"); ("php", "PHP"); ("rb", "Ruby");
   ("go", "Go"); ("rs", "Rust"); ("swift", "Swift"); ("kt", "Kotlin");
   ("scala", "Scala"); ("html", "HTML"); ("css", "CSS"); ("sql", "SQL");
   ("sh", "Shell"); ("bash", "Bash"); ("ps1", "PowerShell")]%string.

Definition detectLanguage (extension : jsstring) : JSObject.Read jsstring :=
  JSObject.read_or languageMap extension "Unknown".

(** [filename.split('.').pop().toLowerCase()], the extension [analyzeCode]
    hands to [detectLanguage]. *)
Definition fileExtension (filename : jsstring) : jsstring :=
  toLowerCase (split_pop (ch ".") [] filename).

End GeminiClient.

(** ** app.js: scores and the issue list *)

Module App.

(** The summary of a report as the dashboard reads it: four counts, each
    an integer or missing. *)
Record Summary := {
  total_issues : option Z;
  high_severity_issues : option Z;
  medium_severity_issues : option Z;
  low_severity_issues : option Z
}.

(** An issue as the list and the scores read it. *)
Record Issue := {
  type : option jsstring;
  severity : option jsstring;
  line : option Z;
  message : option jsstring
}.

Record Report := {
  status : option jsstring;
  report_summary : option Summary;
  issues : option (list Issue)
}.

(** [x || 0] on a count: a missing count and 0 are both falsy. *)
Definition or_zero (x : option Z) : Z :=
  match x with
  | Some n => n
  | None => 0
  end.

(** [Math.round]: the nearest integer, halves upwards. *)
Definition Math_round (x : Q) : Z := Qfloor (x + (1 # 2)).

Definition calculateQualityScore (summary : option Summary) : Z :=
  match summary with
  | None => 85
  | Some summary =>
      let baseScore := 100 in
      let highPenalty := or_zero (high_severity_issues summary) * 20 in
      let mediumPenalty := or_zero (medium_severity_issues summary) * 10 in
      let lowPenalty := or_zero (low_severity_issues summary) * 5 in
      let score := Z.max 0 (baseScore - highPenalty - mediumPenalty - lowPenalty) in
      Math_round (inject_Z score)
  end.

(** [v === 'literal'] *)
Definition strict_eq (v : option jsstring) (literal : string) : bool :=
  match v with
  | Some s => str_eqb s (js literal)
  | None => false
  end.
Arguments strict_eq v literal%_string.

Definition filter_length (f : Issue -> bool) (l : list Issue) : Z :=
  Z.of_nat (List.length (List.filter f l)).

Definition calculateSecurityScore (report : option Report) : Z :=
  match report with
  | None => 100
  | Some report =>
      match issues report with
      | None => 100
      | Some all =>
          let securityIssues := List.filter (fun i => strict_eq (type i) "security") all in
          let highSecurityIssues :=
            filter_length (fun i => strict_eq (severity i) "high") securityIssues in
          let mediumSecurityIssues :=
            filter_length (fun i => strict_eq (severity i) "medium") securityIssues in
          let lowSecurityIssues :=
            filter_length (fun i => strict_eq (severity i) "low") securityIssues in
          let baseScore := 100 in
          let penalty := (highSecurityIssues * 30) + (mediumSecurityIssues * 15)
                         + (lowSecurityIssues * 5) in
          Z.max 0 (baseScore - penalty)
      end
  end.

(** *** The issue list *)

(** What a property read on the literal [severityOrder] gives: one of its
    three numbers, a member inherited from [Object.prototype], or
    nothing. *)
Inductive Property :=
| PNumber (n : Z)
| PInherited
| PUndefined.

Definition Object_prototype : list jsstring :=
  List.map js ["constructor"; "hasOwnProperty"; "isPrototypeOf";
               "propertyIsEnumerable"; "toLocaleString"; "toString"; "valueOf";
               "__proto__"; "__defineGetter__"; "__defineSetter__";
               "__lookupGetter__"; "__lookupSetter__"]%string.

(** [severityOrder[key]] for [{ 'high': 3, 'medium': 2, 'low': 1 }]; a
    missing severity reads the key ["undefined"]. *)
Definition severityOrder (key : option jsstring) : Property :=
  match key with
  | None => PUndefined
  | Some k =>
      if str_eqb k (js "high") then PNumber 3
      else if str_eqb k (js "medium") then PNumber 2
      else if str_eqb k (js "low") then PNumber 1
      else if includes Object_prototype k then PInherited
      else PUndefined
  end.

(** [severityOrder[i.severity] || 0] as a number; [None] is a value that
    is not a number (it makes the subtraction NaN). *)
Definition rank (i : Issue) : option Z :=
  match severityOrder (severity i) with
  | PNumber n => Some n
  | PInherited => None
  | PUndefined => Some 0
  end.

(** The comparison function of the sort; [None] is NaN. *)
Definition compareSeverity (a b : Issue) : option Z :=
  match rank b, rank a with
  | Some rb, Some ra => Some (rb - ra)
  | _, _ => None
  end.

(** [Array.prototype.sort] with a comparison function.  The language
    requires the sort to be stable and reads a NaN comparison as +0; for
    a consistent comparison function every such sort returns the list
    computed here (see [stable_sort_unique]). *)
Section ArraySort.
Context {A : Type} (comparefn : A -> A -> option Z).

Definition SortCompare (x y : A) : Z :=
  match comparefn x y with
  | Some v => v
  | None => 0
  end.

Fixpoint insert (x : A) (l : list A) : list A :=
  match l with
  | [] => [x]
  | y :: l' => if SortCompare x y <=? 0 then x :: l else y :: insert x l'
  end.

Fixpoint Array_sort (l : list A) : list A :=
  match l with
  | [] => []
  | x :: l' => insert x (Array_sort l')
  end.
End ArraySort.

Definition sortedIssues (issues : list Issue) : list Issue :=
  Array_sort compareSeverity issues.

(** The items [updateIssuesList] puts in the container (nothing when the
    page has no container), and the count it writes in the title. *)
Inductive IssueItems :=
| NoContainer
| NoIssuesFound
| Items (items : list Issue) (count : Z).

Definition updateIssuesList (issuesContainer : bool) (issues : option (list Issue))
  : IssueItems :=
  if negb issuesContainer then NoContainer
  else match issues with
       | None | Some [] => NoIssuesFound
       | Some issues =>
           Items (sortedIssues issues) (Z.of_nat (List.length issues))
       end.

(** The class of the badge of an issue: [switch (severity?.toLowerCase())]. *)
Definition getSeverityClass (severity : option jsstring) : jsstring :=
  match severity with
  | None => js "info"
  | Some severity =>
      let lowered := toLowerCase severity in
      if str_eqb lowered (js "high") || str_eqb lowered (js "critical") then js "error"
      else if str_eqb lowered (js "medium") || str_eqb lowered (js "moderate")
      then js "warning"
      else js "info"
  end.

(** *** The dashboard cards *)

(** The page state the dashboard reads: the time stored after the last
    analysis, a text, and the random generator. *)
Record Window := {
  currentAnalysisTime : option jsstring;
  Math_random : Q
}.

(** What the processing-time card shows: the stored text, or the number
    [Math.random() * 2 + 0.5] printed with one decimal. *)
Inductive ProcessingTime :=
| Stored (text : jsstring)
| Drawn (seconds : Q).

Record Dashboard := {
  qualityValue : Z;
  qualityTrendPositive : bool;
  issuesValue : option Z;
  timeValue : ProcessingTime
}.

(** [updateDashboardFromSummary] on a page that has its three cards. *)
Definition updateDashboardFromSummary (window : Window) (summary : Summary)
  : Dashboard :=
  let qualityScore := calculateQualityScore (Some summary) in
  let processingTime :=
    match currentAnalysisTime window with
    | Some (c :: text) => Stored (c :: text)
    | Some [] | None => Drawn (Math_random window * 2 + (1 # 2))%Q
    end in
  {| qualityValue := qualityScore;
     qualityTrendPositive := 80 <=? qualityScore;
     issuesValue := total_issues summary;
     timeValue := processingTime |}.

(** *** Upload validation *)

Record File := {
  name : jsstring;
  size : Z
}.

(** The three errors [validateUploadFile] throws, with the value each
    message is built from. *)
Inductive UploadError :=
| FileTypeNotSupported (extension : jsstring)
| FileSizeExceedsMaximum (bytes : Z)
| FileIsEmpty.

Definition allowedTypes : list jsstring :=
  List.map js [".py"; ".js"; ".ts"; ".java"; ".cpp"; ".c"; ".cs"; ".php"; ".rb";
               ".go"; ".rs"; ".swift"]%string.

Definition maxSize : Z := 10 * 1024 * 1024.

(** ['.' + file.name.split('.').pop().toLowerCase()] *)
Definition extension_of (file : File) : jsstring :=
  ch "." :: toLowerCase (split_pop (ch ".") [] (name file)).

Definition validateUploadFile (file : File) : Exc UploadError unit :=
  let extension := extension_of file in
  if negb (includes allowedTypes extension) then
    Throw (FileTypeNotSupported extension)
  else if size file >? maxSize then
    Throw (FileSizeExceedsMaximum (size file))
  else if size file =? 0 then
    Throw FileIsEmpty
  else Return tt.

(** What [handleFileUpload] does, in order.  Reading the file and the
    upload request are the steps that can fail after validation; their
    outcomes are inputs. *)
Inductive Step :=
| ShowUploadProgress (percentage : Z) (isError : bool)
| ValidateUploadFile
| ReadFileContent
| DisplayCodeInEditor
| ApiUploadFile
| StoreReportId
| ResetAnalysisResults
| ResetCodeEditor.

Definition handleFileUpload (file : option File) (readOk uploadOk : bool)
  : list Step :=
  match file with
  | None => []
  | Some file =>
      [ShowUploadProgress 0 false; ValidateUploadFile] ++
      match validateUploadFile file with
      | Throw _ => [ShowUploadProgress 0 true; ResetCodeEditor]
      | Return _ =>
          [ReadFileContent] ++
          if negb readOk then [ShowUploadProgress 0 true; ResetCodeEditor]
          else
            [DisplayCodeInEditor; ShowUploadProgress 30 false; ApiUploadFile] ++
            if negb uploadOk then [ShowUploadProgress 0 true; ResetCodeEditor]
            else [ShowUploadProgress 100 false; StoreReportId; ResetAnalysisResults]
      end
  end.

(** *** Grades and the summary line *)

Definition calculateQualityGrade (report : option Report) : jsstring :=
  match report with
  | None => js "A"
  | Some report =>
      match issues report with
      | None => js "A"
      | Some all =>
          let highIssues := filter_length (fun i => strict_eq (severity i) "high") all in
          let mediumIssues := filter_length (fun i => strict_eq (severity i) "medium") all in
          let totalIssues := Z.of_nat (List.length all) in
          if (highIssues =? 0) && (totalIssues <=? 2) then js "A"
          else if (highIssues =? 0) && (totalIssues <=? 5) then js "B+"
          else if (highIssues <=? 1) && (totalIssues <=? 8) then js "B"
          else if (highIssues <=? 2) && (totalIssues <=? 12) then js "C+"
          else if highIssues <=? 3 then js "C"
          else js "D"
      end
  end.

Definition getGradeClass (grade : jsstring) : jsstring :=
  if str_eqb grade (js "A") || str_eqb grade (js "B+") then js "success"
  else if str_eqb grade (js "B") || str_eqb grade (js "C+") then js "warning"
  else js "error".

(** What [updateSummaryMetrics] writes in the three summary items of the
    page: the value and the class that follows [summary-value]. *)
Record SummaryMetrics := {
  issueCount : Z;
  issueCountClass : jsstring;
  grade : jsstring;
  gradeClass : jsstring;
  securityScore : Z;
  securityClass : jsstring
}.

Definition updateSummaryMetrics (report : Report) : SummaryMetrics :=
  let issueCount :=
    match issues report with
    | Some all => Z.of_nat (List.length all)
    | None => 0
    end in
  let grade := calculateQualityGrade (Some report) in
  let score := calculateSecurityScore (Some report) in
  {| issueCount := issueCount;
     issueCountClass := if issueCount >? 0 then js "error" else js "success";
     grade := grade;
     gradeClass := getGradeClass grade;
     securityScore := score;
     securityClass := if score >=? 80 then js "success"
                      else if score >=? 60 then js "warning" else js "error" |}.

(** The class [updateDashboardFromSummary] gives the trend of the issues
    card; nothing is written when the summary has no [total_issues]. *)
Definition issuesTrend (summary : Summary) : option jsstring :=
  match total_issues summary with
  | None => None
  | Some _ =>
      let highCount := or_zero (high_severity_issues summary) in
      let mediumCount := or_zero (medium_severity_issues summary) in
      let lowCount := or_zero (low_severity_issues summary) in
      if highCount >? 0 then Some (js "negative")
      else if mediumCount >? 0 then Some (js "warning")
      else if lowCount >? 0 then Some (js "neutral")
      else Some (js "positive")
  end.

(** *** The editor *)

Definition editorLanguages : list (string * string) :=
  [("py", "python"); ("js", "javascript"); ("ts", "typescript"); ("java", "java");
   ("cpp", "cpp"); ("c", "c"); ("cs", "csharp"); ("php", "php"); ("rb", "ruby");
   ("go", "go"); ("rs", "rust"); ("swift", "swift")]%string.

Definition getLanguageFromFilename (filename : jsstring) : JSObject.Read jsstring :=
  let extension := toLowerCase (split_pop (ch ".") [] filename) in
  JSObject.read_or editorLanguages extension "text".

(** *** The upload to Gemini *)

Definition allowedExtensions : list jsstring :=
  List.map js [".js"; ".ts"; ".py"; ".java"; ".cpp"; ".c"; ".cs"; ".php"; ".rb";
               ".go"; ".rs"; ".swift"]%string.

Definition validateUploadedFile (file : File) : Exc UploadError unit :=
  let extension := extension_of file in
  if negb (includes allowedExtensions extension) then
    Throw (FileTypeNotSupported extension)
  else if size file >? maxSize then
    Throw (FileSizeExceedsMaximum (size file))
  else Return tt.

(** What [handleGeminiFileUpload], the handler the page registers on its
    file input, does in order.  The outcome of the analysis is an input. *)
Inductive GeminiStep :=
| ShowAnalysisLoading
| ShowFileName
| AnalyzeFile
| UpdateAnalysisResultsFromReport
| StoreAnalysisTime
| ShowAnalysisError.

Definition handleGeminiFileUpload (file : option File) (analysisOk : bool)
  : list GeminiStep :=
  match file with
  | None => []
  | Some file =>
      match validateUploadedFile file with
      | Throw _ => [ShowAnalysisError]
      | Return _ =>
          [ShowAnalysisLoading; ShowFileName; AnalyzeFile] ++
          if analysisOk then [UpdateAnalysisResultsFromReport; StoreAnalysisTime]
          else [ShowAnalysisError]
      end
  end.

(** *** Polling for the report *)

(** [messages[Math.min(Math.floor(attempt / 3), messages.length - 1)]] *)
Definition messages : list jsstring :=
  List.map js ["Initializing analysis..."; "Parsing code structure...";
               "Checking for syntax issues..."; "Analyzing code patterns...";
               "Detecting security vulnerabilities...";
               "Evaluating performance issues..."; "Checking code quality...";
               "Generating recommendations..."; "Finalizing results..."]%string.

Definition getProgressMessage (attempt : Z) : option jsstring :=
  let messageIndex := Z.min (attempt / 3) (Z.of_nat (List.length messages) - 1) in
  if messageIndex <? 0 then None else nth_error messages (Z.to_nat messageIndex).

(** What one call of [getAnalysisReport] gives: the parsed body ([None]
    for [null]) or an error, with its status when it has one. *)
Inductive Polled :=
| Answered (report : option Report)
| Failed (status : option Z).

(** What [startAnalysisPolling] does while it polls: the report it
    returns ([None] for [null]), the calls it made, the progress it
    showed and the waits between calls. *)
Record Polling := {
  result : option Report;
  calls : list nat;
  progress : list (Z * option jsstring);
  waits : list Z
}.

Definition stop (pollAttempt : nat) (shown : Z * option jsstring) : Polling :=
  {| result := None; calls := [pollAttempt]; progress := [shown]; waits := [] |}.

Definition continue (pollAttempt : nat) (shown : Z * option jsstring) (wait : Z)
    (rest : Polling) : Polling :=
  {| result := result rest; calls := pollAttempt :: calls rest;
     progress := shown :: progress rest; waits := wait :: waits rest |}.

Definition maxAttempts : nat := 30.

(** [error.status === 404] *)
Definition is_404 (status : option Z) : bool :=
  match status with
  | Some s => s =? 404
  | None => false
  end.

(** The loop of [pollWithProgress], with the [catch] blocks around it: an
    error that is not tolerated ends the polling with [null]. *)
Equations pollWithProgress (getAnalysisReport : nat -> Polled) (pollAttempt : nat)
    : Polling by wf (maxAttempts - pollAttempt)%nat lt :=
  pollWithProgress getAnalysisReport pollAttempt
    with lt_dec pollAttempt maxAttempts := {
    | right _ => {| result := None; calls := []; progress := []; waits := [] |}
    | left _ =>
        let shown := (Z.min (60 + Z.of_nat pollAttempt * 2) 95,
                      getProgressMessage (Z.of_nat pollAttempt)) in
        match getAnalysisReport pollAttempt with
        | Answered None => stop pollAttempt shown
        | Answered (Some report) =>
            if strict_eq (status report) "completed" then
              {| result := Some report; calls := [pollAttempt];
                 progress := [shown; (100, Some (js "Analysis complete!"))];
                 waits := [500] |}
            else if strict_eq (status report) "failed" then stop pollAttempt shown
            else
              continue pollAttempt shown
                (Z.min (1000 + Z.of_nat (S pollAttempt) * 200) 3000)
                (pollWithProgress getAnalysisReport (S pollAttempt))
        | Failed status =>
            if is_404 status && (pollAttempt <? 5)%nat then
              continue pollAttempt shown 1000
                (pollWithProgress getAnalysisReport (S pollAttempt))
            else stop pollAttempt shown
        end }.
Next Obligation. unfold maxAttempts in *. lia. Qed.
Next Obligation. unfold maxAttempts in *. lia. Qed.

Definition startAnalysisPolling (reportId : option jsstring) (apiClient : bool)
    (getAnalysisReport : nat -> Polled) : Polling :=
  match reportId with
  | Some (_ :: _) =>
      if apiClient then pollWithProgress getAnalysisReport 0
      else {| result := None; calls := []; progress := []; waits := [] |}
  | _ => {| result := None; calls := []; progress := []; waits := [] |}
  end.

End App.

(** ** api-client.js: classification of failures and retries *)

Module APIClient.

(** The error caught in [makeRequest]: a rejection of [fetch] (no
    status), or the error built from a response that is not ok. *)
Record RequestError := {
  name : jsstring;
  status : option Z;
  retryAfter : option Z
}.

Record Response := {
  response_status : Z;
  Retry_After : option Z
}.

(** [response.ok] *)
Definition ok (r : Response) : bool :=
  (200 <=? response_status r) && (response_status r <=? 299).

(** A comparison of [error.status] with a number; it is false when the
    error has no status. *)
Definition status_is (error : RequestError) (test : Z -> bool) : bool :=
  match status error with
  | Some s => test s
  | None => false
  end.

Definition categorizeError (onLine : bool) (error : RequestError) : jsstring :=
  if negb onLine || str_eqb (name error) (js "NetworkError") then js "network"
  else if status_is error (Z.eqb 401) || status_is error (Z.eqb 403) then js "auth"
  else if status_is error (Z.eqb 429) then js "rateLimit"
  else if status_is error (fun s => (400 <=? s) && (s <? 500)) then js "validation"
  else if status_is error (fun s => 500 <=? s) then js "server"
  else js "unknown".

(** What a handler returns: [{ retry, delay }]. *)
Record Handling := {
  retry : bool;
  delay : option Z
}.

Abbreviation Handler := (RequestError -> Handling).

Definition addErrorHandler (errorType : jsstring) (handler : Handler)
    (errorHandlers : gmap jsstring Handler) : gmap jsstring Handler :=
  <[errorType := handler]> errorHandlers.

(** The handlers installed by the constructor.  The messages they show
    and the token the [auth] handler clears are left out. *)
Definition initializeDefaultErrorHandlers : gmap jsstring Handler :=
  addErrorHandler (js "rateLimit")
    (fun error =>
       let retryAfter := match retryAfter error with Some s => s | None => 60 end in
       {| retry := true; delay := Some (retryAfter * 1000) |})
  (addErrorHandler (js "validation") (fun _ => {| retry := false; delay := None |})
  (addErrorHandler (js "server") (fun _ => {| retry := true; delay := Some 5000 |})
  (addErrorHandler (js "auth") (fun _ => {| retry := false; delay := None |})
  (addErrorHandler (js "network") (fun _ => {| retry := true; delay := Some 2000 |})
     ∅)))).

(** The decision of [handleError]: wait and call [makeRequest] again, or
    throw the error. *)
Inductive Decision :=
| Retry (retryDelay : Z)
| Rethrow.

Definition handleError (errorHandlers : gmap jsstring Handler) (onLine : bool)
    (error : RequestError) (attempt maxRetries : nat) : Decision :=
  let errorType := categorizeError onLine error in
  match errorHandlers !! errorType with
  | Some handler =>
      let result := handler error in
      let shouldRetry := retry result && (attempt <? maxRetries)%nat in
      let retryDelay :=
        match delay result with
        | Some d => if d =? 0 then 1000 else d
        | None => 1000
        end in
      if shouldRetry then Retry retryDelay else Rethrow
  | None => Rethrow
  end.

(** What the network does at each attempt, and whether the browser
    reports being online when the failure is classified. *)
Inductive Fetched :=
| Rejected (error : RequestError)
| Responded (response : Response).

Record Network := {
  fetch : nat -> Fetched;
  navigator_onLine : nat -> bool
}.

Record Run := {
  outcome : Exc RequestError Response;
  attempts : list nat;
  delays : list Z
}.

Definition after (attempt : nat) (retryDelay : Z) (rest : Run) : Run :=
  {| outcome := outcome rest;
     attempts := attempt :: attempts rest;
     delays := retryDelay :: delays rest |}.

(** The body of the [try] block: the response, or the error thrown. *)
Definition request (network : Network) (attempt : nat) : Exc RequestError Response :=
  match fetch network attempt with
  | Rejected error => Throw error
  | Responded response =>
      if ok response then Return response
      else Throw {| name := js "Error";
                    status := Some (response_status response);
                    retryAfter := Retry_After response |}
  end.

Definition inspect {A} (a : A) : {b | a = b} := exist _ a eq_refl.

Equations makeRequest (errorHandlers : gmap jsstring Handler) (network : Network)
    (attempt maxRetries : nat) : Run by wf (maxRetries - attempt)%nat lt :=
  makeRequest errorHandlers network attempt maxRetries
    with request network attempt := {
    | Return response =>
        {| outcome := Return response; attempts := [attempt]; delays := [] |}
    | Throw error
        with inspect (handleError errorHandlers (navigator_onLine network attempt)
                        error attempt maxRetries) := {
        | exist _ (Retry retryDelay) _ =>
            after attempt retryDelay
              (makeRequest errorHandlers network (S attempt) maxRetries)
        | exist _ Rethrow _ =>
            {| outcome := Throw error; attempts := [attempt]; delays := [] |} } }.
Next Obligation.
  unfold handleError in *.
  destruct (errorHandlers !! _) as [handler|]; [|discriminate].
  destruct (retry _); [|discriminate].
  destruct (Nat.ltb_spec attempt maxRetries); [lia | discriminate].
Qed.

(** *** The stored token *)

(** The two stores of the browser; when [blocked], any access to them
    throws. *)
Record Storage := {
  sessionStorage : gmap jsstring jsstring;
  localStorage : gmap jsstring jsstring;
  blocked : bool
}.

Definition auth_token : jsstring := js "auth_token".

(** [!!token] *)
Definition isAuthenticated (token : option jsstring) : bool :=
  match token with
  | Some (_ :: _) => true
  | _ => false
  end.

Definition getStoredToken (storage : Storage) : option jsstring :=
  if blocked storage then None
  else
    let token := sessionStorage storage !! auth_token in
    if negb (isAuthenticated token) then localStorage storage !! auth_token
    else token.

(** The client after a call: its [token] field, the stores, and the error
    thrown, if any. *)
Record Stored := {
  token : option jsstring;
  storage : Storage;
  thrown : option jsstring
}.

Definition setToken (new_token : jsstring) (persistent : bool) (before : Storage)
  : Stored :=
  if blocked before then
    {| token := Some new_token; storage := before;
       thrown := Some (js "Failed to store authentication token") |}
  else if persistent then
    {| token := Some new_token;
       storage := {| sessionStorage := <[auth_token := new_token]> (sessionStorage before);
                     localStorage := <[auth_token := new_token]> (localStorage before);
                     blocked := false |};
       thrown := None |}
  else
    {| token := Some new_token;
       storage := {| sessionStorage := <[auth_token := new_token]> (sessionStorage before);
                     localStorage := delete auth_token (localStorage before);
                     blocked := false |};
       thrown := None |}.

Definition clearToken (before : Storage) : Stored :=
  if blocked before then {| token := None; storage := before; thrown := None |}
  else
    {| token := None;
       storage := {| sessionStorage := delete auth_token (sessionStorage before);
                     localStorage := delete auth_token (localStorage before);
                     blocked := false |};
       thrown := None |}.

(** *** Requests *)

(** The body of a request: a form, or [JSON.stringify(data)]. *)
Inductive Body :=
| FormData
| Stringified (data : Value).

Record Options := {
  method : option jsstring;
  headers : option (gmap jsstring jsstring);
  body : option Body
}.

(** [{ ...headers }]: the headers, none when the property is missing. *)
Definition spread (headers : option (gmap jsstring jsstring)) : gmap jsstring jsstring :=
  match headers with
  | Some h => h
  | None => ∅
  end.

Definition with_headers (options : Options) (h : gmap jsstring jsstring) : Options :=
  {| method := method options; headers := Some h; body := body options |}.

(** What a call of an interceptor does.  It returns the options to go on
    with, or it throws; it was handed the options object itself and may
    have changed it before it threw, so the loop goes on with the options
    as the interceptor left them ([mutated]).  An interceptor is taken to return an
    options object, as [addRequestInterceptor] asks of it: one that
    returns nothing makes [processRequest] itself throw and the request
    fail before it is sent, which is not modelled. *)
Inductive Intercepted :=
| Returned (changed : Options)
| Thrown (mutated : Options) (error : JsError).

Abbreviation Interceptor := (jsstring -> Options -> Intercepted).

(** One turn of the loop over the interceptors: an interceptor that throws
    is logged, and what it did to the options before stays. *)
Definition intercept (url : jsstring) (processedOptions : Options)
    (interceptor : Interceptor) : Options :=
  match interceptor url processedOptions with
  | Returned changed => changed
  | Thrown mutated _ => mutated
  end.

Definition processRequest (token : option jsstring) (requestInterceptors : list Interceptor)
    (url : jsstring) (options : Options) : Options :=
  let processedOptions := fold_left (intercept url) requestInterceptors options in
  let processedOptions :=
    match token with
    | Some (c :: t) =>
        with_headers processedOptions
          (<[js "Authorization" := js "Bearer " ++ c :: t]> (spread (headers processedOptions)))
    | _ => processedOptions
    end in
  with_headers processedOptions
    (spread (headers processedOptions) ∪ {[js "Content-Type" := js "application/json"]}).

(** The options [post] hands to [makeRequest]. *)
Definition post_requestOptions (data : option Body) (options : Options) : Options :=
  let requestOptions :=
    {| method := match method options with
                 | Some m => Some m
                 | None => Some (js "POST")
                 end;
       headers := headers options; body := body options |} in
  match data with
  | None => requestOptions
  | Some FormData =>
      {| method := method requestOptions;
         headers := option_map (delete (js "Content-Type")) (headers requestOptions);
         body := Some FormData |}
  | Some (Stringified d) =>
      {| method := method requestOptions; headers := headers requestOptions;
         body := Some (Stringified d) |}
  end.

(** *** The file handed to [uploadFile] *)

Definition validateFile (file : App.File) : Exc App.UploadError unit :=
  let allowedTypes :=
    List.map js [".py"; ".js"; ".ts"; ".java"; ".cpp"; ".c"; ".cs"; ".php"; ".rb";
                 ".go"; ".rs"; ".swift"]%string in
  let maxSize := 10 * 1024 * 1024 in
  let extension := ch "." :: toLowerCase (split_pop (ch ".") [] (App.name file)) in
  if negb (includes allowedTypes extension) then
    Throw (App.FileTypeNotSupported extension)
  else if App.size file >? maxSize then
    Throw (App.FileSizeExceedsMaximum (App.size file))
  else Return tt.

(** Why [uploadFile] throws: no file, a file [validateFile] refuses, or
    a failed request. *)
Inductive UploadFailure :=
| NoFileProvided
| Invalid (error : App.UploadError)
| PostFailed (error : RequestError).

(** [uploadFile]; the outcome of the request [post] sends is an input,
    used only once the file passed [validateFile]. *)
Definition uploadFile (file : option App.File) (post : Exc RequestError Value)
  : Exc UploadFailure Value :=
  match file with
  | None => Throw NoFileProvided
  | Some file =>
      match validateFile file with
      | Throw error => Throw (Invalid error)
      | Return _ =>
          match post with
          | Return response => Return response
          | Throw error => Throw (PostFailed error)
          end
      end
  end.

End APIClient.

(** ** accessibility-enhancements.js: the error handler of the page *)

Module ErrorHandler.

(** [isRetryableError]: [!status || status >= 500 || status === 408 ||
    status === 429], on the [status] of the error. *)
Definition isRetryableError (error : APIClient.RequestError) : bool :=
  match APIClient.status error with
  | None => true
  | Some status => (status =? 0) || (500 <=? status) || (status =? 408) || (status =? 429)
  end.

End ErrorHandler.

(** ** app.js: the file input of the code editor *)

Module Page.

(** What the listener that [initializeCodeEditorInteractions] registers on
    the [file-upload] input does, in order.  [PostFile] is the request
    that [uploadFile] sends once the file passed [validateFile]. *)
Inductive UploadStep :=
| SetCurrentFilename
| ReadAsText
| ShowAuthPrompt
| SetPendingFileUpload
| PostFile
| StartAnalysisPolling
| ShowAnalysisError.

(** The upload itself: [uploadFile], then the polling when the response
    has a report identifier. *)
Definition upload (file : App.File) (post : Exc APIClient.RequestError Value)
  : list UploadStep :=
  match APIClient.uploadFile (Some file) post with
  | Return response =>
      match get response "report_id" with
      | Return report_id =>
          if truthy report_id then [PostFile; StartAnalysisPolling] else [PostFile]
      | Throw _ => [PostFile; ShowAnalysisError]
      end
  | Throw (APIClient.PostFailed _) => [PostFile; ShowAnalysisError]
  | Throw _ => [ShowAnalysisError]
  end.

(** The listener.  [apiClient] tells whether [window.apiClient] is set;
    [authPrompt] is the answer to the sign-in prompt, shown when the
    client holds no token and the page has an [authManager]: [Some true]
    when the user chose to sign in, [None] when no prompt is shown. *)
Definition fileUpload_change (file : option App.File) (apiClient : bool)
    (authPrompt : option bool) (post : Exc APIClient.RequestError Value)
  : list UploadStep :=
  match file with
  | None => []
  | Some file =>
      [SetCurrentFilename; ReadAsText] ++
      if negb apiClient then []
      else match authPrompt with
           | Some true => [ShowAuthPrompt; SetPendingFileUpload]
           | Some false => ShowAuthPrompt :: upload file post
           | None => upload file post
           end
  end.

End Page.

(** ** The chunker of the analysis service *)

Module Chunker.

(** Modelled from the spec: the CodeChunk of the data model (section 3);
    the chunker and its types are not among the sources. *)
Record CodeChunk (Language : Type) := {
  sequenceIndex : nat;
  content : jsstring;
  startLine : nat;
  endLine : nat;
  language : Language
}.
Arguments sequenceIndex {Language} c.
Arguments content {Language} c.
Arguments startLine {Language} c.
Arguments endLine {Language} c.
Arguments language {Language} c.

(** Modelled from the spec: the line coordinates of a chunk (section 3,
    CodeChunk); the chunker is not among the sources.  The lines of a
    text, each with the line feed that ends it. *)
Fixpoint lines_from (current text : jsstring) : list jsstring :=
  match text with
  | [] =>
      match current with
      | [] => []
      | _ => [rev current]
      end
  | c :: text' =>
      if (c =? 10)%N then rev (c :: current) :: lines_from [] text'
      else lines_from (c :: current) text'
  end.

(** Modelled from the spec: the lines of the original file (section 3). *)
Definition lines (text : jsstring) : list jsstring := lines_from [] text.

(** Modelled from the spec: [totalLines] of the round-trip property
    (section 8). *)
Definition totalLines (text : jsstring) : nat := List.length (lines text).

(** Modelled from the spec: the accumulation rule of the chunker (section
    4.2), which is not among the sources.  Consecutive items are put
    together until the next one would make the group larger than [max]; an
    item larger than [max] is a group of its own. *)
Fixpoint pack {A} (size : A -> nat) (max : nat) (current : list A) (used : nat)
    (items : list A) : list (list A) :=
  match items with
  | [] =>
      match current with
      | [] => []
      | _ => [rev current]
      end
  | x :: rest =>
      match current with
      | [] => pack size max [x] (size x) rest
      | _ =>
          if (used + size x <=? max)%nat then pack size max (x :: current) (used + size x) rest
          else rev current :: pack size max [x] (size x) rest
      end
  end.

(** Modelled from the spec: the size compared with [maxChunkSize]
    (section 4.2), the number of code units. *)
Definition text_size (piece : list jsstring) : nat :=
  List.length (List.concat piece).

Section Chunker.
Context {Language : Type}.

(** Modelled from the spec: the boundary detector of a language (section
    4.2 and the design notes), which is not among the sources.  Given the
    lines before it, does this line start a top-level function or
    class? *)
Context (starts_unit : Language -> list jsstring -> jsstring -> bool).

(** Modelled from the spec: the top-level units the chunker scans for
    (section 4.2); a unit runs up to the next start marker. *)
Fixpoint units (lang : Language) (seen current rest : list jsstring)
  : list (list jsstring) :=
  match rest with
  | [] =>
      match current with
      | [] => []
      | _ => [rev current]
      end
  | l :: rest' =>
      match current with
      | [] => units lang (l :: seen) [l] rest'
      | _ =>
          if starts_unit lang (rev seen) l
          then rev current :: units lang (l :: seen) [l] rest'
          else units lang (l :: seen) (l :: current) rest'
      end
  end.

(** Modelled from the spec: the line-count fallback of the chunker
    (section 4.2).  A unit that fits is one piece; a larger one is split
    at line boundaries. *)
Definition pieces (maxChunkSize : nat) (unit_lines : list jsstring)
  : list (list jsstring) :=
  if (text_size unit_lines <=? maxChunkSize)%nat then [unit_lines]
  else pack (@List.length N) maxChunkSize [] 0 unit_lines.

(** Modelled from the spec: the sequence index and the 1-based, inclusive
    line range of each chunk (section 3). *)
Fixpoint number (lang : Language) (index start : nat)
    (groups : list (list jsstring)) : list (CodeChunk Language) :=
  match groups with
  | [] => []
  | g :: rest =>
      {| sequenceIndex := index; content := List.concat g; startLine := start;
         endLine := start + List.length g - 1; language := lang |}
      :: number lang (S index) (start + List.length g) rest
  end.

(** Modelled from the spec: the chunker ([chunkCode] of the analysis
    service, section 4.2 of the specification), which is not among the
    sources.  Empty content gives no chunk; content that fits gives one
    chunk; otherwise top-level units are accumulated until the next one
    would exceed [maxChunkSize], a unit that is too large on its own
    being split at line boundaries. *)
Definition chunk (sanitizedContent : jsstring) (lang : Language)
    (maxChunkSize : nat) : list (CodeChunk Language) :=
  let all := lines sanitizedContent in
  match all with
  | [] => []
  | _ =>
      if (List.length sanitizedContent <=? maxChunkSize)%nat then
        number lang 0 1 [all]
      else
        let parts := List.flat_map (pieces maxChunkSize) (units lang [] [] all) in
        number lang 0 1
          (List.map (@List.concat jsstring) (pack text_size maxChunkSize [] 0 parts))
  end.
End Chunker.

(** Modelled from the spec: the start markers of Python-like languages
    (section 4.2), a line that begins with [def ] or [class ]. *)
Definition python_like (_ : unit) (_ : list jsstring) (l : jsstring) : bool :=
  starts_with (js "def ") l || starts_with (js "class ") l.

End Chunker.

(** ** Vocabulary of the statements *)

Module Spec.

(** The score formula of the specification, with its three penalties. *)
Definition penalised (high medium low : Z) (highCount mediumCount lowCount : Z) : Z :=
  Z.max 0 (100 - high * highCount - medium * mediumCount - low * lowCount).

(** The number of security issues of one severity. *)
Definition security_count (sev : string) (l : list App.Issue) : Z :=
  Z.of_nat (List.length (List.filter
    (fun i => App.strict_eq (App.type i) "security" && App.strict_eq (App.severity i) sev)
    l)).
Arguments security_count sev%_string l.

Definition nonnegative_counts (s : App.Summary) : Prop :=
  0 <= App.or_zero (App.high_severity_issues s)
  /\ 0 <= App.or_zero (App.medium_severity_issues s)
  /\ 0 <= App.or_zero (App.low_severity_issues s).

Definition issue (type severity : string) (line : Z) : App.Issue :=
  {| App.type := Some (js type);
     App.severity := Some (js severity);
     App.line := Some line;
     App.message := None |}.
Arguments issue type%_string severity%_string line%_Z.

Definition report_of_issues (l : list App.Issue) : App.Report :=
  {| App.status := Some (js "completed");
     App.report_summary := None;
     App.issues := Some l |}.

(** A list in descending order of a numeric key. *)
Definition descending {A} (key : A -> Z) : list A -> Prop :=
  StronglySorted (fun a b => key b <= key a).

(** The elements of one key, in the order of the list. *)
Definition with_key {A} (key : A -> Z) (r : Z) (l : list A) : list A :=
  List.filter (fun i => key i =? r) l.

(** The number the sort reads from an issue's severity: 3, 2, 1 for high,
    medium, low and 0 for anything else. *)
Definition severity_rank (i : App.Issue) : Z :=
  match App.rank i with
  | Some n => n
  | None => 0
  end.

(** The severity is not the name of a member of [Object.prototype], so
    the sort reads a number from it. *)
Definition plain_severity (i : App.Issue) : Prop :=
  App.severityOrder (App.severity i) <> App.PInherited.

(** The order of the specification: severity first, then line. *)
Definition line_le (a b : App.Issue) : Prop :=
  match App.line a, App.line b with
  | Some x, Some y => x <= y
  | _, _ => True
  end.

Definition severity_then_line (a b : App.Issue) : Prop :=
  severity_rank b < severity_rank a
  \/ (severity_rank a = severity_rank b /\ line_le a b).

(** The failures the client retries: those it classifies as network
    (the browser is offline, or the error is named NetworkError), rate
    limit (429) or server (500 and above). *)
Definition retryable (onLine : bool) (error : APIClient.RequestError) : bool :=
  negb onLine
  || str_eqb (APIClient.name error) (js "NetworkError")
  || APIClient.status_is error (Z.eqb 429)
  || APIClient.status_is error (fun s => 500 <=? s).

Definition retried (d : APIClient.Decision) : bool :=
  match d with
  | APIClient.Retry _ => true
  | APIClient.Rethrow => false
  end.

(** A response with a 4xx status other than 429, seen at every attempt. *)
Definition http_error (code : Z) : APIClient.RequestError :=
  {| APIClient.name := js "Error";
     APIClient.status := Some code;
     APIClient.retryAfter := None |}.

Definition always_responds (code : Z) (onLine : bool) : APIClient.Network :=
  {| APIClient.fetch := fun _ =>
       APIClient.Responded
         {| APIClient.response_status := code; APIClient.Retry_After := None |};
     APIClient.navigator_onLine := fun _ => onLine |}.

(** The integer a JSON number stands for, when it is one. *)
Definition integer (v : option Value) : option Z :=
  match v with
  | Some (JNumber m e) =>
      if 0 <=? e then Some (m * 10 ^ e)
      else if m mod 10 ^ (- e) =? 0 then Some (m / 10 ^ (- e))
      else None
  | _ => None
  end.

(** The summary of a parsed report as the dashboard reads it. *)
Definition dashboard_summary (summary : Value) : App.Summary :=
  {| App.total_issues := integer (get_optional (Some summary) "total_issues");
     App.high_severity_issues :=
       integer (get_optional (Some summary) "high_severity_issues");
     App.medium_severity_issues :=
       integer (get_optional (Some summary) "medium_severity_issues");
     App.low_severity_issues :=
       integer (get_optional (Some summary) "low_severity_issues") |}.

(** A text written with apostrophes where it has double quotes. *)
Definition quoted (s : string) : jsstring :=
  List.map (fun c => if (c =? 39)%N then 34%N else c) (js s).
Arguments quoted s%_string.

Definition clock : GeminiClient.Env :=
  {| GeminiClient.Date_now := fun n => 1700000000000 + Z.of_nat n;
     GeminiClient.Math_random_toString36 := fun _ => js "0.4fzyo82mvyr";
     GeminiClient.Date_toISOString := fun _ => js "2023-11-14T22:13:20.000Z" |}.

(** What two runs must agree on: everything but the identifier and the
    timestamp. *)
Definition content (r : GeminiClient.Report)
  : jsstring * jsstring * Value * Value * Value * Value :=
  (GeminiClient.filename r, GeminiClient.status r, GeminiClient.report_summary r,
   GeminiClient.issues r, GeminiClient.recommendations r,
   GeminiClient.positive_aspects r).

(** The call to the provider failed: [fetch] rejected, the response is
    not ok, or it carries no analysis text. *)
Definition provider_failed (fetched : GeminiClient.Fetched) : bool :=
  match fetched with
  | GeminiClient.Rejected _ => true
  | GeminiClient.Responded ok _ body =>
      negb ok
      || match (let* data := JSON.parse body in GeminiClient.analysisText_of data) with
         | Return analysisText => negb (truthy analysisText)
         | Throw _ => true
         end
  end.

(** The ranges of the chunks cover the lines [first] to [last], each
    chunk starting on the line after the one before it ended on. *)
Fixpoint covers {L} (first : nat) (chunks : list (Chunker.CodeChunk L)) (last : nat)
  : Prop :=
  match chunks with
  | [] => first = S last
  | c :: rest =>
      Chunker.startLine c = first
      /\ (Chunker.startLine c <= Chunker.endLine c)%nat
      /\ covers (S (Chunker.endLine c)) rest last
  end.

(** [chunk[i].endLine + 1 == chunk[i+1].startLine] *)
Fixpoint contiguous {L} (chunks : list (Chunker.CodeChunk L)) : Prop :=
  match chunks with
  | c :: ((d :: _) as rest) =>
      (Chunker.endLine c + 1)%nat = Chunker.startLine d /\ contiguous rest
  | _ => True
  end.

(** The place of a grade, best first. *)
Definition grade_rank (grade : jsstring) : Z :=
  if str_eqb grade (js "A") then 5
  else if str_eqb grade (js "B+") then 4
  else if str_eqb grade (js "B") then 3
  else if str_eqb grade (js "C+") then 2
  else if str_eqb grade (js "C") then 1
  else 0.

(** The number of issues whose severity is the string ["high"]. *)
Definition high_count (l : list App.Issue) : Z :=
  App.filter_length (fun i => App.strict_eq (App.severity i) "high") l.

Definition is_security (i : App.Issue) : bool :=
  App.strict_eq (App.type i) "security".

(** A report with a status only, as a poll returns it. *)
Definition report_with_status (status : string) : App.Report :=
  {| App.status := Some (js status); App.report_summary := None; App.issues := None |}.
Arguments report_with_status status%_string.

(** A service that is not found twice, works for two polls and then
    answers with the completed report. *)
Definition slow_service (n : nat) : App.Polled :=
  if (n <? 2)%nat then App.Failed (Some 404)
  else if (n <? 4)%nat then App.Answered (Some (report_with_status "processing"))
  else App.Answered (Some (report_with_status "completed")).

(** A server that answers 503 to the first [failures] attempts and 200
    afterwards, the browser online throughout. *)
Definition recovering_server (failures : nat) : APIClient.Network :=
  {| APIClient.fetch := fun attempt =>
       APIClient.Responded
         {| APIClient.response_status :=
              if (attempt <=? failures)%nat then 503 else 200;
            APIClient.Retry_After := None |};
     APIClient.navigator_onLine := fun _ => true |}.

(** The issues [validateIssueCounts] goes through: the elements of the
    array, none when [report.issues] is falsy. *)
Definition listed (issues : Value) : list Value :=
  match issues with
  | JArray elements | JArrayWith elements _ => elements
  | _ => []
  end.

(** The severity of the issue is a string that reads [name] once
    lower-cased. *)
Definition has_severity (name : string) (issue : Value) : bool :=
  match get_optional (Some issue) "severity" with
  | Some (JString s) => str_eqb (toLowerCase s) (js name)
  | _ => false
  end.
Arguments has_severity name%_string issue.

Definition severity_count (name : string) (issues : list Value) : Z :=
  Z.of_nat (List.length (List.filter (has_severity name) issues)).
Arguments severity_count name%_string issues.

(** The four members of the summary that [validateIssueCounts] writes. *)
Definition counted : list jsstring :=
  List.map js ["total_issues"; "high_severity_issues"; "medium_severity_issues";
               "low_severity_issues"]%string.

(** The wait before a retry, by the kind of the failure. *)
Definition expected_delay (onLine : bool) (error : APIClient.RequestError) : Z :=
  if negb onLine || str_eqb (APIClient.name error) (js "NetworkError") then 2000
  else if APIClient.status_is error (Z.eqb 429) then
    match APIClient.retryAfter error with
    | Some 0 => 1000
    | Some seconds => seconds * 1000
    | None => 60000
    end
  else 5000.

(** A text without a backtick, so that no fence starts in it. *)
Definition no_backtick (s : jsstring) : Prop := Forall (fun c => c <> ch "`") s.

(** The error of a [fetch] that could not reach the server: a TypeError,
    which has no status. *)
Definition failed_to_fetch : APIClient.RequestError :=
  {| APIClient.name := js "TypeError";
     APIClient.status := None;
     APIClient.retryAfter := None |}.

(** A server that cannot be reached, the browser reporting to be online. *)
Definition unreachable_server : APIClient.Network :=
  {| APIClient.fetch := fun _ => APIClient.Rejected failed_to_fetch;
     APIClient.navigator_onLine := fun _ => true |}.

(** An empty Python file. *)
Definition empty_file : App.File := {| App.name := js "main.py"; App.size := 0 |}.

(** The body of a response of the provider whose first candidate carries
    [text] as its analysis:
    [{candidates: [{content: {parts: [{text: text}]}}]}]. *)
Definition answer_with (text : Value) : Value :=
  JObject
    [(js "candidates",
      JArray [JObject
                [(js "content",
                  JObject [(js "parts", JArray [JObject [(js "text", text)]])])]])].

End Spec.

Import Spec.

(** * Properties *)

(** ** Scores *)

Lemma Math_round_integer (z : Z) : App.Math_round (inject_Z z) = z.
Proof.
  unfold App.Math_round.
  assert (H : (inject_Z z + (1 # 2) == (2 * z + 1) # 2)%Q).
  { unfold Qeq, Qplus, inject_Z. simpl. lia. }
  rewrite H. unfold Qfloor. simpl.
  symmetry. apply Z.div_unique with (r := 1); lia.
Qed.

Lemma filter_filter_andb {A} (f g : A -> bool) (l : list A) :
  List.filter g (List.filter f l) = List.filter (fun x => f x && g x) l.
Proof.
  induction l as [|x l IH]; simpl; [reflexivity|].
  destruct (f x); simpl; [destruct (g x)|]; rewrite ?IH; reflexivity.
Qed.

Lemma calculateQualityScore_penalised (summary : App.Summary) :
  App.calculateQualityScore (Some summary)
  = penalised 20 10 5 (App.or_zero (App.high_severity_issues summary))
                      (App.or_zero (App.medium_severity_issues summary))
                      (App.or_zero (App.low_severity_issues summary)).
Proof.
  unfold App.calculateQualityScore, penalised.
  rewrite Math_round_integer. f_equal. lia.
Qed.

(** C1. The quality score of a summary is
    max(0, 100 - 20*high - 10*medium - 5*low): each count that is present
    enters the formula as itself and a missing count as 0; a summary with
    no issue of any severity scores exactly 100. *)
Theorem quality_score_formula :
  (forall total high medium low : Z,
     App.calculateQualityScore
       (Some {| App.total_issues := Some total;
                App.high_severity_issues := Some high;
                App.medium_severity_issues := Some medium;
                App.low_severity_issues := Some low |})
     = Z.max 0 (100 - 20 * high - 10 * medium - 5 * low))
  /\ (forall total high medium low : option Z,
        App.calculateQualityScore
          (Some {| App.total_issues := total;
                   App.high_severity_issues := high;
                   App.medium_severity_issues := medium;
                   App.low_severity_issues := low |})
        = Z.max 0 (100 - 20 * default 0 high - 10 * default 0 medium
                   - 5 * default 0 low))
  /\ (forall total,
        App.calculateQualityScore
          (Some {| App.total_issues := total;
                   App.high_severity_issues := Some 0;
                   App.medium_severity_issues := Some 0;
                   App.low_severity_issues := Some 0 |}) = 100)
  /\ App.calculateQualityScore
       (Some {| App.total_issues := None;
                App.high_severity_issues := None;
                App.medium_severity_issues := None;
                App.low_severity_issues := None |}) = 100.
Proof.
  split; [|split; [|split]].
  - intros. rewrite calculateQualityScore_penalised. unfold penalised.
    cbn [App.or_zero App.high_severity_issues App.medium_severity_issues
         App.low_severity_issues]; f_equal; lia.
  - intros total [high|] [medium|] [low|]; rewrite calculateQualityScore_penalised;
      unfold penalised;
      cbn [App.or_zero App.high_severity_issues App.medium_severity_issues
           App.low_severity_issues default]; f_equal; lia.
  - intros. rewrite calculateQualityScore_penalised. reflexivity.
  - rewrite calculateQualityScore_penalised. reflexivity.
Qed.

Lemma quality_score_formula_witness :
  App.calculateQualityScore
    (Some {| App.total_issues := Some 6; App.high_severity_issues := Some 1;
             App.medium_severity_issues := Some 2;
             App.low_severity_issues := Some 3 |}) = 45
  /\ App.calculateQualityScore
       (Some {| App.total_issues := Some 6; App.high_severity_issues := Some 6;
                App.medium_severity_issues := None;
                App.low_severity_issues := None |}) = 0.
Proof.
  split.
  - exact (proj1 quality_score_formula 6 1 2 3).
  - exact (proj1 (proj2 quality_score_formula) (Some 6) (Some 6) None None).
Defined.

(** C2, as stated, fails: one high security issue costs 30 points, not 20. *)
Lemma security_score_differs_from_quality_formula :
  let l := [issue "security" "high" 12] in
  App.calculateSecurityScore (Some (report_of_issues l)) = 70
  /\ penalised 20 10 5 (security_count "high" l) (security_count "medium" l)
                       (security_count "low" l) = 80
  /\ App.calculateSecurityScore (Some (report_of_issues l))
     <> penalised 20 10 5 (security_count "high" l) (security_count "medium" l)
                          (security_count "low" l).
Proof. repeat split. discriminate. Qed.

(** C2, amended. The security score of a report with an issue list is
    max(0, 100 - 30*high - 15*medium - 5*low) over the issues whose type is
    security. *)
Theorem security_score_formula (status : option jsstring)
    (summary : option App.Summary) (l : list App.Issue) :
  App.calculateSecurityScore
    (Some {| App.status := status; App.report_summary := summary; App.issues := Some l |})
  = penalised 30 15 5 (security_count "high" l) (security_count "medium" l)
                      (security_count "low" l).
Proof.
  unfold App.calculateSecurityScore, penalised, security_count, App.filter_length.
  simpl. rewrite !filter_filter_andb. f_equal. lia.
Qed.

(** C10. Both scores lie in [0, 100] for every input with non-negative
    counts: the quality score is 85 without a summary, the security score
    is 100 without a report or without an issue list. *)
Theorem scores_within_bounds (summary : option App.Summary)
    (report : option App.Report)
    (Hcounts : forall s, summary = Some s -> nonnegative_counts s) :
  0 <= App.calculateQualityScore summary <= 100
  /\ 0 <= App.calculateSecurityScore report <= 100
  /\ App.calculateQualityScore None = 85
  /\ App.calculateSecurityScore None = 100
  /\ (forall r, App.issues r = None -> App.calculateSecurityScore (Some r) = 100).
Proof.
  repeat split; try reflexivity.
  - destruct summary as [s|]; [|simpl; lia].
    rewrite calculateQualityScore_penalised. unfold penalised. lia.
  - destruct summary as [s|]; [|simpl; lia].
    rewrite calculateQualityScore_penalised.
    destruct (Hcounts s eq_refl) as (Hh & Hm & Hl). unfold penalised. lia.
  - destruct report as [[st rs [l|]]|]; simpl; try lia.
  - destruct report as [[st rs [l|]]|]; simpl; try lia.
    unfold App.filter_length. lia.
  - intros r Hr. unfold App.calculateSecurityScore. rewrite Hr. reflexivity.
Qed.

Lemma scores_within_bounds_witness :
  let summary := Some {| App.total_issues := Some 9;
                         App.high_severity_issues := Some 4;
                         App.medium_severity_issues := Some 3;
                         App.low_severity_issues := Some 2 |} in
  let report := Some (report_of_issues [issue "security" "high" 12]) in
  0 <= App.calculateQualityScore summary <= 100
  /\ 0 <= App.calculateSecurityScore report <= 100.
Proof.
  intros summary report.
  destruct (scores_within_bounds summary report) as (Hq & Hs & _).
  - intros s [= <-]. unfold nonnegative_counts. simpl. lia.
  - exact (conj Hq Hs).
Defined.

(** ** The order of the issue list *)

(** Sorting by a numeric key, largest first: the facts shared by the
    claims about the issue list. *)
Section StableSort.
Context {A : Type} (comparefn : A -> A -> option Z) (key : A -> Z).
Context (P : A -> Prop).
Hypothesis comparefn_key :
  forall x y, P x -> P y -> comparefn x y = Some (key y - key x).

Local Abbreviation descending := (descending key).
Local Abbreviation with_key := (with_key key).

Lemma with_key_cons (r : Z) (a : A) (l : list A) :
  with_key r (a :: l)
  = if key a =? r then a :: with_key r l else with_key r l.
Proof. reflexivity. Qed.

Lemma insert_permutation (x : A) (l : list A) :
  Permutation (x :: l) (App.insert comparefn x l).
Proof.
  induction l as [|y l IH]; simpl; [reflexivity|].
  destruct (App.SortCompare comparefn x y <=? 0); [reflexivity|].
  rewrite perm_swap. now apply perm_skip.
Qed.

Lemma Array_sort_permutation (l : list A) :
  Permutation l (App.Array_sort comparefn l).
Proof.
  induction l as [|x l IH]; simpl; [reflexivity|].
  rewrite <- insert_permutation. now apply perm_skip.
Qed.

Lemma Array_sort_Forall (l : list A) :
  Forall P l -> Forall P (App.Array_sort comparefn l).
Proof.
  intros H. eapply Permutation_Forall; [apply Array_sort_permutation | exact H].
Qed.

Lemma SortCompare_key (x y : A) :
  P x -> P y -> App.SortCompare comparefn x y = key y - key x.
Proof.
  intros Hx Hy. unfold App.SortCompare. now rewrite comparefn_key.
Qed.

Lemma insert_descending (x : A) (l : list A) :
  P x -> Forall P l -> descending l -> descending (App.insert comparefn x l).
Proof.
  intros Hx Hl Hs. induction Hs as [|y l Hs IH Hy]; simpl.
  - constructor; constructor.
  - inversion Hl as [|? ? Py Pl]; subst.
    rewrite SortCompare_key by assumption.
    destruct (Z.leb_spec (key y - key x) 0) as [Hle|Hgt].
    + constructor; [now constructor|].
      constructor; [lia|].
      eapply Forall_impl; [|exact Hy]. simpl. intros; lia.
    + constructor; [now apply IH|].
      eapply Permutation_Forall; [apply insert_permutation|].
      constructor; [lia | exact Hy].
Qed.

Lemma Array_sort_descending (l : list A) :
  Forall P l -> descending (App.Array_sort comparefn l).
Proof.
  induction 1 as [|x l Hx Hl IH]; simpl; [constructor|].
  apply insert_descending; auto using Array_sort_Forall.
Qed.

(** An inserted element goes in front of the elements of its own key:
    insertion keeps, key by key, the order of [x :: l]. *)
Lemma insert_with_key (r : Z) (x : A) (l : list A) :
  P x -> Forall P l ->
  with_key r (App.insert comparefn x l) = with_key r (x :: l).
Proof.
  intros Hx Hl. induction Hl as [|y l Hy Hl IH]; [reflexivity|].
  cbn [App.insert]. rewrite SortCompare_key by assumption.
  destruct (Z.leb_spec (key y - key x) 0) as [Hle|Hgt]; [reflexivity|].
  rewrite (with_key_cons r y), IH, !with_key_cons.
  destruct (Z.eqb_spec (key x) r), (Z.eqb_spec (key y) r); try reflexivity; lia.
Qed.

Lemma Array_sort_with_key (r : Z) (l : list A) :
  Forall P l -> with_key r (App.Array_sort comparefn l) = with_key r l.
Proof.
  induction 1 as [|x l Hx Hl IH]; [reflexivity|].
  cbn [App.Array_sort]. rewrite insert_with_key by auto using Array_sort_Forall.
  now rewrite !with_key_cons, IH.
Qed.

Lemma with_key_nil_inv (l : list A) :
  (forall r, with_key r l = []) -> l = [].
Proof.
  destruct l as [|a l]; [reflexivity|]. intros H.
  specialize (H (key a)). rewrite with_key_cons, Z.eqb_refl in H. discriminate.
Qed.

Lemma with_key_above (r : Z) (l : list A) :
  Forall (fun b => key b < r) l -> with_key r l = [].
Proof.
  induction 1 as [|b l Hb Hl IH]; [reflexivity|].
  rewrite with_key_cons, IH.
  destruct (Z.eqb_spec (key b) r); [lia | reflexivity].
Qed.

Lemma descending_head_key (a b : A) (t1 t2 : list A) :
  descending (a :: t1) -> descending (b :: t2) ->
  (forall r, with_key r (a :: t1) = with_key r (b :: t2)) ->
  key a <= key b.
Proof.
  intros H1 H2 H.
  destruct (Z.le_gt_cases (key a) (key b)) as [|Hlt]; [assumption|].
  specialize (H (key a)). rewrite with_key_cons, Z.eqb_refl in H.
  rewrite (with_key_above (key a) (b :: t2)) in H; [discriminate|].
  inversion H2 as [|? ? _ Hall]; subst.
  constructor; [assumption|].
  eapply Forall_impl; [|exact Hall]. simpl. intros; lia.
Qed.

(** A list in descending key order is determined by its elements of each
    key, taken in order. *)
Lemma descending_unique (l1 l2 : list A) :
  descending l1 -> descending l2 ->
  (forall r, with_key r l1 = with_key r l2) -> l1 = l2.
Proof.
  intros H1. revert l2.
  induction H1 as [|a t1 Hs1 IH Ha]; intros l2 H2 H.
  - symmetry. apply with_key_nil_inv. intros r. now rewrite <- H.
  - destruct l2 as [|b t2].
    + exfalso. specialize (H (key a)).
      rewrite with_key_cons, Z.eqb_refl in H. discriminate.
    + assert (Hab : key a = key b).
      { assert (H1 : descending (a :: t1)) by now constructor.
        apply Z.le_antisymm.
        - exact (descending_head_key a b t1 t2 H1 H2 H).
        - apply (descending_head_key b a t2 t1 H2 H1).
          intros r. symmetry. apply H. }
      assert (Heq : a = b).
      { specialize (H (key a)). rewrite !with_key_cons in H.
        rewrite <- Hab, Z.eqb_refl in H. now injection H. }
      subst b. f_equal. apply IH.
      * now inversion H2.
      * intros r. specialize (H r). rewrite !with_key_cons in H.
        destruct (key a =? r); [now injection H | exact H].
Qed.

(** Whatever algorithm the engine uses, a stable sort with this
    comparison function returns [Array_sort]'s list. *)
Lemma stable_sort_unique (l l' : list A) :
  Forall P l -> descending l' ->
  (forall r, with_key r l' = with_key r l) ->
  l' = App.Array_sort comparefn l.
Proof.
  intros Hl Hs Hst. apply descending_unique; [assumption| |].
  - now apply Array_sort_descending.
  - intros r. now rewrite Hst, Array_sort_with_key.
Qed.
End StableSort.

Lemma compareSeverity_rank (a b : App.Issue) :
  plain_severity a -> plain_severity b ->
  App.compareSeverity a b = Some (severity_rank b - severity_rank a).
Proof.
  unfold plain_severity, App.compareSeverity, severity_rank, App.rank.
  intros Ha Hb.
  destruct (App.severityOrder (App.severity a)),
           (App.severityOrder (App.severity b)); congruence.
Qed.

(** C3, as stated, fails: two high issues at lines 10 and 5 stay in that
    order, so the list is not ordered by line within a severity. *)
Lemma sortedIssues_ignores_line :
  let issues := [issue "bug" "high" 10; issue "style" "high" 5] in
  App.sortedIssues issues = issues
  /\ ~ Sorted severity_then_line (App.sortedIssues issues).
Proof.
  split; [reflexivity|].
  intros H. inversion H as [|a l _ Hd]; subst.
  inversion Hd as [|b l' Hab]; subst.
  unfold severity_then_line, line_le in Hab. vm_compute in Hab.
  destruct Hab as [Hlt | [_ Hle]]; [discriminate Hlt | apply Hle; reflexivity].
Qed.

(** C3, amended. The displayed list is a reordering of the issues by
    descending severity only (high, medium, low, then any other severity),
    and issues of equal severity keep their original relative order; the
    line number plays no part. *)
Theorem sortedIssues_by_severity_stable (issues : list App.Issue)
    (Hplain : Forall plain_severity issues) :
  Permutation issues (App.sortedIssues issues)
  /\ descending severity_rank (App.sortedIssues issues)
  /\ (forall r, with_key severity_rank r (App.sortedIssues issues)
                = with_key severity_rank r issues).
Proof.
  unfold App.sortedIssues. split; [apply Array_sort_permutation|]. split.
  - eapply Array_sort_descending; [apply compareSeverity_rank | exact Hplain].
  - intros r. eapply Array_sort_with_key; [apply compareSeverity_rank | exact Hplain].
Qed.

Lemma sortedIssues_by_severity_stable_witness :
  let issues := [issue "style" "low" 3; issue "bug" "high" 10;
                 issue "bug" "urgent" 1; issue "security" "high" 5;
                 issue "performance" "medium" 7] in
  App.sortedIssues issues
  = [issue "bug" "high" 10; issue "security" "high" 5;
     issue "performance" "medium" 7; issue "style" "low" 3; issue "bug" "urgent" 1]
  /\ descending severity_rank (App.sortedIssues issues).
Proof.
  intros issues. split; [reflexivity|].
  apply (sortedIssues_by_severity_stable issues).
  repeat constructor; unfold plain_severity; vm_compute; discriminate.
Defined.

(** ** Upload validation *)

Lemma validateUploadFile_returned (file : App.File) :
  returned (App.validateUploadFile file)
  = includes App.allowedTypes (App.extension_of file)
    && negb (App.size file >? App.maxSize) && negb (App.size file =? 0).
Proof.
  unfold App.validateUploadFile.
  destruct (includes App.allowedTypes (App.extension_of file)); [|reflexivity].
  destruct (App.size file >? App.maxSize); [reflexivity|].
  destruct (App.size file =? 0); reflexivity.
Qed.

(** [validateUploadFile], the validator of [handleFileUpload], refuses a
    file exactly when it is empty, larger than 10 MB, or its extension
    is not an allowed one, and [handleFileUpload] then stops before the
    file is read, shown or sent.  The page registers neither of the
    two. *)
Theorem upload_rejected_iff (file : App.File) :
  (returned (App.validateUploadFile file) = false
   <-> App.size file = 0 \/ 10 * 1024 * 1024 < App.size file
       \/ includes App.allowedTypes (App.extension_of file) = false)
  /\ (forall readOk uploadOk,
        returned (App.validateUploadFile file) = false ->
        App.handleFileUpload (Some file) readOk uploadOk
        = [App.ShowUploadProgress 0 false; App.ValidateUploadFile;
           App.ShowUploadProgress 0 true; App.ResetCodeEditor]).
Proof.
  split.
  - rewrite validateUploadFile_returned. change App.maxSize with (10 * 1024 * 1024).
    destruct (includes App.allowedTypes (App.extension_of file));
      destruct (Z.gtb_spec (App.size file) (10 * 1024 * 1024)) as [Hgt|Hle];
      destruct (Z.eqb_spec (App.size file) 0) as [Hz|Hnz]; simpl; split;
      intros H; try reflexivity; try discriminate; auto;
      destruct H as [|[|]]; try lia; discriminate.
  - intros readOk uploadOk H. unfold App.handleFileUpload.
    destruct (App.validateUploadFile file); [discriminate | reflexivity].
Qed.

Lemma upload_rejected_iff_witness :
  let empty := {| App.name := js "main.py"; App.size := 0 |} in
  returned (App.validateUploadFile empty) = false
  /\ App.handleFileUpload (Some empty) true true
     = [App.ShowUploadProgress 0 false; App.ValidateUploadFile;
        App.ShowUploadProgress 0 true; App.ResetCodeEditor].
Proof.
  intros empty. split; [reflexivity|].
  apply (proj2 (upload_rejected_iff empty)). reflexivity.
Defined.

(** C8. The code does not keep the claim on an empty file.  The two
    handlers the page registers on its file inputs check the file with
    [validateUploadedFile] and with [validateFile], which test the
    extension and the 10 MB limit but not the size 0 that
    [validateUploadFile] refuses: an empty Python file is handed to the
    analysis by [handleGeminiFileUpload], and posted by the listener of
    the code editor, which moreover reads every file before anything
    checks it. *)
Theorem empty_file_is_analysed :
  App.size empty_file = 0
  /\ App.validateUploadFile empty_file = Throw App.FileIsEmpty
  /\ App.validateUploadedFile empty_file = Return tt
  /\ APIClient.validateFile empty_file = Return tt
  /\ (forall analysisOk,
        In App.AnalyzeFile (App.handleGeminiFileUpload (Some empty_file) analysisOk))
  /\ (forall post,
        In Page.PostFile (Page.fileUpload_change (Some empty_file) true None post))
  /\ (forall file apiClient authPrompt post,
        firstn 2 (Page.fileUpload_change (Some file) apiClient authPrompt post)
        = [Page.SetCurrentFilename; Page.ReadAsText]).
Proof.
  split; [reflexivity|]. split; [reflexivity|]. split; [reflexivity|].
  split; [reflexivity|]. split; [|split].
  - intros []; vm_compute; tauto.
  - intros [response|error]; [|vm_compute; tauto].
    unfold Page.fileUpload_change, Page.upload.
    change (APIClient.uploadFile (Some empty_file) (Return response))
      with (@Return APIClient.UploadFailure Value response).
    cbn [negb app]. destruct (get response "report_id") as [report_id|];
      [destruct (truthy report_id)|]; cbn [In]; tauto.
  - intros. reflexivity.
Qed.

(** ** Retries *)

Lemma default_handlers_network :
  (APIClient.initializeDefaultErrorHandlers !! js "network")
  = Some (fun _ => {| APIClient.retry := true; APIClient.delay := Some 2000 |}).
Proof. reflexivity. Qed.

Lemma default_handlers_server :
  (APIClient.initializeDefaultErrorHandlers !! js "server")
  = Some (fun _ => {| APIClient.retry := true; APIClient.delay := Some 5000 |}).
Proof. reflexivity. Qed.

Lemma default_handlers_auth :
  (APIClient.initializeDefaultErrorHandlers !! js "auth")
  = Some (fun _ => {| APIClient.retry := false; APIClient.delay := None |}).
Proof. reflexivity. Qed.

Lemma default_handlers_validation :
  (APIClient.initializeDefaultErrorHandlers !! js "validation")
  = Some (fun _ => {| APIClient.retry := false; APIClient.delay := None |}).
Proof. reflexivity. Qed.

Lemma default_handlers_rateLimit :
  exists handler,
    (APIClient.initializeDefaultErrorHandlers !! js "rateLimit") = Some handler
    /\ forall error, APIClient.retry (handler error) = true.
Proof. eexists. split; [reflexivity|]. reflexivity. Qed.

Lemma default_handlers_unknown :
  (APIClient.initializeDefaultErrorHandlers !! js "unknown") = None.
Proof. reflexivity. Qed.

(** With the default handlers, a failure is retried exactly when attempts
    remain and the failure is one of the retryable kinds. *)
Lemma handleError_retried (onLine : bool) (error : APIClient.RequestError)
    (attempt maxRetries : nat) :
  retried (APIClient.handleError APIClient.initializeDefaultErrorHandlers
             onLine error attempt maxRetries)
  = (attempt <? maxRetries)%nat && retryable onLine error.
Proof.
  unfold APIClient.handleError, APIClient.categorizeError, retryable.
  generalize (attempt <? maxRetries)%nat. intros more.
  destruct onLine; simpl negb; cbn [orb].
  2:{ rewrite default_handlers_network. cbn. destruct more; reflexivity. }
  destruct (str_eqb (APIClient.name error) (js "NetworkError")); cbn [orb].
  { rewrite default_handlers_network. cbn. destruct more; reflexivity. }
  unfold APIClient.status_is.
  destruct (APIClient.status error) as [s|]; cbn [orb].
  2:{ rewrite default_handlers_unknown. now rewrite andb_false_r. }
  destruct (Z.eqb_spec 401 s) as [E1|N1]; cbn [orb].
  { subst s. rewrite default_handlers_auth. cbn. now rewrite andb_false_r. }
  destruct (Z.eqb_spec 403 s) as [E3|N3]; cbn [orb].
  { subst s. rewrite default_handlers_auth. cbn. now rewrite andb_false_r. }
  destruct (Z.eqb_spec 429 s) as [E9|N9]; cbn [orb].
  { destruct default_handlers_rateLimit as (h & -> & Hh). cbn. rewrite Hh.
    destruct more; [|reflexivity].
    destruct (APIClient.delay _) as [d|]; [destruct (d =? 0)|]; reflexivity. }
  destruct (Z.leb_spec 400 s) as [L4|G4], (Z.ltb_spec s 500) as [L5|G5]; cbn [andb].
  - rewrite default_handlers_validation. cbn.
    destruct (Z.leb_spec 500 s); [lia|]. now rewrite andb_false_r.
  - destruct (Z.leb_spec 500 s); [|lia].
    rewrite default_handlers_server. cbn. destruct more; reflexivity.
  - destruct (Z.leb_spec 500 s); [lia|].
    rewrite default_handlers_unknown. now rewrite andb_false_r.
  - lia.
Qed.

Lemma handleError_Retry_lt (errorHandlers : gmap jsstring APIClient.Handler)
    (onLine : bool) (error : APIClient.RequestError) (attempt maxRetries : nat)
    (retryDelay : Z) :
  APIClient.handleError errorHandlers onLine error attempt maxRetries
  = APIClient.Retry retryDelay ->
  (attempt < maxRetries)%nat.
Proof.
  unfold APIClient.handleError.
  destruct (errorHandlers !! _) as [handler|]; [|discriminate].
  destruct (APIClient.retry _); [|discriminate].
  destruct (Nat.ltb_spec attempt maxRetries); [tauto | discriminate].
Qed.

(** One call of [makeRequest] makes at most [maxRetries - attempt + 1]
    attempts, numbered from [attempt]. *)
Lemma makeRequest_attempts (errorHandlers : gmap jsstring APIClient.Handler)
    (network : APIClient.Network) (attempt maxRetries : nat) :
  (List.length (APIClient.attempts
     (APIClient.makeRequest errorHandlers network attempt maxRetries))
   <= S (maxRetries - attempt))%nat.
Proof.
  funelim (APIClient.makeRequest errorHandlers network attempt maxRetries);
    cbn; try lia.
  match goal with
  | E : APIClient.handleError _ _ _ _ _ = APIClient.Retry _ |- _ =>
      pose proof (handleError_Retry_lt _ _ _ _ _ _ E)
  end.
  lia.
Qed.

(** While the browser reports being offline a 404 response is
    classified as a network error, and the request is sent three
    times. *)
Lemma client_error_retried_while_offline :
  APIClient.categorizeError false (http_error 404) = js "network"
  /\ APIClient.handleError APIClient.initializeDefaultErrorHandlers false
       (http_error 404) 1 3 = APIClient.Retry 2000
  /\ APIClient.attempts
       (APIClient.makeRequest APIClient.initializeDefaultErrorHandlers
          (always_responds 404 false) 1 3) = [1; 2; 3]%nat.
Proof. repeat split; vm_compute; reflexivity. Qed.

(** The decisions of the default handlers as the code takes them.  A
    request is attempted at most 3 times in total.  A failed attempt is
    retried exactly when fewer than 3 attempts were made and
    [categorizeError] classifies the failure as network (the browser is
    offline, or the error is named NetworkError), rate limit (429) or
    server (500 and above).  While the browser is online, a 4xx response
    other than 429 is never retried. *)
Theorem retry_policy :
  (forall network,
     (List.length (APIClient.attempts
        (APIClient.makeRequest APIClient.initializeDefaultErrorHandlers network 1 3))
      <= 3)%nat)
  /\ (forall onLine error attempt,
        retried (APIClient.handleError APIClient.initializeDefaultErrorHandlers
                   onLine error attempt 3)
        = (attempt <? 3)%nat && retryable onLine error)
  /\ (forall error code attempt,
        APIClient.status error = Some code ->
        400 <= code < 500 -> code <> 429 ->
        str_eqb (APIClient.name error) (js "NetworkError") = false ->
        APIClient.handleError APIClient.initializeDefaultErrorHandlers
          true error attempt 3 = APIClient.Rethrow).
Proof.
  split; [|split].
  - intros network.
    exact (makeRequest_attempts _ network 1 3).
  - intros. apply handleError_retried.
  - intros error code attempt Hs Hc Hn Hname.
    pose proof (handleError_retried true error attempt 3) as H.
    assert (Hr : retryable true error = false).
    { unfold retryable, APIClient.status_is. rewrite Hs, Hname. cbn [negb orb].
      destruct (Z.eqb_spec 429 code); [lia|].
      destruct (Z.leb_spec 500 code); [lia | reflexivity]. }
    rewrite Hr, andb_false_r in H.
    destruct (APIClient.handleError _ _ _ _ _); [discriminate | reflexivity].
Qed.

Lemma retry_policy_witness :
  APIClient.handleError APIClient.initializeDefaultErrorHandlers
    true (http_error 404) 1 3 = APIClient.Rethrow.
Proof.
  apply (proj2 (proj2 retry_policy) (http_error 404) 404 1%nat);
    [reflexivity | lia | discriminate | reflexivity].
Defined.

(** C5. The code does not keep the claim on network errors.  A [fetch]
    that cannot reach the server rejects with a TypeError, which has no
    status; while the browser reports to be online [categorizeError]
    classifies it as unknown, no handler is found, and the request is
    thrown after one attempt, although the network handler asks for a
    retry and [isRetryableError] of the page's error handler takes an
    error without status as retryable.  The same test of
    [navigator.onLine] makes a 404 received while offline a network
    error, sent three times, which [isRetryableError] would not retry. *)
Theorem rejected_fetch_is_not_retried :
  APIClient.categorizeError true failed_to_fetch = js "unknown"
  /\ APIClient.handleError APIClient.initializeDefaultErrorHandlers true
       failed_to_fetch 1 3 = APIClient.Rethrow
  /\ APIClient.attempts
       (APIClient.makeRequest APIClient.initializeDefaultErrorHandlers
          unreachable_server 1 3) = [1%nat]
  /\ APIClient.outcome
       (APIClient.makeRequest APIClient.initializeDefaultErrorHandlers
          unreachable_server 1 3) = Throw failed_to_fetch
  /\ ErrorHandler.isRetryableError failed_to_fetch = true
  /\ (exists handler,
        APIClient.initializeDefaultErrorHandlers !! js "network" = Some handler
        /\ APIClient.retry (handler failed_to_fetch) = true)
  /\ APIClient.attempts
       (APIClient.makeRequest APIClient.initializeDefaultErrorHandlers
          (always_responds 404 false) 1 3) = [1; 2; 3]%nat
  /\ ErrorHandler.isRetryableError (http_error 404) = false.
Proof.
  repeat split; try (vm_compute; reflexivity).
  eexists. split; [apply default_handlers_network | reflexivity].
Qed.

(** ** The chunker *)

Lemma lines_from_concat (text current : jsstring) :
  List.concat (Chunker.lines_from current text) = rev current ++ text.
Proof.
  revert current. induction text as [|c text IH]; intros current; simpl.
  - destruct current; simpl; now rewrite ?app_nil_r.
  - destruct (c =? 10)%N; simpl; rewrite IH; simpl; now rewrite <- ?app_assoc.
Qed.

Lemma pack_concat {A} (size : A -> nat) (max : nat) (items current : list A)
    (used : nat) :
  List.concat (Chunker.pack size max current used items) = rev current ++ items.
Proof.
  revert current used. induction items as [|x items IH]; intros current used; simpl.
  - destruct current; simpl; now rewrite ?app_nil_r.
  - destruct current as [|y current]; [now rewrite IH|].
    destruct (used + size x <=? max)%nat; simpl; rewrite IH; simpl;
      now rewrite <- ?app_assoc.
Qed.

Lemma concat_map_concat {A} (l : list (list (list A))) :
  List.concat (List.map (@List.concat A) l) = List.concat (List.concat l).
Proof.
  induction l as [|x l IH]; [reflexivity|].
  simpl. now rewrite concat_app, IH.
Qed.

Lemma rev_cons_not_nil {A} (x : A) (l : list A) : rev (x :: l) <> [].
Proof. simpl. destruct (rev l); discriminate. Qed.

Lemma pack_nonempty {A} (size : A -> nat) (max : nat) (items current : list A)
    (used : nat) :
  Forall (fun g => g <> []) (Chunker.pack size max current used items).
Proof.
  revert current used. induction items as [|x items IH]; intros current used; simpl.
  - destruct current; constructor; [apply rev_cons_not_nil | constructor].
  - destruct current as [|y current]; [apply IH|].
    destruct (used + size x <=? max)%nat; [apply IH|].
    constructor; [apply rev_cons_not_nil | apply IH].
Qed.

Section ChunkerFacts.
Context {Language : Type}.
Context (starts_unit : Language -> list jsstring -> jsstring -> bool).

Lemma units_concat (lang : Language) (rest seen current : list jsstring) :
  List.concat (Chunker.units starts_unit lang seen current rest) = rev current ++ rest.
Proof.
  revert seen current.
  induction rest as [|l rest IH]; intros seen current; simpl.
  - destruct current; simpl; now rewrite ?app_nil_r.
  - destruct current as [|y current]; [now rewrite IH|].
    destruct (starts_unit lang (rev seen) l); simpl; rewrite IH; simpl;
      now rewrite <- ?app_assoc.
Qed.

Lemma pieces_concat (maxChunkSize : nat) (unit_lines : list jsstring) :
  List.concat (Chunker.pieces maxChunkSize unit_lines) = unit_lines.
Proof.
  unfold Chunker.pieces.
  destruct (Chunker.text_size unit_lines <=? maxChunkSize)%nat.
  - simpl. apply app_nil_r.
  - apply pack_concat.
Qed.

Lemma flat_map_pieces_concat (maxChunkSize : nat) (us : list (list jsstring)) :
  List.concat (List.flat_map (Chunker.pieces maxChunkSize) us) = List.concat us.
Proof.
  induction us as [|u us IH]; [reflexivity|].
  simpl. now rewrite concat_app, pieces_concat, IH.
Qed.

Lemma number_content (lang : Language) (groups : list (list jsstring))
    (index start : nat) :
  List.concat (List.map Chunker.content (Chunker.number lang index start groups))
  = List.concat (List.concat groups).
Proof.
  revert index start. induction groups as [|g groups IH]; intros; [reflexivity|].
  simpl. now rewrite IH, concat_app.
Qed.

Lemma number_covers (lang : Language) (groups : list (list jsstring))
    (index start : nat) :
  Forall (fun g => g <> []) groups -> (1 <= start)%nat ->
  covers start (Chunker.number lang index start groups)
    (start + List.length (List.concat groups) - 1).
Proof.
  intros H. revert index start.
  induction H as [|g groups Hg _ IH]; intros index start Hstart; simpl.
  - lia.
  - assert (0 < List.length g)%nat by (destruct g; [congruence | simpl; lia]).
    split; [reflexivity|]. split; [lia|].
    rewrite length_app.
    replace (S (start + List.length g - 1)) with (start + List.length g)%nat by lia.
    replace (start + (List.length g + List.length (List.concat groups)) - 1)%nat
      with (start + List.length g + List.length (List.concat groups) - 1)%nat by lia.
    apply IH. lia.
Qed.

Lemma number_indexes (lang : Language) (groups : list (list jsstring))
    (index start : nat) :
  List.map Chunker.sequenceIndex (Chunker.number lang index start groups)
  = seq index (List.length groups).
Proof.
  revert index start. induction groups as [|g groups IH]; intros; [reflexivity|].
  simpl. now rewrite IH.
Qed.

Lemma covers_contiguous (chunks : list (Chunker.CodeChunk Language))
    (first last : nat) :
  covers first chunks last -> contiguous chunks.
Proof.
  revert first. induction chunks as [|c chunks IH]; intros first H; [exact I|].
  destruct H as (_ & _ & H). destruct chunks as [|d chunks]; [exact I|].
  split; [|eapply IH; exact H].
  destruct H as (-> & _). lia.
Qed.

Lemma concat_nonempty (group : list (list jsstring)) :
  group <> [] -> Forall (fun p => p <> []) group -> List.concat group <> [].
Proof.
  intros Hg Hall. destruct Hall as [|p ps Hp _]; [congruence|].
  simpl. destruct p; [congruence | discriminate].
Qed.

Lemma units_nonempty (lang : Language) (rest seen current : list jsstring) :
  Forall (fun u => u <> []) (Chunker.units starts_unit lang seen current rest).
Proof.
  revert seen current.
  induction rest as [|l rest IH]; intros seen current; simpl.
  - destruct current; constructor; [apply rev_cons_not_nil | constructor].
  - destruct current as [|y current]; [apply IH|].
    destruct (starts_unit lang (rev seen) l); [|apply IH].
    constructor; [apply rev_cons_not_nil | apply IH].
Qed.

Lemma pieces_nonempty (maxChunkSize : nat) (unit_lines : list jsstring) :
  unit_lines <> [] ->
  Forall (fun p => p <> []) (Chunker.pieces maxChunkSize unit_lines).
Proof.
  intros H. unfold Chunker.pieces.
  destruct (Chunker.text_size unit_lines <=? maxChunkSize)%nat.
  - now repeat constructor.
  - apply pack_nonempty.
Qed.

Lemma flat_map_pieces_nonempty (maxChunkSize : nat) (us : list (list jsstring)) :
  Forall (fun u => u <> []) us ->
  Forall (fun p => p <> []) (List.flat_map (Chunker.pieces maxChunkSize) us).
Proof.
  induction 1 as [|u us Hu _ IH]; simpl; [constructor|].
  apply Forall_app. split; [now apply pieces_nonempty | exact IH].
Qed.

Lemma packed_groups_nonempty (maxChunkSize : nat) (parts : list (list jsstring)) :
  Forall (fun p => p <> []) parts ->
  Forall (fun g => g <> [])
    (List.map (@List.concat jsstring)
       (Chunker.pack Chunker.text_size maxChunkSize [] 0 parts)).
Proof.
  intros Hparts. apply Forall_map.
  assert (Hin : Forall (Forall (fun p => p <> []))
                  (Chunker.pack Chunker.text_size maxChunkSize [] 0 parts)).
  { apply Forall_forall. intros g Hg. apply Forall_forall. intros p Hp.
    rewrite Forall_forall in Hparts. apply Hparts.
    change parts with (rev [] ++ parts).
    rewrite <- (pack_concat Chunker.text_size maxChunkSize parts [] 0).
    apply in_concat. eauto. }
  pose proof (pack_nonempty Chunker.text_size maxChunkSize parts [] 0) as Hne.
  revert Hin Hne. generalize (Chunker.pack Chunker.text_size maxChunkSize [] 0 parts).
  induction l as [|g l IH]; intros Hin Hne; constructor.
  - inversion Hin; inversion Hne; subst. now apply concat_nonempty.
  - inversion Hin; inversion Hne; subst. now apply IH.
Qed.

(** The groups of lines the chunker numbers: they are not empty and, put
    end to end, they are the lines of the text. *)
Lemma chunk_groups (sanitizedContent : jsstring) (lang : Language)
    (maxChunkSize : nat) :
  exists groups,
    Chunker.chunk starts_unit sanitizedContent lang maxChunkSize
    = Chunker.number lang 0 1 groups
    /\ Forall (fun g => g <> []) groups
    /\ List.concat groups = Chunker.lines sanitizedContent.
Proof.
  unfold Chunker.chunk.
  destruct (Chunker.lines sanitizedContent) as [|l all] eqn:Hlines.
  - exists []. repeat split; constructor.
  - destruct (List.length sanitizedContent <=? maxChunkSize)%nat.
    + exists [l :: all]. split; [reflexivity|]. split.
      * repeat constructor. discriminate.
      * simpl. now rewrite app_nil_r.
    + eexists. split; [reflexivity|]. split.
      * apply packed_groups_nonempty, flat_map_pieces_nonempty, units_nonempty.
      * rewrite concat_map_concat, pack_concat. simpl.
        rewrite flat_map_pieces_concat, units_concat. reflexivity.
Qed.
End ChunkerFacts.

(** C7. The contents of the chunks, put end to end in sequence order, are
    the sanitized content; the line ranges are contiguous, do not overlap
    and cover the lines 1 to [totalLines]. *)
Theorem chunk_round_trip {Language : Type}
    (starts_unit : Language -> list jsstring -> jsstring -> bool)
    (sanitizedContent : jsstring) (lang : Language) (maxChunkSize : nat) :
  let chunks := Chunker.chunk starts_unit sanitizedContent lang maxChunkSize in
  List.concat (List.map Chunker.content chunks) = sanitizedContent
  /\ covers 1 chunks (Chunker.totalLines sanitizedContent)
  /\ contiguous chunks
  /\ List.map Chunker.sequenceIndex chunks = seq 0 (List.length chunks).
Proof.
  intros chunks. subst chunks.
  destruct (chunk_groups starts_unit sanitizedContent lang maxChunkSize)
    as (groups & -> & Hne & Hcat).
  assert (Hcov : covers 1 (Chunker.number lang 0 1 groups)
                   (Chunker.totalLines sanitizedContent)).
  { unfold Chunker.totalLines. rewrite <- Hcat.
    replace (List.length (List.concat groups))
      with (1 + List.length (List.concat groups) - 1)%nat by lia.
    apply number_covers; [exact Hne | lia]. }
  split; [|split; [exact Hcov | split]].
  - rewrite number_content, Hcat. unfold Chunker.lines.
    now rewrite lines_from_concat.
  - eapply covers_contiguous. exact Hcov.
  - rewrite number_indexes. f_equal.
    clear. generalize 0%nat 1%nat. induction groups as [|g groups IH]; intros; simpl;
      [reflexivity | now rewrite <- IH].
Qed.

(** ** The Gemini client: what a response becomes *)

Ltac case_exc :=
  repeat match goal with
         | |- context [JS.bind ?m _] =>
             let E := fresh "E" in destruct m eqn:E; cbn [JS.bind]
         end.

Lemma validateIssueCounts_Return (report r : GeminiClient.Report) :
  GeminiClient.validateIssueCounts report = Return r ->
  exists summary, r = GeminiClient.with_summary report summary.
Proof.
  unfold GeminiClient.validateIssueCounts. case_exc; try discriminate.
  intros [= <-]. eauto.
Qed.

Lemma build_Return (env : GeminiClient.Env) (analysis : Value) (filename : jsstring)
    (r : GeminiClient.Report) :
  GeminiClient.build env analysis filename = Return r ->
  GeminiClient.status r = js "completed" /\ GeminiClient.filename r = filename.
Proof.
  unfold GeminiClient.build. case_exc; try discriminate.
  intros [= <-]. split; reflexivity.
Qed.

Lemma parsed_report_Return (env : GeminiClient.Env) (analysisText : Value)
    (filename : jsstring) (r : GeminiClient.Report) :
  GeminiClient.parsed_report env analysisText filename = Return r ->
  GeminiClient.status r = js "completed" /\ GeminiClient.filename r = filename.
Proof.
  unfold GeminiClient.parsed_report. case_exc; try discriminate.
  intros H. apply validateIssueCounts_Return in H as [summary ->].
  match goal with
  | E : GeminiClient.build _ _ _ = Return _ |- _ => apply build_Return in E
  end.
  assumption.
Qed.

(** Every report of the parser is a completed one. *)
Lemma parseAnalysisResponse_completed (env : GeminiClient.Env) (analysisText : Value)
    (filename : jsstring) :
  GeminiClient.status (GeminiClient.parseAnalysisResponse env analysisText filename)
  = js "completed".
Proof.
  unfold GeminiClient.parseAnalysisResponse.
  destruct (GeminiClient.parsed_report env analysisText filename) eqn:E.
  - now apply parsed_report_Return in E.
  - reflexivity.
Qed.

(** The clock and the generator reach the identifier and the timestamp
    only. *)
Lemma build_content (env1 env2 : GeminiClient.Env) (analysis : Value)
    (filename : jsstring) :
  match GeminiClient.build env1 analysis filename,
        GeminiClient.build env2 analysis filename with
  | Return r1, Return r2 => content r1 = content r2
  | Throw _, Throw _ => True
  | _, _ => False
  end.
Proof.
  unfold GeminiClient.build. case_exc; try exact I. reflexivity.
Qed.

Lemma validateIssueCounts_content (r1 r2 : GeminiClient.Report) :
  content r1 = content r2 ->
  match GeminiClient.validateIssueCounts r1, GeminiClient.validateIssueCounts r2 with
  | Return v1, Return v2 => content v1 = content v2
  | Throw _, Throw _ => True
  | _, _ => False
  end.
Proof.
  destruct r1, r2. unfold content. cbn. intros [= -> -> -> -> -> ->].
  unfold GeminiClient.validateIssueCounts. cbn.
  case_exc; try exact I. reflexivity.
Qed.

Lemma parseAnalysisResponse_content (env1 env2 : GeminiClient.Env)
    (analysisText : Value) (filename : jsstring) :
  content (GeminiClient.parseAnalysisResponse env1 analysisText filename)
  = content (GeminiClient.parseAnalysisResponse env2 analysisText filename).
Proof.
  unfold GeminiClient.parseAnalysisResponse, GeminiClient.parsed_report.
  destruct (GeminiClient.parsed analysisText) as [analysis|e]; cbn; [|reflexivity].
  pose proof (build_content env1 env2 analysis filename) as Hb.
  destruct (GeminiClient.build env1 analysis filename) as [r1|],
           (GeminiClient.build env2 analysis filename) as [r2|];
    cbn; try contradiction; [|reflexivity].
  pose proof (validateIssueCounts_content r1 r2 Hb) as Hv.
  destruct (GeminiClient.validateIssueCounts r1),
           (GeminiClient.validateIssueCounts r2); try contradiction;
    [exact Hv | reflexivity].
Qed.

(** C4, as stated, fails: a text that is not JSON gives a completed report
    with the fallback scores and a placeholder issue, and a JSON object
    without any of the required members gives a completed report with the
    default scores. *)
Lemma unparseable_response_is_coerced :
  let broken := GeminiClient.parseAnalysisResponse clock
                  (JString (js "The code looks fine to me.")) (js "main.py") in
  let bare := GeminiClient.parseAnalysisResponse clock (JString (js "{}")) (js "main.py") in
  JSON.parse (GeminiClient.jsonText (js "The code looks fine to me.")) = Throw SyntaxError
  /\ GeminiClient.status broken = js "completed"
  /\ GeminiClient.report_summary broken = GeminiClient.fallback_summary
  /\ GeminiClient.issues broken = JArray [GeminiClient.fallback_issue]
  /\ GeminiClient.status bare = js "completed"
  /\ GeminiClient.report_summary bare = GeminiClient.default_summary
  /\ GeminiClient.issues bare = JArray [].
Proof. repeat split; vm_compute; reflexivity. Qed.

(** ** The Gemini client: a failed call *)

Lemma try_catch_rethrow {A} (body : Exc JsError A) :
  JS.try_catch body (fun error => Throw error) = body.
Proof. destruct body; reflexivity. Qed.

(** C6, as stated, fails: when the provider answers without analysis text,
    or with an error status, the caller gets the thrown error and no
    report. *)
Lemma failed_call_throws :
  GeminiClient.analyzeCode (Some (js "key")) clock
    (GeminiClient.Responded true (js "OK") (js "{}")) (js "x = 1") (js "main.py")
  = Throw (Error (js "No analysis received from Gemini API"))
  /\ GeminiClient.analyzeCode (Some (js "key")) clock
       (GeminiClient.Responded false (js "Service Unavailable")
          (quoted "{'error': {'message': 'The model is overloaded'}}"))
       (js "x = 1") (js "main.py")
     = Throw (ErrorWith (js "Gemini API error: ") (JString (js "The model is overloaded"))).
Proof. split; vm_compute; reflexivity. Qed.

(** C6, amended. When the call to the provider fails, [analyzeCode] throws
    the error to its caller and returns no report; every report it does
    return has status completed, so it never returns a report whose status
    is failed. *)
Theorem failed_call_is_thrown (apiKey : option jsstring) (env : GeminiClient.Env)
    (fetched : GeminiClient.Fetched) (code filename : jsstring) :
  (provider_failed fetched = true ->
   returned (GeminiClient.analyzeCode apiKey env fetched code filename) = false)
  /\ (forall r,
        GeminiClient.analyzeCode apiKey env fetched code filename = Return r ->
        GeminiClient.status r = js "completed").
Proof.
  unfold GeminiClient.analyzeCode, provider_failed.
  destruct (negb (truthy (option_map JString apiKey))).
  { split; [reflexivity | discriminate]. }
  rewrite try_catch_rethrow.
  destruct fetched as [error | ok statusText body].
  { split; [reflexivity | discriminate]. }
  destruct ok; cbn [negb orb].
  - destruct (JSON.parse body) as [data|]; cbn [JS.bind];
      [|split; [reflexivity | discriminate]].
    destruct (GeminiClient.analysisText_of data) as [[text|]|]; cbn [JS.bind];
      try (split; [reflexivity | discriminate]).
    destruct (truthy (Some text)); cbn [negb].
    + split; [discriminate|]. intros r [= <-]. apply parseAnalysisResponse_completed.
    + split; [reflexivity | discriminate].
  - case_exc; split; try reflexivity; discriminate.
Qed.

Lemma failed_call_is_thrown_witness :
  returned (GeminiClient.analyzeCode (Some (js "key")) clock
              (GeminiClient.Rejected TypeError) (js "x = 1") (js "main.py")) = false.
Proof.
  apply (proj1 (failed_call_is_thrown (Some (js "key")) clock
                  (GeminiClient.Rejected TypeError) (js "x = 1") (js "main.py"))).
  reflexivity.
Defined.

(** ** Determinism *)

(** C9. Two runs on the same analysis agree on the issues, in order, and on
    the summary with its counts, whatever the clock and the random
    generator give; the order of the displayed list is the one any stable
    sort by severity produces; and the dashboard's score and issue count
    do not depend on the random processing time. *)
Theorem aggregation_deterministic :
  (forall env1 env2 analysisText filename,
     content (GeminiClient.parseAnalysisResponse env1 analysisText filename)
     = content (GeminiClient.parseAnalysisResponse env2 analysisText filename))
  /\ (forall issues sorted,
        Forall plain_severity issues ->
        descending severity_rank sorted ->
        (forall r, with_key severity_rank r sorted = with_key severity_rank r issues) ->
        sorted = App.sortedIssues issues)
  /\ (forall window1 window2 summary,
        App.qualityValue (App.updateDashboardFromSummary window1 summary)
        = App.qualityValue (App.updateDashboardFromSummary window2 summary)
        /\ App.issuesValue (App.updateDashboardFromSummary window1 summary)
           = App.issuesValue (App.updateDashboardFromSummary window2 summary)).
Proof.
  split; [|split].
  - apply parseAnalysisResponse_content.
  - intros issues sorted Hplain Hdesc Hstable.
    eapply stable_sort_unique; eauto using compareSeverity_rank.
  - intros. split; reflexivity.
Qed.

Lemma aggregation_deterministic_witness :
  let issues := [issue "style" "low" 3; issue "bug" "high" 10;
                 issue "security" "high" 5] in
  [issue "bug" "high" 10; issue "security" "high" 5; issue "style" "low" 3]
  = App.sortedIssues issues.
Proof.
  intros issues.
  apply (proj1 (proj2 aggregation_deterministic) issues).
  - repeat constructor; unfold plain_severity; vm_compute; discriminate.
  - unfold descending. repeat constructor; vm_compute; discriminate.
  - intros r. unfold with_key, issues. cbn [List.filter].
    change (severity_rank (issue "bug" "high" 10)) with 3.
    change (severity_rank (issue "security" "high" 5)) with 3.
    change (severity_rank (issue "style" "low" 3)) with 1.
    destruct (Z.eqb_spec 3 r), (Z.eqb_spec 1 r); try reflexivity; lia.
Defined.

(** ** Worked scenarios *)

(** A clean file: the response has no issue, the report is completed with
    a total of 0 and the dashboard shows a quality score of 100. *)
Example clean_code_scenario :
  let r := GeminiClient.parseAnalysisResponse clock
             (JString (quoted "```json
{'issues': [], 'recommendations': []}
```"))
             (js "add.py") in
  GeminiClient.status r = js "completed"
  /\ GeminiClient.issues r = JArray []
  /\ App.total_issues (dashboard_summary (GeminiClient.report_summary r)) = Some 0
  /\ App.calculateQualityScore (Some (dashboard_summary (GeminiClient.report_summary r)))
     = 100.
Proof. repeat split; vm_compute; reflexivity. Qed.

(** The counts written on the summary are those of the issue list, upper
    case included, whatever the response claimed. *)
Example counts_are_recomputed :
  let r := GeminiClient.parseAnalysisResponse clock
             (JString (quoted
                "{'summary': {'total_issues': 40, 'security_score': 10},
                  'issues': [{'severity': 'HIGH', 'line': 3}, {'severity': 'low'},
                             {'severity': 'urgent'}, {'line': 9}]}"))
             (js "main.js") in
  dashboard_summary (GeminiClient.report_summary r)
  = {| App.total_issues := Some 4; App.high_severity_issues := Some 1;
       App.medium_severity_issues := Some 0; App.low_severity_issues := Some 1 |}
  /\ App.calculateQualityScore (Some (dashboard_summary (GeminiClient.report_summary r)))
     = 75.
Proof. split; vm_compute; reflexivity. Qed.

(** Three Python functions with a small budget: one chunk per function. *)
Example chunk_scenario :
  let source := js "def a():
    return 1
def b():
    return 2
def c():
    return 3
" in
  List.map (fun c => (Chunker.sequenceIndex c, Chunker.startLine c, Chunker.endLine c))
    (Chunker.chunk Chunker.python_like source tt 30)
  = [(0, 1, 2); (1, 3, 4); (2, 5, 6)]%nat.
Proof. vm_compute. reflexivity. Qed.

(** A server error is retried twice, five seconds apart, then thrown. *)
Example server_error_scenario :
  let run := APIClient.makeRequest APIClient.initializeDefaultErrorHandlers
               (always_responds 503 true) 1 3 in
  APIClient.attempts run = [1; 2; 3]%nat
  /\ APIClient.delays run = [5000; 5000]
  /\ APIClient.outcome run = Throw (http_error 503).
Proof. repeat split; vm_compute; reflexivity. Qed.

(** * Further properties *)

(** ** Grades and scores *)

Lemma str_eqb_eq (s t : jsstring) : str_eqb s t = true <-> s = t.
Proof.
  revert t. induction s as [|c s IH]; intros [|d t]; simpl; split;
    try discriminate; try reflexivity.
  - intros H. apply andb_true_iff in H as [Hc Hs].
    apply N.eqb_eq in Hc. apply IH in Hs. now subst.
  - intros [= -> ->]. rewrite N.eqb_refl. now apply IH.
Qed.

Lemma quality_grade_of_counts (l : list App.Issue) :
  App.calculateQualityGrade (Some (report_of_issues l))
  = let h := high_count l in
    let t := Z.of_nat (List.length l) in
    if (h =? 0) && (t <=? 2) then js "A"
    else if (h =? 0) && (t <=? 5) then js "B+"
    else if (h <=? 1) && (t <=? 8) then js "B"
    else if (h <=? 2) && (t <=? 12) then js "C+"
    else if h <=? 3 then js "C"
    else js "D".
Proof. reflexivity. Qed.

Lemma high_count_cons (i : App.Issue) (l : list App.Issue) :
  high_count (i :: l)
  = high_count l + (if App.strict_eq (App.severity i) "high" then 1 else 0).
Proof.
  unfold high_count, App.filter_length. cbn [List.filter].
  destruct (App.strict_eq (App.severity i) "high"); cbn [List.length]; lia.
Qed.

Lemma high_count_bounds (l : list App.Issue) :
  0 <= high_count l <= Z.of_nat (List.length l).
Proof.
  unfold high_count, App.filter_length.
  pose proof (filter_length_le (fun i => App.strict_eq (App.severity i) "high") l).
  lia.
Qed.

Ltac grade_cases :=
  repeat (match goal with
          | |- context [if (?a =? ?b) && _ then _ else _] => destruct (Z.eqb_spec a b)
          | |- context [if (?a <=? ?b) && _ then _ else _] => destruct (Z.leb_spec a b)
          | |- context [if ?a <=? ?b then _ else _] => destruct (Z.leb_spec a b)
          end; cbn [andb]; cbv iota; try (exfalso; lia)).

(** X1. One more issue never gives a better grade. *)
Theorem quality_grade_monotone (i : App.Issue) (l : list App.Issue) :
  grade_rank (App.calculateQualityGrade (Some (report_of_issues (i :: l))))
  <= grade_rank (App.calculateQualityGrade (Some (report_of_issues l))).
Proof.
  rewrite !quality_grade_of_counts. cbv zeta.
  rewrite high_count_cons. cbn [List.length]. rewrite Nat2Z.inj_succ.
  pose proof (high_count_bounds l) as Hb.
  generalize dependent (high_count l). intros h Hb.
  generalize dependent (Z.of_nat (List.length l)). intros t Hb.
  destruct (App.strict_eq (App.severity i) "high");
    grade_cases; vm_compute; discriminate.
Qed.

(** X2. The grade is shown as a success exactly when there is no high
    issue and at most five issues, and as an error exactly when there are
    three high issues or more, or more than twelve issues. *)
Theorem quality_grade_class (l : list App.Issue) :
  let class := App.getGradeClass (App.calculateQualityGrade (Some (report_of_issues l))) in
  (class = js "success" <-> high_count l = 0 /\ Z.of_nat (List.length l) <= 5)
  /\ (class = js "error" <-> 3 <= high_count l \/ 12 < Z.of_nat (List.length l)).
Proof.
  cbv zeta. rewrite quality_grade_of_counts. cbv zeta.
  pose proof (high_count_bounds l) as Hb.
  generalize dependent (high_count l). intros h Hb.
  generalize dependent (Z.of_nat (List.length l)). intros t Hb.
  grade_cases;
    (split; (split; [intros Hc; try lia; vm_compute in Hc; discriminate
                            | intros Hc; try lia; reflexivity])).
Qed.

Lemma quality_grade_class_witness :
  App.getGradeClass (App.calculateQualityGrade
                       (Some (report_of_issues [issue "style" "low" 3])))
  = js "success".
Proof.
  apply (proj2 (proj1 (quality_grade_class [issue "style" "low" 3]))).
  split; [reflexivity | simpl; lia].
Defined.

Lemma security_count_cons (sev : string) (i : App.Issue) (l : list App.Issue) :
  security_count sev (i :: l)
  = security_count sev l
    + (if is_security i && App.strict_eq (App.severity i) sev then 1 else 0).
Proof.
  unfold security_count, is_security. cbn [List.filter].
  destruct (App.strict_eq (App.type i) "security" && App.strict_eq (App.severity i) sev);
    cbn [List.length]; lia.
Qed.

Lemma calculateSecurityScore_penalised (l : list App.Issue) :
  App.calculateSecurityScore (Some (report_of_issues l))
  = penalised 30 15 5 (security_count "high" l) (security_count "medium" l)
                      (security_count "low" l).
Proof.
  unfold App.calculateSecurityScore, penalised, security_count, App.filter_length.
  simpl. rewrite !filter_filter_andb. f_equal. lia.
Qed.

Lemma security_count_filter (sev : string) (l : list App.Issue) :
  security_count sev (List.filter is_security l) = security_count sev l.
Proof.
  unfold security_count. rewrite filter_filter_andb. do 2 f_equal.
  apply filter_ext. intros i. unfold is_security.
  destruct (App.strict_eq (App.type i) "security"); reflexivity.
Qed.

(** X3. The security score looks at the issues of type security only, and
    one more issue of any kind never raises it. *)
Theorem security_score_only_security (l : list App.Issue) :
  App.calculateSecurityScore (Some (report_of_issues (List.filter is_security l)))
  = App.calculateSecurityScore (Some (report_of_issues l))
  /\ (forall i,
        App.calculateSecurityScore (Some (report_of_issues (i :: l)))
        <= App.calculateSecurityScore (Some (report_of_issues l)))
  /\ (forall i, is_security i = false ->
        App.calculateSecurityScore (Some (report_of_issues (i :: l)))
        = App.calculateSecurityScore (Some (report_of_issues l))).
Proof.
  rewrite !calculateSecurityScore_penalised, !security_count_filter.
  split; [reflexivity|]. split.
  - intros i. rewrite !calculateSecurityScore_penalised, !security_count_cons.
    unfold penalised.
    destruct (is_security i && _), (is_security i && _), (is_security i && _); lia.
  - intros i Hi. rewrite !calculateSecurityScore_penalised, !security_count_cons.
    rewrite Hi. cbn [andb]. now rewrite !Z.add_0_r.
Qed.

Lemma security_score_only_security_witness :
  App.calculateSecurityScore
    (Some (report_of_issues [issue "bug" "high" 4; issue "security" "low" 9]))
  = App.calculateSecurityScore (Some (report_of_issues [issue "security" "low" 9])).
Proof.
  apply (proj2 (proj2 (security_score_only_security [issue "security" "low" 9]))).
  reflexivity.
Defined.

(** X4. More issues of any severity never raise the quality score. *)
Theorem quality_score_antitone (fewer more : App.Summary)
    (Hhigh : App.or_zero (App.high_severity_issues fewer)
             <= App.or_zero (App.high_severity_issues more))
    (Hmedium : App.or_zero (App.medium_severity_issues fewer)
               <= App.or_zero (App.medium_severity_issues more))
    (Hlow : App.or_zero (App.low_severity_issues fewer)
            <= App.or_zero (App.low_severity_issues more)) :
  App.calculateQualityScore (Some more) <= App.calculateQualityScore (Some fewer).
Proof.
  rewrite !calculateQualityScore_penalised. unfold penalised. lia.
Qed.

Lemma quality_score_antitone_witness :
  App.calculateQualityScore
    (Some {| App.total_issues := Some 3; App.high_severity_issues := Some 1;
             App.medium_severity_issues := Some 2; App.low_severity_issues := None |})
  <= App.calculateQualityScore
       (Some {| App.total_issues := Some 1; App.high_severity_issues := None;
                App.medium_severity_issues := Some 1; App.low_severity_issues := None |}).
Proof.
  apply quality_score_antitone; simpl; lia.
Defined.

(** X5. When the summary line shows the issue count as a success, the
    report has no issue, and the line shows grade A and a security score
    of 100, both as successes. *)
Theorem summary_line_all_green (report : App.Report)
    (Hcount : App.issueCountClass (App.updateSummaryMetrics report) = js "success") :
  let shown := App.updateSummaryMetrics report in
  App.issueCount shown = 0
  /\ App.grade shown = js "A"
  /\ App.gradeClass shown = js "success"
  /\ App.securityScore shown = 100
  /\ App.securityClass shown = js "success".
Proof.
  destruct report as [st rs [l|]]; [|repeat split].
  unfold App.updateSummaryMetrics in *. cbn [App.issues App.issueCountClass] in Hcount.
  destruct l as [|i l].
  - repeat split.
  - exfalso. cbn [List.length] in Hcount. rewrite Nat2Z.inj_succ in Hcount.
    destruct (Z.gtb_spec (Z.succ (Z.of_nat (List.length l))) 0) as [_|Hle];
      [vm_compute in Hcount; discriminate | lia].
Qed.

Lemma summary_line_all_green_witness :
  App.grade (App.updateSummaryMetrics (report_of_issues [])) = js "A".
Proof.
  apply (summary_line_all_green (report_of_issues [])). reflexivity.
Defined.

(** X6. For non-negative counts, the issues card says that no issue was
    found exactly when the quality score is 100, and it warns of critical
    issues only when the score is at most 80. *)
Theorem issues_trend_agrees_with_score (summary : App.Summary) (total : Z)
    (Htotal : App.total_issues summary = Some total)
    (Hcounts : nonnegative_counts summary) :
  (App.issuesTrend summary = Some (js "positive")
   <-> App.calculateQualityScore (Some summary) = 100)
  /\ (App.issuesTrend summary = Some (js "negative") ->
      App.calculateQualityScore (Some summary) <= 80).
Proof.
  rewrite calculateQualityScore_penalised. unfold penalised, App.issuesTrend.
  rewrite Htotal. destruct Hcounts as (Hh & Hm & Hl).
  destruct (Z.gtb_spec (App.or_zero (App.high_severity_issues summary)) 0);
    [|destruct (Z.gtb_spec (App.or_zero (App.medium_severity_issues summary)) 0);
      [|destruct (Z.gtb_spec (App.or_zero (App.low_severity_issues summary)) 0)]];
    (split; [split; intros Hc; try lia; try reflexivity; vm_compute in Hc; discriminate
            | intros Hc; try lia; vm_compute in Hc; discriminate]).
Qed.

Lemma issues_trend_agrees_with_score_witness :
  let summary := {| App.total_issues := Some 2; App.high_severity_issues := Some 1;
                    App.medium_severity_issues := Some 0;
                    App.low_severity_issues := Some 1 |} in
  App.calculateQualityScore (Some summary) <= 80.
Proof.
  intros summary.
  refine (proj2 (issues_trend_agrees_with_score summary 2 eq_refl _) _);
    [unfold nonnegative_counts; simpl; lia | reflexivity].
Defined.

(** ** Languages and file checks *)

Lemma allowed_extension_cases (e : jsstring) :
  includes App.allowedTypes (ch "." :: e) = true ->
  In e (List.map js ["py"; "js"; "ts"; "java"; "cpp"; "c"; "cs"; "php"; "rb";
                     "go"; "rs"; "swift"]%string).
Proof.
  unfold includes. rewrite existsb_exists. intros (x & Hin & Heq).
  apply str_eqb_eq in Heq. subst x.
  unfold App.allowedTypes in Hin. cbn [List.map] in Hin.
  repeat (destruct Hin as [Hin|Hin];
          [vm_compute in Hin; injection Hin as <-; vm_compute; tauto|]).
  destruct Hin.
Qed.

Lemma includes_allowedExtensions (e : jsstring) :
  includes App.allowedExtensions e = includes App.allowedTypes e.
Proof.
  unfold includes, App.allowedExtensions, App.allowedTypes.
  cbn [List.map existsb].
  repeat match goal with
         | |- context [str_eqb e ?s] => generalize (str_eqb e s); intro
         end.
  repeat match goal with b : bool |- _ => destruct b end; reflexivity.
Qed.

(** X7. A file that passes [validateUploadFile] is shown in the editor
    under one of the twelve named languages, never as plain text. *)
Theorem accepted_file_has_editor_language (file : App.File)
    (Haccepted : returned (App.validateUploadFile file) = true) :
  exists language,
    App.getLanguageFromFilename (App.name file) = JSObject.Own language
    /\ language <> js "text"
    /\ In language (List.map (fun entry => js (snd entry)) App.editorLanguages).
Proof.
  rewrite validateUploadFile_returned in Haccepted.
  apply andb_true_iff in Haccepted as [Haccepted _].
  apply andb_true_iff in Haccepted as [Haccepted _].
  apply allowed_extension_cases in Haccepted.
  unfold App.getLanguageFromFilename.
  cbn [List.map In] in Haccepted.
  repeat (destruct Haccepted as [<-|Haccepted];
          [eexists; split; [vm_compute; reflexivity|];
           split; [discriminate | vm_compute; tauto]|]).
  destruct Haccepted.
Qed.

Lemma accepted_file_has_editor_language_witness :
  exists language,
    App.getLanguageFromFilename (js "Parser.test.TS") = JSObject.Own language
    /\ language <> js "text".
Proof.
  destruct (accepted_file_has_editor_language
              {| App.name := js "Parser.test.TS"; App.size := 2048 |} eq_refl)
    as (language & H1 & H2 & _).
  exists language. split; assumption.
Defined.

(** X8. The three checks of an upload agree on the extension and on the
    size limit: [validateFile] of the API client and [validateUploadedFile]
    decide alike, and they differ from [validateUploadFile] on empty files
    only, which they accept. *)
Theorem upload_checks_agree (file : App.File) :
  APIClient.validateFile file = App.validateUploadedFile file
  /\ returned (App.validateUploadedFile file)
     = returned (App.validateUploadFile file)
       || (includes App.allowedTypes (App.extension_of file) && (App.size file =? 0))
  /\ (returned (App.validateUploadFile file) = true ->
      returned (APIClient.validateFile file) = true).
Proof.
  assert (H1 : APIClient.validateFile file = App.validateUploadedFile file).
  { unfold APIClient.validateFile, App.validateUploadedFile.
    rewrite includes_allowedExtensions. reflexivity. }
  assert (H2 : returned (App.validateUploadedFile file)
               = includes App.allowedTypes (App.extension_of file)
                 && negb (App.size file >? App.maxSize)).
  { unfold App.validateUploadedFile. rewrite includes_allowedExtensions.
    destruct (includes App.allowedTypes (App.extension_of file)); [|reflexivity].
    destruct (App.size file >? App.maxSize); reflexivity. }
  split; [exact H1|]. rewrite H1, H2, validateUploadFile_returned.
  destruct (includes App.allowedTypes (App.extension_of file));
    destruct (Z.gtb_spec (App.size file) App.maxSize);
    destruct (Z.eqb_spec (App.size file) 0); cbn; try tauto.
  unfold App.maxSize in *. lia.
Qed.

Lemma upload_checks_agree_witness :
  returned (APIClient.validateFile {| App.name := js "main.go"; App.size := 120 |}) = true.
Proof.
  apply (proj2 (proj2 (upload_checks_agree
                         {| App.name := js "main.go"; App.size := 120 |}))).
  reflexivity.
Defined.

(** ** Polling for the report *)

(** X9. For every attempt from 0 on there is a progress message, one of
    the nine; from the 24th attempt on it is the last one. *)
Theorem progress_message_defined (attempt : Z) (Hattempt : 0 <= attempt) :
  (exists message,
     App.getProgressMessage attempt = Some message /\ In message App.messages)
  /\ (24 <= attempt ->
      App.getProgressMessage attempt = Some (js "Finalizing results...")).
Proof.
  unfold App.getProgressMessage.
  change (Z.of_nat (List.length App.messages) - 1) with 8.
  assert (Hdiv : 0 <= attempt / 3) by (apply Z.div_pos; lia).
  split.
  - destruct (Z.ltb_spec (Z.min (attempt / 3) 8) 0) as [Hneg|_]; [lia|].
    destruct (nth_error App.messages (Z.to_nat (Z.min (attempt / 3) 8)))
      as [message|] eqn:Hnth.
    + exists message. split; [reflexivity|]. eapply nth_error_In. exact Hnth.
    + apply nth_error_None in Hnth. change (List.length App.messages) with 9%nat in Hnth.
      lia.
  - intros Hlate.
    assert (H8 : 8 <= attempt / 3) by (apply Z.div_le_lower_bound; lia).
    rewrite Z.min_r by lia. reflexivity.
Qed.

Lemma progress_message_defined_witness :
  App.getProgressMessage 29 = Some (js "Finalizing results...").
Proof.
  apply (proj2 (progress_message_defined 29 ltac:(lia))). lia.
Defined.

(** The loop of the polling, one turn unfolded. *)
Lemma pollWithProgress_unfold (getAnalysisReport : nat -> App.Polled) (pollAttempt : nat) :
  App.pollWithProgress getAnalysisReport pollAttempt
  = if lt_dec pollAttempt App.maxAttempts then
      let shown := (Z.min (60 + Z.of_nat pollAttempt * 2) 95,
                    App.getProgressMessage (Z.of_nat pollAttempt)) in
      match getAnalysisReport pollAttempt with
      | App.Answered None => App.stop pollAttempt shown
      | App.Answered (Some report) =>
          if App.strict_eq (App.status report) "completed" then
            {| App.result := Some report; App.calls := [pollAttempt];
               App.progress := [shown; (100, Some (js "Analysis complete!"))];
               App.waits := [500] |}
          else if App.strict_eq (App.status report) "failed" then
            App.stop pollAttempt shown
          else
            App.continue pollAttempt shown
              (Z.min (1000 + Z.of_nat (S pollAttempt) * 200) 3000)
              (App.pollWithProgress getAnalysisReport (S pollAttempt))
      | App.Failed status =>
          if App.is_404 status && (pollAttempt <? 5)%nat then
            App.continue pollAttempt shown 1000
              (App.pollWithProgress getAnalysisReport (S pollAttempt))
          else App.stop pollAttempt shown
      end
    else {| App.result := None; App.calls := []; App.progress := []; App.waits := [] |}.
Proof.
  rewrite App.pollWithProgress_equation_1.
  destruct (lt_dec pollAttempt App.maxAttempts); reflexivity.
Qed.

(** Induction on the attempts left. *)
Lemma polling_induction (P : nat -> Prop) :
  (forall p, (App.maxAttempts <= p)%nat -> P p) ->
  (forall p, (p < App.maxAttempts)%nat -> P (S p) -> P p) ->
  forall p, P p.
Proof.
  intros Hend Hstep p.
  remember (App.maxAttempts - p)%nat as k eqn:Hk.
  revert p Hk. induction k as [|k IH]; intros p Hk.
  - apply Hend. lia.
  - apply Hstep; [lia|]. apply IH. lia.
Qed.

Ltac poll_cases getAnalysisReport p :=
  rewrite (pollWithProgress_unfold getAnalysisReport p);
  destruct (lt_dec p App.maxAttempts) as [Hlt|Hge]; [|try solve [exfalso; lia]];
  cbv zeta;
  try (destruct (getAnalysisReport p) as [[report|]|status] eqn:Hanswer;
       [destruct (App.strict_eq (App.status report) "completed") eqn:Hcompleted;
        [|destruct (App.strict_eq (App.status report) "failed") eqn:Hfailed]
       | |destruct (App.is_404 status && (p <? 5)%nat) eqn:Htolerated]).

(** X10. The page asks for the report at most 30 times, at attempts numbered
    from 0 without a gap; the progress it shows stays between 60 and 95
    until the final 100, and every wait lasts between half a second and
    three seconds. *)
Theorem polling_is_bounded (reportId : option jsstring) (apiClient : bool)
    (getAnalysisReport : nat -> App.Polled) :
  let run := App.startAnalysisPolling reportId apiClient getAnalysisReport in
  (List.length (App.calls run) <= 30)%nat
  /\ App.calls run = seq 0 (List.length (App.calls run))
  /\ Forall (fun shown => 60 <= fst shown <= 95 \/ fst shown = 100) (App.progress run)
  /\ Forall (fun wait => 500 <= wait <= 3000) (App.waits run).
Proof.
  assert (Hloop : forall p,
    let run := App.pollWithProgress getAnalysisReport p in
    (List.length (App.calls run) <= App.maxAttempts - p)%nat
    /\ App.calls run = seq p (List.length (App.calls run))
    /\ Forall (fun shown => 60 <= fst shown <= 95 \/ fst shown = 100) (App.progress run)
    /\ Forall (fun wait => 500 <= wait <= 3000) (App.waits run)).
  { apply (polling_induction (fun p => _)); cbv zeta.
    - intros p Hp. rewrite pollWithProgress_unfold.
      destruct (lt_dec p App.maxAttempts); [lia|].
      cbn. split; [lia|]. split; [reflexivity|]. split; constructor.
    - intros p Hp (IH1 & IH2 & IH3 & IH4).
      assert (Hshown : 60 <= Z.min (60 + Z.of_nat p * 2) 95 <= 95) by lia.
      assert (Hwait : 500 <= Z.min (1000 + Z.of_nat (S p) * 200) 3000 <= 3000) by lia.
      unfold App.maxAttempts in *.
      poll_cases getAnalysisReport p; unfold App.stop, App.continue;
        cbn [App.calls App.progress App.waits List.length seq];
        (split; [lia|]); (split; [first [reflexivity | f_equal; exact IH2]|]);
        (split;
         [repeat (apply Forall_cons;
                  [cbn [fst]; first [left; lia | right; reflexivity]|]);
          first [exact IH3 | apply Forall_nil]
         |repeat (apply Forall_cons; [lia|]);
          first [exact IH4 | apply Forall_nil]]). }
  cbv zeta. unfold App.startAnalysisPolling.
  destruct reportId as [[|c id]|];
    try (cbn; split; [lia|]; split; [reflexivity|]; split; constructor).
  destruct apiClient;
    [|cbn; split; [lia|]; split; [reflexivity|]; split; constructor].
  destruct (Hloop 0%nat) as (H1 & H2 & H3 & H4).
  change (App.maxAttempts - 0)%nat with 30%nat in H1. auto.
Qed.

Lemma last_cons_nonempty {A} (x d d' : A) (l : list A) :
  l <> [] -> List.last (x :: l) d = List.last l d'.
Proof.
  revert x. induction l as [|y l IH]; intros x H; [congruence|].
  destruct l as [|z l]; [reflexivity|].
  change (List.last (x :: y :: z :: l) d) with (List.last (y :: z :: l) d).
  change (List.last (y :: z :: l) d') with (List.last (z :: l) d').
  rewrite (IH y) by discriminate. reflexivity.
Qed.

(** A poll that found a report made at least one call. *)
Lemma polling_result_calls (getAnalysisReport : nat -> App.Polled) (p : nat)
    (report : App.Report) :
  App.result (App.pollWithProgress getAnalysisReport p) = Some report ->
  App.calls (App.pollWithProgress getAnalysisReport p) <> [].
Proof.
  rewrite pollWithProgress_unfold.
  destruct (lt_dec p App.maxAttempts); [|discriminate].
  cbv zeta. destruct (getAnalysisReport p) as [[r|]|st];
    unfold App.stop, App.continue;
    repeat match goal with
           | |- context [if ?b then _ else _] => destruct b
           end; cbn; discriminate.
Qed.

(** X11. The polling returns a report only when the service answered
    with a completed one, and then it is the answer to its last call; a
    failed report, an empty answer, or an error that is not a 404 within
    the first five attempts ends the polling at that call without a
    report. *)
Theorem polling_returns_completed_only (getAnalysisReport : nat -> App.Polled)
    (pollAttempt : nat) :
  let run := App.pollWithProgress getAnalysisReport pollAttempt in
  (forall report, App.result run = Some report ->
     App.strict_eq (App.status report) "completed" = true
     /\ getAnalysisReport (List.last (App.calls run) pollAttempt)
        = App.Answered (Some report))
  /\ ((pollAttempt < 30)%nat ->
      match getAnalysisReport pollAttempt with
      | App.Answered None => App.result run = None /\ App.calls run = [pollAttempt]
      | App.Answered (Some report) =>
          App.strict_eq (App.status report) "completed" = false ->
          App.strict_eq (App.status report) "failed" = true ->
          App.result run = None /\ App.calls run = [pollAttempt]
      | App.Failed status =>
          App.is_404 status && (pollAttempt <? 5)%nat = false ->
          App.result run = None /\ App.calls run = [pollAttempt]
      end).
Proof.
  cbv zeta. split.
  - induction pollAttempt as [p Hp|p Hp IH] using polling_induction.
    + intros report. rewrite pollWithProgress_unfold.
      destruct (lt_dec p App.maxAttempts); [lia | cbn; discriminate].
    + intros report0 Hr.
      pose proof (polling_result_calls getAnalysisReport (S p) report0) as Hcalls.
      revert Hr.
      poll_cases getAnalysisReport p; unfold App.stop, App.continue;
        cbn [App.result App.calls]; try discriminate.
      * intros [= <-]. cbn [List.last]. split; assumption.
      * intros Hr. destruct (IH report0 Hr) as [H1 H2]. split; [exact H1|].
        rewrite (last_cons_nonempty p p (S p)) by auto. exact H2.
      * intros Hr. destruct (IH report0 Hr) as [H1 H2]. split; [exact H1|].
        rewrite (last_cons_nonempty p p (S p)) by auto. exact H2.
  - intros Hp. rewrite pollWithProgress_unfold.
    destruct (lt_dec pollAttempt App.maxAttempts) as [_|Hge];
      [|unfold App.maxAttempts in Hge; lia].
    cbv zeta. destruct (getAnalysisReport pollAttempt) as [[report|]|status].
    + intros -> ->. split; reflexivity.
    + split; reflexivity.
    + intros ->. split; reflexivity.
Qed.

Lemma polling_returns_completed_only_witness :
  App.strict_eq (App.status (report_with_status "completed")) "completed" = true
  /\ slow_service
       (List.last (App.calls (App.pollWithProgress slow_service 0)) 0%nat)
     = App.Answered (Some (report_with_status "completed")).
Proof.
  apply (proj1 (polling_returns_completed_only slow_service 0)).
  reflexivity.
Defined.

(** ** The stored token *)

Lemma auth_token_lookup_insert (t : jsstring) (m : gmap jsstring jsstring) :
  (<[APIClient.auth_token := t]> m) !! APIClient.auth_token = Some t.
Proof. apply lookup_insert_eq. Qed.

(** X12. A token that was stored is the one found again: after [setToken]
    with a non-empty token, with storage available, [getStoredToken]
    returns that token and a client started from these stores is
    authenticated, for a session as for a persistent login. *)
Theorem stored_token_round_trip (new_token : jsstring) (persistent : bool)
    (before : APIClient.Storage)
    (Havailable : APIClient.blocked before = false)
    (Hnonempty : new_token <> []) :
  let after := APIClient.setToken new_token persistent before in
  APIClient.thrown after = None
  /\ APIClient.getStoredToken (APIClient.storage after) = Some new_token
  /\ APIClient.isAuthenticated (APIClient.getStoredToken (APIClient.storage after)) = true
  /\ APIClient.isAuthenticated (APIClient.token after) = true.
Proof.
  cbv zeta. unfold APIClient.setToken. rewrite Havailable.
  destruct new_token as [|c t]; [congruence|].
  destruct persistent; cbn [APIClient.thrown APIClient.storage APIClient.token];
    unfold APIClient.getStoredToken;
    cbn [APIClient.blocked APIClient.sessionStorage APIClient.localStorage];
    rewrite auth_token_lookup_insert; repeat split.
Qed.

Lemma stored_token_round_trip_witness :
  APIClient.getStoredToken
    (APIClient.storage
       (APIClient.setToken (js "key-123") false
          {| APIClient.sessionStorage := ∅; APIClient.localStorage := ∅;
             APIClient.blocked := false |}))
  = Some (js "key-123").
Proof.
  apply (stored_token_round_trip (js "key-123") false
           {| APIClient.sessionStorage := ∅; APIClient.localStorage := ∅;
              APIClient.blocked := false |} eq_refl).
  discriminate.
Defined.

(** X13. A session login erases an earlier persistent token: after
    [setToken] without persistence nothing is left under [auth_token] in
    [localStorage]; after [clearToken] no token is found in either store;
    and neither call touches any other key of the stores. *)
Theorem token_is_erased (new_token : jsstring) (before : APIClient.Storage)
    (Havailable : APIClient.blocked before = false) :
  let session := APIClient.storage (APIClient.setToken new_token false before) in
  let cleared := APIClient.storage (APIClient.clearToken before) in
  APIClient.localStorage session !! APIClient.auth_token = None
  /\ APIClient.getStoredToken cleared = None
  /\ APIClient.isAuthenticated (APIClient.token (APIClient.clearToken before)) = false
  /\ (forall key, key <> APIClient.auth_token ->
        APIClient.sessionStorage session !! key = APIClient.sessionStorage before !! key
        /\ APIClient.localStorage session !! key = APIClient.localStorage before !! key
        /\ APIClient.sessionStorage cleared !! key = APIClient.sessionStorage before !! key
        /\ APIClient.localStorage cleared !! key = APIClient.localStorage before !! key).
Proof.
  cbv zeta. unfold APIClient.setToken, APIClient.clearToken, APIClient.getStoredToken.
  rewrite Havailable.
  cbn [APIClient.storage APIClient.token APIClient.blocked APIClient.sessionStorage
       APIClient.localStorage].
  rewrite !lookup_delete_eq. cbn. repeat split.
  - rewrite lookup_insert_ne; auto.
  - rewrite lookup_delete_ne; auto.
  - rewrite lookup_delete_ne; auto.
  - rewrite lookup_delete_ne; auto.
Qed.

Lemma token_is_erased_witness :
  let before := {| APIClient.sessionStorage := ∅;
                   APIClient.localStorage := {[APIClient.auth_token := js "old-key"]};
                   APIClient.blocked := false |} in
  APIClient.localStorage (APIClient.storage (APIClient.setToken (js "new-key") false before))
    !! APIClient.auth_token = None.
Proof.
  intros before. exact (proj1 (token_is_erased (js "new-key") before eq_refl)).
Defined.

(** ** Request headers *)

Lemma processRequest_headers (token : option jsstring)
    (requestInterceptors : list APIClient.Interceptor) (url : jsstring)
    (options : APIClient.Options) :
  let intercepted := fold_left (APIClient.intercept url) requestInterceptors options in
  APIClient.headers (APIClient.processRequest token requestInterceptors url options)
  = Some ((if APIClient.isAuthenticated token
           then <[js "Authorization" := js "Bearer " ++ default [] token]>
                  (APIClient.spread (APIClient.headers intercepted))
           else APIClient.spread (APIClient.headers intercepted))
          ∪ {[js "Content-Type" := js "application/json"]}).
Proof.
  cbv zeta. unfold APIClient.processRequest.
  destruct token as [[|c t]|]; reflexivity.
Qed.

(** X14. When the client holds a token, every request carries
    [Authorization: Bearer <token>], whatever header of that name the
    caller or an interceptor had set. *)
Theorem request_is_authorized (token : jsstring)
    (requestInterceptors : list APIClient.Interceptor) (url : jsstring)
    (options : APIClient.Options) (Htoken : token <> []) :
  exists sent,
    APIClient.headers (APIClient.processRequest (Some token) requestInterceptors url options)
    = Some sent
    /\ sent !! js "Authorization" = Some (js "Bearer " ++ token).
Proof.
  eexists. split; [apply processRequest_headers|].
  destruct token as [|c t]; [congruence|]. cbn [APIClient.isAuthenticated default].
  apply lookup_union_Some_l. apply lookup_insert_eq.
Qed.

Lemma request_is_authorized_witness :
  exists sent,
    APIClient.headers
      (APIClient.processRequest (Some (js "key-123")) [] (js "/api/review")
         {| APIClient.method := None;
            APIClient.headers := Some {[js "Authorization" := js "Basic abc"]};
            APIClient.body := None |})
    = Some sent
    /\ sent !! js "Authorization" = Some (js "Bearer " ++ js "key-123").
Proof.
  apply request_is_authorized. discriminate.
Defined.

(** X15. Every request leaves with a [Content-Type]: the one the caller or
    an interceptor set, and [application/json] otherwise.  The form that
    [post] sends, its own [Content-Type] removed, therefore leaves as
    [application/json] when no interceptor sets another. *)
Theorem request_has_content_type (token : option jsstring)
    (requestInterceptors : list APIClient.Interceptor) (url : jsstring)
    (options : APIClient.Options) :
  (exists sent,
     APIClient.headers (APIClient.processRequest token requestInterceptors url options)
     = Some sent
     /\ sent !! js "Content-Type"
        = Some (default (js "application/json")
                  (APIClient.spread
                     (APIClient.headers
                        (fold_left (APIClient.intercept url) requestInterceptors options))
                   !! js "Content-Type")))
  /\ (exists sent,
        APIClient.headers
          (APIClient.processRequest token [] url
             (APIClient.post_requestOptions (Some APIClient.FormData) options))
        = Some sent
        /\ sent !! js "Content-Type" = Some (js "application/json")).
Proof.
  assert (Hne : js "Authorization" <> js "Content-Type") by discriminate.
  split.
  - eexists. split; [apply processRequest_headers|]. cbv zeta.
    set (h := APIClient.spread _).
    rewrite lookup_union.
    assert (Hsame : (if APIClient.isAuthenticated token
                     then <[js "Authorization" := js "Bearer " ++ default [] token]> h
                     else h) !! js "Content-Type" = h !! js "Content-Type").
    { destruct (APIClient.isAuthenticated token); [|reflexivity].
      now rewrite lookup_insert_ne. }
    rewrite Hsame, lookup_singleton_eq.
    destruct (h !! js "Content-Type"); reflexivity.
  - eexists. split; [apply processRequest_headers|]. cbv zeta. cbn [fold_left].
    set (h := APIClient.spread _).
    assert (Hdel : h !! js "Content-Type" = None).
    { subst h. unfold APIClient.post_requestOptions. cbn [APIClient.headers].
      destruct (APIClient.headers options) as [given|]; cbn.
      - apply lookup_delete_eq.
      - apply lookup_empty. }
    rewrite lookup_union.
    assert (Hsame : (if APIClient.isAuthenticated token
                     then <[js "Authorization" := js "Bearer " ++ default [] token]> h
                     else h) !! js "Content-Type" = None).
    { destruct (APIClient.isAuthenticated token); [|exact Hdel].
      now rewrite lookup_insert_ne. }
    rewrite Hsame, lookup_singleton_eq. reflexivity.
Qed.



(** ** Requests and their retries *)

Lemma makeRequest_unfold (errorHandlers : gmap jsstring APIClient.Handler)
    (network : APIClient.Network) (attempt maxRetries : nat) :
  APIClient.makeRequest errorHandlers network attempt maxRetries
  = match APIClient.request network attempt with
    | Return response =>
        {| APIClient.outcome := Return response; APIClient.attempts := [attempt];
           APIClient.delays := [] |}
    | Throw error =>
        match APIClient.handleError errorHandlers
                (APIClient.navigator_onLine network attempt) error attempt maxRetries with
        | APIClient.Retry retryDelay =>
            APIClient.after attempt retryDelay
              (APIClient.makeRequest errorHandlers network (S attempt) maxRetries)
        | APIClient.Rethrow =>
            {| APIClient.outcome := Throw error; APIClient.attempts := [attempt];
               APIClient.delays := [] |}
        end
    end.
Proof.
  funelim (APIClient.makeRequest errorHandlers network attempt maxRetries).
  all: repeat match goal with
              | E : APIClient.request _ _ = Return _ |- _ => rewrite E
              | E : APIClient.request _ _ = Throw _ |- _ => rewrite E
              | E : APIClient.handleError _ _ _ _ _ = _ |- _ => rewrite E
              end; reflexivity.
Qed.

Lemma request_Return_ok (network : APIClient.Network) (attempt : nat)
    (response : APIClient.Response) :
  APIClient.request network attempt = Return response ->
  APIClient.fetch network attempt = APIClient.Responded response
  /\ APIClient.ok response = true.
Proof.
  unfold APIClient.request.
  destruct (APIClient.fetch network attempt) as [error|r]; [discriminate|].
  destruct (APIClient.ok r) eqn:Hok; [|discriminate].
  intros [= <-]. split; [reflexivity | exact Hok].
Qed.

(** X17. A call of [makeRequest] tries the attempts one after the other
    from [attempt] on, waits once between two of them, and ends with what
    the last attempt gave: every attempt before it failed, and a response
    it returns is one the network gave with an ok status. *)
Theorem request_ends_with_last_attempt (errorHandlers : gmap jsstring APIClient.Handler)
    (network : APIClient.Network) (attempt maxRetries : nat) :
  let run := APIClient.makeRequest errorHandlers network attempt maxRetries in
  exists retries : nat,
    APIClient.attempts run = seq attempt (S retries)
    /\ List.length (APIClient.delays run) = retries
    /\ APIClient.outcome run = APIClient.request network (attempt + retries)
    /\ (forall k, (k < retries)%nat ->
          returned (APIClient.request network (attempt + k)) = false)
    /\ (forall response, APIClient.outcome run = Return response ->
          APIClient.fetch network (attempt + retries) = APIClient.Responded response
          /\ APIClient.ok response = true).
Proof.
  cbv zeta.
  funelim (APIClient.makeRequest errorHandlers network attempt maxRetries);
    try match goal with
        | E : APIClient.request _ _ = _ |- _ => rename E into Hrequest
        end.
  - exists 0%nat. cbn [APIClient.attempts APIClient.delays APIClient.outcome seq Datatypes.length].
    rewrite Nat.add_0_r.
    split; [reflexivity|]. split; [reflexivity|]. split; [now rewrite Hrequest|].
    split; [intros k Hk; lia|].
    intros found [= <-]. now apply request_Return_ok in Hrequest.
  - match goal with
    | IH : ex _ |- _ => destruct IH as (retries & Ha & Hd & Ho & Hbefore & Hok)
    end.
    exists (S retries).
    cbn [APIClient.after APIClient.attempts APIClient.delays APIClient.outcome Datatypes.length].
    rewrite Ha, Hd. replace (attempt + S retries)%nat with (S attempt + retries)%nat by lia.
    split; [reflexivity|]. split; [reflexivity|]. split; [exact Ho|].
    split; [|exact Hok].
    intros [|k] Hk.
    + rewrite Nat.add_0_r, Hrequest. reflexivity.
    + replace (attempt + S k)%nat with (S attempt + k)%nat by lia.
      apply Hbefore. lia.
  - exists 0%nat. cbn [APIClient.attempts APIClient.delays APIClient.outcome seq Datatypes.length].
    rewrite Nat.add_0_r.
    split; [reflexivity|]. split; [reflexivity|]. split; [now rewrite Hrequest|].
    split; [intros k Hk; lia | discriminate].
Qed.

Lemma request_ends_with_last_attempt_witness :
  APIClient.ok {| APIClient.response_status := 200; APIClient.Retry_After := None |}
  = true.
Proof.
  destruct (request_ends_with_last_attempt APIClient.initializeDefaultErrorHandlers
              (recovering_server 2) 1 3) as (retries & _ & _ & _ & _ & Hok).
  refine (proj2 (Hok _ _)). vm_compute. reflexivity.
Defined.

(** X18. With the default handlers, failures of a retryable kind are
    recovered from: when the first [failures] attempts fail that way, the
    next one succeeds and attempts remain for it, the call returns the
    response of that attempt, having made [failures + 1] attempts. *)
Theorem transient_failures_are_recovered (network : APIClient.Network)
    (failures : nat) (response : APIClient.Response) (attempt maxRetries : nat)
    (Hremain : (attempt + failures <= maxRetries)%nat)
    (Hfail : forall k, (k < failures)%nat ->
               exists error,
                 APIClient.request network (attempt + k) = Throw error
                 /\ retryable (APIClient.navigator_onLine network (attempt + k)) error = true)
    (Hsuccess : APIClient.request network (attempt + failures) = Return response) :
  let run := APIClient.makeRequest APIClient.initializeDefaultErrorHandlers
               network attempt maxRetries in
  APIClient.outcome run = Return response
  /\ APIClient.attempts run = seq attempt (S failures)
  /\ List.length (APIClient.delays run) = failures.
Proof.
  cbv zeta. revert attempt Hremain Hfail Hsuccess.
  induction failures as [|failures IH]; intros attempt Hremain Hfail Hsuccess;
    rewrite makeRequest_unfold.
  - rewrite Nat.add_0_r in Hsuccess. rewrite Hsuccess. repeat split.
  - destruct (Hfail 0%nat ltac:(lia)) as (error & Hthrow & Hretry).
    rewrite Nat.add_0_r in Hthrow, Hretry. rewrite Hthrow.
    pose proof (handleError_retried (APIClient.navigator_onLine network attempt)
                  error attempt maxRetries) as Hdecision.
    rewrite Hretry, andb_true_r in Hdecision.
    destruct (Nat.ltb_spec attempt maxRetries) as [_|Hge]; [|lia].
    destruct (APIClient.handleError _ _ _ _ _) as [retryDelay|]; [|discriminate].
    destruct (IH (S attempt)) as (Ho & Ha & Hd).
    + lia.
    + intros k Hk. replace (S attempt + k)%nat with (attempt + S k)%nat by lia.
      apply Hfail. lia.
    + replace (S attempt + failures)%nat with (attempt + S failures)%nat by lia.
      exact Hsuccess.
    + cbn [APIClient.after APIClient.attempts APIClient.delays APIClient.outcome Datatypes.length].
      rewrite Ho, Ha, Hd. repeat split.
Qed.

Lemma transient_failures_are_recovered_witness :
  APIClient.outcome
    (APIClient.makeRequest APIClient.initializeDefaultErrorHandlers
       (recovering_server 2) 1 3)
  = Return {| APIClient.response_status := 200; APIClient.Retry_After := None |}.
Proof.
  refine (proj1 (transient_failures_are_recovered (recovering_server 2) 2 _ 1 3 _ _ _)).
  - lia.
  - intros [|[|k]] Hk; [eexists; split; reflexivity | eexists; split; reflexivity | lia].
  - reflexivity.
Defined.

(** ** The Gemini client: counts and calls *)

Lemma get_Return (v : Value) (key : string) (x : option Value) :
  get v key = Return x -> x = get_optional (Some v) key.
Proof. destruct v; cbn; intros [= <-]; reflexivity. Qed.

Lemma member_filter_other (key key' : jsstring) (members : list (jsstring * Value)) :
  key' <> key ->
  member key' (List.filter (fun m => negb (str_eqb (fst m) key)) members)
  = member key' members.
Proof.
  intros Hne. induction members as [|[k w] rest IH]; [reflexivity|].
  cbn [List.filter fst]. destruct (str_eqb k key) eqn:Hk; cbn [negb member].
  - apply str_eqb_eq in Hk. subst k. rewrite IH.
    destruct (str_eqb key key') eqn:Hkk; [|now destruct (member key' rest)].
    apply str_eqb_eq in Hkk. congruence.
  - now rewrite IH.
Qed.

Lemma member_filter_same (key : jsstring) (members : list (jsstring * Value)) :
  member key (List.filter (fun m => negb (str_eqb (fst m) key)) members) = None.
Proof.
  induction members as [|[k w] rest IH]; [reflexivity|].
  cbn [List.filter fst]. destruct (str_eqb k key) eqn:Hk; cbn [negb member]; [exact IH|].
  now rewrite IH, Hk.
Qed.

Lemma member_assign_same (key : jsstring) (v : Value) (members : list (jsstring * Value)) :
  member key (assign key v members) = Some v.
Proof.
  induction members as [|[k w] rest IH]; cbn [assign member].
  - assert (H : str_eqb key key = true) by now apply str_eqb_eq.
    now rewrite H.
  - destruct (str_eqb k key) eqn:Hk; cbn [member].
    + now rewrite member_filter_same, Hk.
    + now rewrite IH.
Qed.

Lemma member_assign_other (key key' : jsstring) (v : Value)
    (members : list (jsstring * Value)) :
  key' <> key -> member key' (assign key v members) = member key' members.
Proof.
  intros Hne.
  assert (Hkk : str_eqb key key' = false).
  { destruct (str_eqb key key') eqn:H; [|reflexivity].
    apply str_eqb_eq in H. congruence. }
  induction members as [|[k w] rest IH]; cbn [assign member].
  - now rewrite Hkk.
  - destruct (str_eqb k key) eqn:Hk; cbn [member].
    + rewrite member_filter_other by assumption.
      apply str_eqb_eq in Hk. subst k. now rewrite Hkk.
    + now rewrite IH.
Qed.

(** A write is read back, and leaves the other properties as they were. *)
Lemma set_Return (object : Value) (key : string) (n : Z) (written : Value) :
  JSON.set object key n = Return written ->
  get_optional (Some written) key = Some (JNumber n 0)
  /\ (forall key' : string, js key' <> js key ->
        get_optional (Some written) key' = get_optional (Some object) key').
Proof.
  destruct object; cbn [JSON.set]; try discriminate; intros [= <-]; cbn [get_optional].
  - split.
    + cbn [member]. assert (H : str_eqb (js key) (js key) = true) by now apply str_eqb_eq.
      now rewrite H.
    + intros key' Hne. cbn [member].
      destruct (str_eqb (js key) (js key')) eqn:H; [|reflexivity].
      apply str_eqb_eq in H. congruence.
  - split; [apply member_assign_same|].
    intros key' Hne. now apply member_assign_other.
  - split; [apply member_assign_same|].
    intros key' Hne. now apply member_assign_other.
Qed.

Lemma severity_count_cons (name : string) (issue : Value) (issues : list Value) :
  severity_count name (issue :: issues)
  = Z.b2z (has_severity name issue) + severity_count name issues.
Proof.
  unfold severity_count. cbn [List.filter].
  destruct (has_severity name issue); cbn [List.length Z.b2z]; lia.
Qed.

Lemma count_issue_counts (severityCounts after : GeminiClient.SeverityCounts)
    (issue : Value) :
  GeminiClient.count_issue severityCounts issue = Return after ->
  GeminiClient.high after
  = GeminiClient.high severityCounts + Z.b2z (has_severity "high" issue)
  /\ GeminiClient.medium after
     = GeminiClient.medium severityCounts + Z.b2z (has_severity "medium" issue)
  /\ GeminiClient.low after
     = GeminiClient.low severityCounts + Z.b2z (has_severity "low" issue).
Proof.
  unfold GeminiClient.count_issue, GeminiClient.severity_of, has_severity.
  destruct (get issue "severity") as [severity|] eqn:E; cbn [JS.bind]; [|discriminate].
  apply get_Return in E. rewrite <- E.
  destruct severity as [[| | |s| | |]|]; cbn [JS.bind]; try discriminate;
    try (intros [= <-]; cbn [Z.b2z]; lia).
  set (t := toLowerCase s).
  destruct (str_eqb t (js "high")) eqn:Hh.
  { apply str_eqb_eq in Hh. rewrite Hh. intros [= <-].
    cbn [GeminiClient.high GeminiClient.medium GeminiClient.low].
    change (str_eqb (js "high") (js "medium")) with false.
    change (str_eqb (js "high") (js "low")) with false.
    cbn [Z.b2z]. lia. }
  destruct (str_eqb t (js "medium")) eqn:Hm.
  { apply str_eqb_eq in Hm. rewrite Hm. intros [= <-].
    cbn [GeminiClient.high GeminiClient.medium GeminiClient.low].
    change (str_eqb (js "medium") (js "low")) with false.
    cbn [Z.b2z]. lia. }
  destruct (str_eqb t (js "low")) eqn:Hl; intros [= <-];
    cbn [GeminiClient.high GeminiClient.medium GeminiClient.low Z.b2z]; lia.
Qed.

Lemma forEach_counts (issues : list Value) :
  forall severityCounts after,
    GeminiClient.forEach severityCounts issues = Return after ->
    GeminiClient.high after
    = GeminiClient.high severityCounts + severity_count "high" issues
    /\ GeminiClient.medium after
       = GeminiClient.medium severityCounts + severity_count "medium" issues
    /\ GeminiClient.low after
       = GeminiClient.low severityCounts + severity_count "low" issues.
Proof.
  induction issues as [|issue rest IH]; intros severityCounts after; cbn [GeminiClient.forEach].
  - intros [= <-]. unfold severity_count. cbn. lia.
  - destruct (GeminiClient.count_issue severityCounts issue) as [next|] eqn:E;
      cbn [JS.bind]; [|discriminate].
    intros H. apply IH in H. apply count_issue_counts in E.
    rewrite !severity_count_cons. lia.
Qed.

Lemma elements_of_listed (issues : Value) (elements : list Value) :
  GeminiClient.elements_of (GeminiClient.or_else (Some issues) (JArray [])) = Return elements ->
  elements = listed issues.
Proof.
  destruct issues as [|[]|m e|s| | |]; cbn; try discriminate; try (intros [= <-]; reflexivity).
  - destruct (is_zero m e); cbn; [intros [= <-]; reflexivity | discriminate].
  - destruct (str_eqb s []); cbn; [intros [= <-]; reflexivity | discriminate].
Qed.

Lemma integer_number (n : Z) : integer (Some (JNumber n 0)) = Some n.
Proof. cbn. f_equal. lia. Qed.

Lemma has_severity_exclusive (issue : Value) :
  Z.b2z (has_severity "high" issue) + Z.b2z (has_severity "medium" issue)
  + Z.b2z (has_severity "low" issue) <= 1.
Proof.
  unfold has_severity.
  destruct (get_optional (Some issue) "severity") as [[| | |s| | |]|]; cbn [Z.b2z]; try lia.
  set (t := toLowerCase s).
  destruct (str_eqb t (js "high")) eqn:Hh.
  { apply str_eqb_eq in Hh. rewrite Hh.
    change (str_eqb (js "high") (js "medium")) with false.
    change (str_eqb (js "high") (js "low")) with false. cbn. lia. }
  destruct (str_eqb t (js "medium")) eqn:Hm.
  { apply str_eqb_eq in Hm. rewrite Hm.
    change (str_eqb (js "medium") (js "low")) with false. cbn. lia. }
  destruct (str_eqb t (js "low")); cbn; lia.
Qed.

Lemma severity_counts_bounded (issues : list Value) :
  0 <= severity_count "high" issues
  /\ 0 <= severity_count "medium" issues
  /\ 0 <= severity_count "low" issues
  /\ severity_count "high" issues + severity_count "medium" issues
     + severity_count "low" issues <= Z.of_nat (List.length issues).
Proof.
  induction issues as [|issue rest IH].
  - unfold severity_count. cbn. lia.
  - rewrite !severity_count_cons. pose proof (has_severity_exclusive issue).
    assert (forall b, 0 <= Z.b2z b) by (intros []; cbn; lia).
    pose proof (H0 (has_severity "high" issue)).
    pose proof (H0 (has_severity "medium" issue)).
    pose proof (H0 (has_severity "low" issue)).
    cbn [List.length]. lia.
Qed.

(** What [validateIssueCounts] writes, and what it leaves. *)
Lemma validateIssueCounts_written (report validated : GeminiClient.Report) :
  GeminiClient.validateIssueCounts report = Return validated ->
  let issues := listed (GeminiClient.issues report) in
  validated = GeminiClient.with_summary report (GeminiClient.report_summary validated)
  /\ dashboard_summary (GeminiClient.report_summary validated)
     = {| App.total_issues := Some (Z.of_nat (List.length issues));
          App.high_severity_issues := Some (severity_count "high" issues);
          App.medium_severity_issues := Some (severity_count "medium" issues);
          App.low_severity_issues := Some (severity_count "low" issues) |}
  /\ (forall key : string, ~ In (js key) counted ->
        get_optional (Some (GeminiClient.report_summary validated)) key
        = get_optional (Some (GeminiClient.report_summary report)) key).
Proof.
  cbv zeta. unfold GeminiClient.validateIssueCounts.
  destruct (GeminiClient.elements_of _) as [elements|] eqn:Helements;
    cbn [JS.bind]; [|discriminate].
  apply elements_of_listed in Helements. subst elements.
  destruct (GeminiClient.forEach _ _) as [severityCounts|] eqn:Hcounts;
    cbn [JS.bind]; [|discriminate].
  apply forEach_counts in Hcounts.
  cbn [GeminiClient.high GeminiClient.medium GeminiClient.low] in Hcounts.
  destruct Hcounts as (Hhigh & Hmedium & Hlow).
  destruct (JSON.set (GeminiClient.report_summary report) _ _) as [s1|] eqn:E1;
    cbn [JS.bind]; [|discriminate].
  destruct (JSON.set s1 _ _) as [s2|] eqn:E2; cbn [JS.bind]; [|discriminate].
  destruct (JSON.set s2 _ _) as [s3|] eqn:E3; cbn [JS.bind]; [|discriminate].
  destruct (JSON.set s3 _ _) as [s4|] eqn:E4; cbn [JS.bind]; [|discriminate].
  intros [= <-]. cbn [GeminiClient.with_summary GeminiClient.report_summary].
  apply set_Return in E1 as [R1 K1], E2 as [R2 K2], E3 as [R3 K3], E4 as [R4 K4].
  split; [reflexivity|]. split.
  - unfold dashboard_summary.
    rewrite R4.
    rewrite (K4 "medium_severity_issues"%string) by discriminate.
    rewrite (K4 "high_severity_issues"%string) by discriminate.
    rewrite (K4 "total_issues"%string) by discriminate.
    rewrite R3.
    rewrite (K3 "high_severity_issues"%string) by discriminate.
    rewrite (K3 "total_issues"%string) by discriminate.
    rewrite R2.
    rewrite (K2 "total_issues"%string) by discriminate.
    rewrite R1, !integer_number, Hhigh, Hmedium, Hlow. reflexivity.
  - intros key Hkey. unfold counted in Hkey. cbn [List.map In] in Hkey.
    rewrite K4, K3, K2, K1
      by (intros Heq; apply Hkey; rewrite Heq;
          repeat first [left; reflexivity | right]).
    reflexivity.
Qed.

(** C4, amended. The parser always returns a completed report.  When the
    text is not JSON, or the parsed value cannot be turned into a report,
    it returns the fallback report: zero counts, scores 75, 80 and 75, one
    low-severity placeholder issue.  When the JSON is an object and a
    report is made of it, every member it lacks is replaced by a default:
    missing issues, recommendations or positive aspects by an empty list,
    a missing summary by the default summary with the scores 85, 90 and
    80, and the counts are those of the issues listed; an object that has
    neither a summary nor issues always gives such a report, and the
    object without members the default summary and three empty lists. *)
Theorem parse_failure_is_coerced (env : GeminiClient.Env) (analysisText : Value)
    (filename : jsstring) :
  let r := GeminiClient.parseAnalysisResponse env analysisText filename in
  GeminiClient.status r = js "completed"
  /\ (returned (GeminiClient.parsed analysisText) = false ->
      r = GeminiClient.fallback env 0 filename)
  /\ (returned (GeminiClient.parsed_report env analysisText filename) = false ->
      content r
      = (filename, js "completed", GeminiClient.fallback_summary,
         JArray [GeminiClient.fallback_issue],
         JArray [JString (js "Consider running the analysis again for detailed results")],
         JArray [JString (js "Code was successfully processed")]))
  /\ (GeminiClient.parsed analysisText = Return (JObject []) ->
      content r
      = (filename, js "completed", GeminiClient.default_summary,
         JArray [], JArray [], JArray []))
  /\ (forall members,
        GeminiClient.parsed analysisText = Return (JObject members) ->
        returned (GeminiClient.parsed_report env analysisText filename) = true ->
        (member (js "issues") members = None -> GeminiClient.issues r = JArray [])
        /\ (member (js "recommendations") members = None ->
            GeminiClient.recommendations r = JArray [])
        /\ (member (js "positive_aspects") members = None ->
            GeminiClient.positive_aspects r = JArray [])
        /\ (member (js "summary") members = None ->
            integer (get_optional (Some (GeminiClient.report_summary r))
                       "overall_quality_score") = Some 85
            /\ integer (get_optional (Some (GeminiClient.report_summary r))
                          "security_score") = Some 90
            /\ integer (get_optional (Some (GeminiClient.report_summary r))
                          "performance_score") = Some 80)
        /\ dashboard_summary (GeminiClient.report_summary r)
           = {| App.total_issues :=
                  Some (Z.of_nat (List.length (listed (GeminiClient.issues r))));
                App.high_severity_issues :=
                  Some (severity_count "high" (listed (GeminiClient.issues r)));
                App.medium_severity_issues :=
                  Some (severity_count "medium" (listed (GeminiClient.issues r)));
                App.low_severity_issues :=
                  Some (severity_count "low" (listed (GeminiClient.issues r))) |})
  /\ (forall members,
        GeminiClient.parsed analysisText = Return (JObject members) ->
        member (js "summary") members = None ->
        member (js "issues") members = None ->
        returned (GeminiClient.parsed_report env analysisText filename) = true).
Proof.
  intros r. subst r. split; [apply parseAnalysisResponse_completed|].
  unfold GeminiClient.parseAnalysisResponse, GeminiClient.parsed_report.
  split; [|split; [|split; [|split]]].
  - destruct (GeminiClient.parsed analysisText); [discriminate|]. reflexivity.
  - destruct (JS.bind _ _); [discriminate|]. reflexivity.
  - intros ->. reflexivity.
  - intros members -> Hreturned. cbn [JS.bind] in *.
    unfold GeminiClient.build in *. cbn [get JS.bind] in *.
    destruct (GeminiClient.validateIssueCounts _) as [validated|] eqn:Hvalidated;
      [|discriminate].
    apply validateIssueCounts_written in Hvalidated as (Hrest & Hsummary & Hkept).
    cbv zeta in Hsummary.
    cbn [GeminiClient.issues GeminiClient.report_summary] in Hsummary, Hkept.
    assert (Hissues : GeminiClient.issues validated
                      = GeminiClient.or_else (member (js "issues") members) (JArray []))
      by (rewrite Hrest; reflexivity).
    assert (Hrecommendations :
              GeminiClient.recommendations validated
              = GeminiClient.or_else (member (js "recommendations") members) (JArray []))
      by (rewrite Hrest; reflexivity).
    assert (Hpositive :
              GeminiClient.positive_aspects validated
              = GeminiClient.or_else (member (js "positive_aspects") members) (JArray []))
      by (rewrite Hrest; reflexivity).
    split; [intros Hnone; now rewrite Hissues, Hnone|].
    split; [intros Hnone; now rewrite Hrecommendations, Hnone|].
    split; [intros Hnone; now rewrite Hpositive, Hnone|].
    split.
    + intros Hnone. rewrite Hnone in Hkept. cbn [GeminiClient.or_else] in Hkept.
      rewrite !Hkept by (unfold counted; cbn [List.map In]; intuition discriminate).
      repeat split.
    + rewrite Hissues. exact Hsummary.
  - intros members -> Hsummary Hissues. cbn [JS.bind].
    unfold GeminiClient.build. cbn [get JS.bind]. rewrite Hsummary, Hissues.
    reflexivity.
Qed.

Lemma parse_failure_is_coerced_witness :
  GeminiClient.parseAnalysisResponse clock (JString (js "```json {oops} ```")) (js "a.py")
  = GeminiClient.fallback clock 0 (js "a.py")
  /\ content (GeminiClient.parseAnalysisResponse clock
                (JString (quoted "{'issues': 5}")) (js "a.py"))
     = content (GeminiClient.fallback clock 0 (js "a.py"))
  /\ content (GeminiClient.parseAnalysisResponse clock (JString (js " {} ")) (js "a.py"))
     = (js "a.py", js "completed", GeminiClient.default_summary,
        JArray [], JArray [], JArray [])
  /\ GeminiClient.issues
       (GeminiClient.parseAnalysisResponse clock
          (JString (quoted "{'recommendations': ['Add tests']}")) (js "a.py"))
     = JArray []
  /\ GeminiClient.recommendations
       (GeminiClient.parseAnalysisResponse clock
          (JString (quoted "{'issues': [{'severity': 'high', 'line': 3}]}")) (js "a.py"))
     = JArray [].
Proof.
  split; [|split; [|split; [|split]]].
  - apply (proj1 (proj2 (parse_failure_is_coerced clock
                           (JString (js "```json {oops} ```")) (js "a.py")))).
    reflexivity.
  - apply (proj1 (proj2 (proj2 (parse_failure_is_coerced clock
                                  (JString (quoted "{'issues': 5}")) (js "a.py"))))).
    reflexivity.
  - apply (proj1 (proj2 (proj2 (proj2 (parse_failure_is_coerced clock
                                         (JString (js " {} ")) (js "a.py")))))).
    reflexivity.
  - refine (proj1 (proj1 (proj2 (proj2 (proj2 (proj2
              (parse_failure_is_coerced clock
                 (JString (quoted "{'recommendations': ['Add tests']}")) (js "a.py"))))))
              _ _ _) _); vm_compute; reflexivity.
  - refine (proj1 (proj2 (proj1 (proj2 (proj2 (proj2 (proj2
              (parse_failure_is_coerced clock
                 (JString (quoted "{'issues': [{'severity': 'high', 'line': 3}]}"))
                 (js "a.py"))))))
              _ _ _)) _); vm_compute; reflexivity.
Defined.

(** X19. The counts of a report are those of its issues, whatever the
    response claimed: after [validateIssueCounts] the summary the
    dashboard reads holds the number of listed issues and the numbers of
    those whose severity reads high, medium and low in any letter case,
    the three never exceeding the total; every other member of the
    summary, and the rest of the report, is as it was. *)
Theorem counts_follow_the_issues (report validated : GeminiClient.Report)
    (Hvalidated : GeminiClient.validateIssueCounts report = Return validated) :
  let issues := listed (GeminiClient.issues report) in
  validated = GeminiClient.with_summary report (GeminiClient.report_summary validated)
  /\ dashboard_summary (GeminiClient.report_summary validated)
     = {| App.total_issues := Some (Z.of_nat (List.length issues));
          App.high_severity_issues := Some (severity_count "high" issues);
          App.medium_severity_issues := Some (severity_count "medium" issues);
          App.low_severity_issues := Some (severity_count "low" issues) |}
  /\ 0 <= severity_count "high" issues
  /\ 0 <= severity_count "medium" issues
  /\ 0 <= severity_count "low" issues
  /\ severity_count "high" issues + severity_count "medium" issues
     + severity_count "low" issues <= Z.of_nat (List.length issues)
  /\ (forall key : string, ~ In (js key) counted ->
        get_optional (Some (GeminiClient.report_summary validated)) key
        = get_optional (Some (GeminiClient.report_summary report)) key).
Proof.
  cbv zeta.
  destruct (validateIssueCounts_written report validated Hvalidated)
    as (Hrest & Hsummary & Hkept).
  pose proof (severity_counts_bounded (listed (GeminiClient.issues report)))
    as (Hh & Hm & Hl & Hsum).
  repeat split; assumption.
Qed.

Lemma counts_follow_the_issues_witness :
  let report :=
    {| GeminiClient.id := js "report_1"; GeminiClient.filename := js "a.py";
       GeminiClient.status := js "completed"; GeminiClient.timestamp := js "now";
       GeminiClient.report_summary :=
         GeminiClient.object [("total_issues", GeminiClient.number 7);
                              ("security_score", GeminiClient.number 90)]%string;
       GeminiClient.issues :=
         JArray [GeminiClient.object [("severity", JString (js "HIGH"))]%string;
                 GeminiClient.object [("severity", JString (js "info"))]%string];
       GeminiClient.recommendations := JArray [];
       GeminiClient.positive_aspects := JArray [] |} in
  exists validated,
    GeminiClient.validateIssueCounts report = Return validated
    /\ dashboard_summary (GeminiClient.report_summary validated)
       = {| App.total_issues := Some 2; App.high_severity_issues := Some 1;
            App.medium_severity_issues := Some 0; App.low_severity_issues := Some 0 |}.
Proof.
  intros report. eexists. split; [reflexivity|].
  refine (proj1 (proj2 (counts_follow_the_issues report _ eq_refl))).
Defined.

(** X20. Once the provider has answered with a text, [analyzeCode]
    returns a report and throws nothing, however malformed the text is:
    with an API key set and a response that is ok, whose body is JSON and
    carries a truthy analysis text at
    [candidates[0].content.parts[0].text], the result is the report
    [parseAnalysisResponse] makes of that very text, for the file name
    given; so it is for the body that holds one candidate with one part
    and a non-empty string as its text. *)
Theorem answered_call_returns_report (apiKey : jsstring) (env : GeminiClient.Env)
    (statusText body code filename : jsstring) (data : Value)
    (Hkey : apiKey <> [])
    (Hbody : JSON.parse body = Return data) :
  (forall text,
     GeminiClient.analysisText_of data = Return (Some text) ->
     truthy (Some text) = true ->
     GeminiClient.analyzeCode (Some apiKey) env
       (GeminiClient.Responded true statusText body) code filename
     = Return (GeminiClient.parseAnalysisResponse env text filename))
  /\ (forall words,
        data = answer_with (JString words) -> words <> [] ->
        GeminiClient.analyzeCode (Some apiKey) env
          (GeminiClient.Responded true statusText body) code filename
        = Return (GeminiClient.parseAnalysisResponse env (JString words) filename)).
Proof.
  assert (Hgeneral : forall text,
            GeminiClient.analysisText_of data = Return (Some text) ->
            truthy (Some text) = true ->
            GeminiClient.analyzeCode (Some apiKey) env
              (GeminiClient.Responded true statusText body) code filename
            = Return (GeminiClient.parseAnalysisResponse env text filename)).
  { intros text Htext Htruthy. unfold GeminiClient.analyzeCode.
    destruct apiKey as [|c k]; [congruence|].
    cbn [option_map truthy str_eqb negb].
    rewrite try_catch_rethrow, Hbody. cbn [JS.bind]. rewrite Htext. cbn [JS.bind].
    now rewrite Htruthy. }
  split; [exact Hgeneral|].
  intros words -> Hwords. apply Hgeneral; [reflexivity|].
  destruct words as [|c w]; [congruence | reflexivity].
Qed.

Lemma answered_call_returns_report_witness :
  GeminiClient.analyzeCode (Some (js "key")) clock
    (GeminiClient.Responded true (js "OK")
       (quoted "{'candidates':[{'content':{'parts':[{'text':'not json'}]}}]}"))
    (js "x = 1") (js "a.py")
  = Return (GeminiClient.parseAnalysisResponse clock (JString (js "not json")) (js "a.py")).
Proof.
  refine (proj2 (answered_call_returns_report (js "key") clock (js "OK")
                   (quoted "{'candidates':[{'content':{'parts':[{'text':'not json'}]}}]}")
                   (js "x = 1") (js "a.py") (answer_with (JString (js "not json"))) _ _)
            (js "not json") eq_refl _).
  - discriminate.
  - vm_compute. reflexivity.
  - discriminate.
Defined.

(** ** The Gemini client: the fenced block *)

Lemma trimStart_blank (s : jsstring) :
  forallb is_space s = true -> forall y, trimStart (s ++ y) = trimStart y.
Proof.
  induction s as [|c s IH]; cbn [forallb app trimStart]; [reflexivity|].
  intros H y. apply andb_true_iff in H as [Hc Hs]. rewrite Hc. now apply IH.
Qed.

Lemma trimStart_not_blank (s : jsstring) :
  forallb is_space s = false -> forall y, trimStart (s ++ y) = trimStart s ++ y.
Proof.
  induction s as [|c s IH]; cbn [forallb app trimStart]; [discriminate|].
  intros H y. destruct (is_space c); [|reflexivity]. now apply IH.
Qed.

Lemma trimStart_blank_nil (s : jsstring) :
  forallb is_space s = true -> trimStart s = [].
Proof.
  intros H. rewrite <- (app_nil_r s). now rewrite trimStart_blank.
Qed.

Lemma trimStart_head (s : jsstring) :
  match trimStart s with
  | [] => forallb is_space s = true
  | c :: _ => is_space c = false /\ forallb is_space s = false
  end.
Proof.
  induction s as [|c s IH]; cbn [trimStart forallb]; [reflexivity|].
  destruct (is_space c) eqn:Hc; cbn [andb]; [exact IH | now split].
Qed.

Lemma trimStart_suffix (s : jsstring) :
  exists blank, s = blank ++ trimStart s.
Proof.
  induction s as [|c s [blank IH]]; cbn [trimStart]; [now exists []|].
  destruct (is_space c); [|now exists []].
  exists (c :: blank). cbn [app]. now f_equal.
Qed.

Lemma trimStart_tight (s : jsstring) :
  match s with [] => True | c :: _ => is_space c = false end -> trimStart s = s.
Proof. destruct s as [|c s]; cbn [trimStart]; [reflexivity|]. now intros ->. Qed.

Lemma forallb_is_space_rev (s : jsstring) :
  forallb is_space (rev s) = forallb is_space s.
Proof.
  induction s as [|c s IH]; [reflexivity|].
  cbn [rev forallb]. rewrite forallb_app, IH. cbn [forallb].
  now rewrite andb_true_r, andb_comm.
Qed.

(** [trim] strips a text that is already stripped no further. *)
Lemma trim_idempotent (s : jsstring) : trim (trim s) = trim s.
Proof.
  unfold trim. set (t := trimStart s).
  assert (Hstart : trimStart (rev (trimStart (rev t))) = rev (trimStart (rev t))).
  { destruct (trimStart_suffix (rev t)) as [blank Hblank].
    apply (f_equal (@rev N)) in Hblank. rewrite rev_involutive, rev_app_distr in Hblank.
    apply trimStart_tight. revert Hblank.
    destruct (rev (trimStart (rev t))) as [|c u]; [exact (fun _ => I)|].
    cbn [app]. intros Hblank.
    pose proof (trimStart_head s) as Hhead.
    change (trimStart s) with t in Hhead. rewrite Hblank in Hhead. apply Hhead. }
  rewrite Hstart, rev_involutive.
  assert (Hend : trimStart (trimStart (rev t)) = trimStart (rev t)).
  { apply trimStart_tight. pose proof (trimStart_head (rev t)) as Hhead.
    destruct (trimStart (rev t)); [exact I | apply Hhead]. }
  now rewrite Hend.
Qed.

Lemma starts_with_app (prefix rest : jsstring) :
  starts_with prefix (prefix ++ rest) = true.
Proof.
  induction prefix as [|c prefix IH]; [reflexivity|].
  cbn [app starts_with]. now rewrite N.eqb_refl.
Qed.

Lemma after_first_unfold (pattern s : jsstring) :
  after_first pattern s
  = if starts_with pattern s then Some (skipn (List.length pattern) s)
    else match s with
         | [] => None
         | _ :: s' => after_first pattern s'
         end.
Proof. destruct s; reflexivity. Qed.

Lemma starts_with_backtick (pattern s : jsstring) (c : N) :
  c <> ch "`" -> starts_with (ch "`" :: pattern) (c :: s) = false.
Proof.
  intros Hc. cbn [starts_with].
  destruct (N.eqb_spec (ch "`") c) as [Heq|]; [now symmetry in Heq | reflexivity].
Qed.

Lemma after_first_fence (before rest : jsstring) :
  no_backtick before ->
  after_first (js "```json") (before ++ js "```json" ++ rest) = Some rest.
Proof.
  induction 1 as [|c before Hc Hbefore IH].
  - cbn [app]. rewrite after_first_unfold, starts_with_app. reflexivity.
  - cbn [app]. rewrite after_first_unfold.
    change (js "```json") with (ch "`" :: js "``json") at 1.
    rewrite starts_with_backtick by assumption. exact IH.
Qed.

Lemma after_first_none (text : jsstring) :
  no_backtick text -> after_first (js "```json") text = None.
Proof.
  induction 1 as [|c text Hc Htext IH]; [reflexivity|].
  rewrite after_first_unfold.
  change (js "```json") with (ch "`" :: js "``json") at 1.
  rewrite starts_with_backtick by assumption. exact IH.
Qed.

Lemma starts_with_fence_plain (s rest : jsstring) :
  no_backtick s ->
  starts_with (js "```") (trimStart (s ++ js "```" ++ rest)) = forallb is_space s.
Proof.
  intros Hs. destruct (forallb is_space s) eqn:Hblank.
  - rewrite trimStart_blank by assumption. reflexivity.
  - rewrite trimStart_not_blank by assumption.
    pose proof (trimStart_head s) as Hhead.
    destruct (trimStart_suffix s) as [blank Hsuffix].
    destruct (trimStart s) as [|c t]; [congruence|].
    assert (Hc : c <> ch "`").
    { rewrite Hsuffix in Hs. apply Forall_app in Hs as [_ Hs]. now inversion Hs. }
    cbn [app]. change (js "```") with (ch "`" :: js "``") at 1.
    now apply starts_with_backtick.
Qed.

Lemma lazy_capture_unfold (acc s : jsstring) :
  GeminiClient.lazy_capture acc s
  = if starts_with (js "```") (trimStart s) then Some (rev acc)
    else match s with
         | [] => None
         | c :: s' => GeminiClient.lazy_capture (c :: acc) s'
         end.
Proof. destruct s; reflexivity. Qed.

Lemma lazy_capture_fence (body rest : jsstring) :
  no_backtick body ->
  forall acc,
    GeminiClient.lazy_capture acc (body ++ js "```" ++ rest)
    = Some (rev acc ++ rev (trimStart (rev body))).
Proof.
  induction 1 as [|c body Hc Hbody IH]; intros acc.
  - rewrite lazy_capture_unfold.
    rewrite (starts_with_fence_plain [] rest) by constructor.
    cbn [forallb rev trimStart]. now rewrite app_nil_r.
  - rewrite lazy_capture_unfold.
    rewrite (starts_with_fence_plain (c :: body) rest) by now constructor.
    destruct (forallb is_space (c :: body)) eqn:Hblank.
    + rewrite <- forallb_is_space_rev in Hblank.
      rewrite (trimStart_blank_nil _ Hblank). now rewrite app_nil_r.
    + cbn [app]. rewrite IH. f_equal. cbn [rev]. rewrite <- app_assoc. f_equal.
      destruct (forallb is_space body) eqn:Hrest.
      * cbn [forallb] in Hblank. rewrite Hrest, andb_true_r in Hblank.
        rewrite <- forallb_is_space_rev in Hrest.
        rewrite trimStart_blank by assumption.
        rewrite (trimStart_blank_nil _ Hrest).
        cbn [trimStart]. now rewrite Hblank.
      * rewrite <- forallb_is_space_rev in Hrest.
        rewrite trimStart_not_blank by assumption.
        now rewrite rev_app_distr.
Qed.

(** X21. The JSON of a fenced reply is found: when the text holds a block
    opened by a json fence and closed by a fence, with no backtick in the
    body or in the prose before it, the text handed to [JSON.parse] is
    the body with the white space around it removed, whatever follows the
    block; a text without any backtick is handed over whole, trimmed. *)
Theorem fenced_json_is_extracted (before body after : jsstring)
    (Hbefore : no_backtick before) (Hbody : no_backtick body) :
  GeminiClient.jsonText (before ++ js "```json" ++ body ++ js "```" ++ after)
  = trim body
  /\ GeminiClient.parsed (JString (before ++ js "```json" ++ body ++ js "```" ++ after))
     = JSON.parse (trim body)
  /\ GeminiClient.jsonText body = trim body.
Proof.
  assert (Hfenced : GeminiClient.jsonText
                      (before ++ js "```json" ++ body ++ js "```" ++ after)
                    = trim body).
  { unfold GeminiClient.jsonText, GeminiClient.jsonMatch.
    rewrite after_first_fence by assumption.
    destruct (trimStart_suffix body) as [blank Hblank].
    assert (Hstripped : no_backtick (trimStart body)).
    { unfold no_backtick in *. rewrite Hblank in Hbody.
      now apply Forall_app in Hbody as [_ Hbody]. }
    assert (Hstart : trimStart (body ++ js "```" ++ after)
                     = trimStart body ++ js "```" ++ after).
    { destruct (forallb is_space body) eqn:Hspace.
      - rewrite trimStart_blank by assumption.
        rewrite (trimStart_blank_nil _ Hspace). reflexivity.
      - now apply trimStart_not_blank. }
    rewrite Hstart, lazy_capture_fence by assumption.
    cbn [rev app]. apply trim_idempotent. }
  split; [exact Hfenced|]. split.
  - cbn [GeminiClient.parsed]. now rewrite Hfenced.
  - unfold GeminiClient.jsonText, GeminiClient.jsonMatch.
    now rewrite after_first_none.
Qed.

Lemma fenced_json_is_extracted_witness :
  GeminiClient.jsonText
    (js "Here is the review: " ++ js "```json" ++ quoted " {'issues': []}  "
     ++ js "```" ++ js " Hope it helps.")
  = trim (quoted " {'issues': []}  ").
Proof.
  refine (proj1 (fenced_json_is_extracted _ _ _ _ _));
    unfold no_backtick; rewrite Forall_forall;
    intros c Hc; vm_compute in Hc;
    repeat (destruct Hc as [<-|Hc]; [discriminate|]); destruct Hc.
Defined.

(** ** The language of an accepted file *)

(** X22. A file that passes [validateUploadedFile] is named by its
    language in the prompt: [detectLanguage] knows the extension that
    [analyzeCode] takes from the file name, and never answers Unknown. *)
Theorem accepted_file_has_prompt_language (file : App.File)
    (Haccepted : returned (App.validateUploadedFile file) = true) :
  exists language,
    GeminiClient.detectLanguage (GeminiClient.fileExtension (App.name file))
    = JSObject.Own language
    /\ language <> js "Unknown"
    /\ In language (List.map (fun entry => js (snd entry)) GeminiClient.languageMap).
Proof.
  unfold App.validateUploadedFile in Haccepted.
  rewrite includes_allowedExtensions in Haccepted.
  destruct (includes App.allowedTypes (App.extension_of file)) eqn:Hallowed;
    [|discriminate].
  apply allowed_extension_cases in Hallowed.
  unfold GeminiClient.fileExtension. cbn [List.map In] in Hallowed.
  repeat (destruct Hallowed as [<-|Hallowed];
          [eexists; split; [vm_compute; reflexivity|];
           split; [discriminate | vm_compute; tauto]|]).
  destruct Hallowed.
Qed.

Lemma accepted_file_has_prompt_language_witness :
  exists language,
    GeminiClient.detectLanguage (GeminiClient.fileExtension (js "src/Main.RS"))
    = JSObject.Own language
    /\ language <> js "Unknown".
Proof.
  destruct (accepted_file_has_prompt_language
              {| App.name := js "src/Main.RS"; App.size := 0 |} eq_refl)
    as (language & H1 & H2 & _).
  exists language. split; assumption.
Defined.

(** ** Badges and the order of the list *)

Lemma rank_cases (i : App.Issue) (n : Z) :
  App.rank i = Some n -> n <> 0 ->
  (n = 3 /\ App.severity i = Some (js "high"))
  \/ (n = 2 /\ App.severity i = Some (js "medium"))
  \/ (n = 1 /\ App.severity i = Some (js "low")).
Proof.
  unfold App.rank, App.severityOrder.
  destruct (App.severity i) as [s|]; [|intros [= <-]; congruence].
  destruct (str_eqb s (js "high")) eqn:Hh.
  { apply str_eqb_eq in Hh. subst s. intros [= <-] _. now left. }
  destruct (str_eqb s (js "medium")) eqn:Hm.
  { apply str_eqb_eq in Hm. subst s. intros [= <-] _. right. now left. }
  destruct (str_eqb s (js "low")) eqn:Hl.
  { apply str_eqb_eq in Hl. subst s. intros [= <-] _. right. now right. }
  destruct (includes App.Object_prototype s); [discriminate|].
  intros [= <-]. congruence.
Qed.

Lemma toLowerCase_not_prototype (s : jsstring) :
  toLowerCase s = js "high" -> includes App.Object_prototype s = false.
Proof.
  intros Hlow. destruct (includes App.Object_prototype s) eqn:Hin; [|reflexivity].
  unfold includes in Hin. apply existsb_exists in Hin as (x & Hx & Heq).
  apply str_eqb_eq in Heq. subst x.
  unfold App.Object_prototype in Hx. cbn [List.map In] in Hx.
  repeat (destruct Hx as [<-|Hx]; [discriminate Hlow|]).
  destruct Hx.
Qed.

(** X23. The badge of an issue follows the place the sort gives it as
    long as the severity is written in lower case: an issue sorted as
    high is badged error, one sorted as medium warning, one sorted as low
    info.  The badge ignores the letter case and the sort does not: any
    other spelling of high is badged error and sorted with the unknown
    severities, after every high, medium and low issue. *)
Theorem badge_follows_rank (i : App.Issue) :
  (App.rank i = Some 3 -> App.getSeverityClass (App.severity i) = js "error")
  /\ (App.rank i = Some 2 -> App.getSeverityClass (App.severity i) = js "warning")
  /\ (App.rank i = Some 1 -> App.getSeverityClass (App.severity i) = js "info")
  /\ (forall s, App.severity i = Some s -> s <> js "high" ->
        toLowerCase s = js "high" ->
        App.getSeverityClass (App.severity i) = js "error" /\ App.rank i = Some 0).
Proof.
  split; [|split; [|split]].
  - intros H. apply rank_cases in H as [[_ ->]|[[? _]|[? _]]]; [reflexivity|lia..].
  - intros H. apply rank_cases in H as [[? _]|[[_ ->]|[? _]]]; [lia|reflexivity|lia..].
  - intros H. apply rank_cases in H as [[? _]|[[? _]|[_ ->]]]; [lia|lia|reflexivity|lia].
  - intros s Hs Hne Hlow. unfold App.rank, App.severityOrder, App.getSeverityClass.
    rewrite Hs. cbv zeta. rewrite Hlow.
    split; [reflexivity|].
    destruct (str_eqb s (js "high")) eqn:Hh; [apply str_eqb_eq in Hh; congruence|].
    destruct (str_eqb s (js "medium")) eqn:Hm;
      [apply str_eqb_eq in Hm; subst s; discriminate Hlow|].
    destruct (str_eqb s (js "low")) eqn:Hl;
      [apply str_eqb_eq in Hl; subst s; discriminate Hlow|].
    now rewrite toLowerCase_not_prototype.
Qed.

Lemma badge_follows_rank_witness :
  let shouted := {| App.type := None; App.severity := Some (js "HIGH");
                    App.line := None; App.message := None |} in
  App.getSeverityClass (App.severity shouted) = js "error"
  /\ App.rank shouted = Some 0.
Proof.
  intros shouted.
  apply (proj2 (proj2 (proj2 (badge_follows_rank shouted))) (js "HIGH"));
    [reflexivity | discriminate | reflexivity].
Defined.

(** ** The steps of an upload *)

(** X24. An upload goes as far as its checks allow: the file is read only
    when it passed validation, sent only when it was read as well, and a
    report identifier is stored only when the upload succeeded too; the
    editor is reset exactly when no identifier is stored. *)
Theorem upload_steps_follow_checks (file : App.File) (readOk uploadOk : bool) :
  let steps := App.handleFileUpload (Some file) readOk uploadOk in
  let valid := returned (App.validateUploadFile file) in
  (In App.ReadFileContent steps <-> valid = true)
  /\ (In App.ApiUploadFile steps <-> valid && readOk = true)
  /\ (In App.StoreReportId steps <-> valid && readOk && uploadOk = true)
  /\ (In App.ResetCodeEditor steps <-> ~ In App.StoreReportId steps).
Proof.
  cbv zeta. unfold App.handleFileUpload.
  destruct (App.validateUploadFile file), readOk, uploadOk;
    cbn [returned andb negb app In];
    repeat split; intros H; try discriminate; try reflexivity;
    try (exfalso; intuition discriminate); intuition (try discriminate; auto).
Qed.

Lemma upload_steps_follow_checks_witness :
  In App.StoreReportId
    (App.handleFileUpload (Some {| App.name := js "main.py"; App.size := 120 |}) true true).
Proof.
  apply (proj2 (proj1 (proj2 (proj2
           (upload_steps_follow_checks {| App.name := js "main.py"; App.size := 120 |}
              true true))))).
  reflexivity.
Defined.

(** ** Report identifiers *)

Lemma js_injective (s t : string) : js s = js t -> s = t.
Proof.
  unfold js. intros H.
  assert (Hl : list_ascii_of_string s = list_ascii_of_string t).
  { revert H. generalize (list_ascii_of_string s) (list_ascii_of_string t).
    induction l as [|a l IH]; intros [|b m]; cbn [List.map]; try discriminate;
      [reflexivity|].
    intros [= Hab Hlm]. f_equal; [|now apply IH].
    rewrite <- (ascii_N_embedding a), <- (ascii_N_embedding b). now rewrite Hab. }
  rewrite <- (string_of_list_ascii_of_string s), <- (string_of_list_ascii_of_string t).
  now rewrite Hl.
Qed.

Lemma decimal_injective (a b : Z) :
  GeminiClient.decimal a = GeminiClient.decimal b -> a = b.
Proof.
  unfold GeminiClient.decimal. intros H. apply js_injective in H.
  apply DecimalZ.to_int_inj.
  assert (Hsome : forall z, NilZero.int_of_string (NilZero.string_of_int (Z.to_int z))
                            = Some (Z.to_int z)).
  { intros z. apply NilZero.isi; destruct z as [|p|p]; cbn; try discriminate;
      intros [= Hnil]; now apply DecimalPos.Unsigned.to_uint_nonnil in Hnil. }
  pose proof (Hsome a) as Ha. rewrite H, Hsome in Ha. now injection Ha.
Qed.

Lemma digits_no_underscore (d : Decimal.uint) :
  Forall (fun c => c <> ch "_") (js (NilEmpty.string_of_uint d)).
Proof.
  induction d; cbn [NilEmpty.string_of_uint]; try (constructor; [discriminate | exact IHd]).
  constructor.
Qed.

Lemma decimal_no_underscore (z : Z) :
  Forall (fun c => c <> ch "_") (GeminiClient.decimal z).
Proof.
  unfold GeminiClient.decimal.
  assert (Huint : forall d, Forall (fun c => c <> ch "_") (js (NilZero.string_of_uint d))).
  { intros d. destruct d; try apply digits_no_underscore.
    constructor; [discriminate | constructor]. }
  destruct (Z.to_int z) as [d|d]; cbn [NilZero.string_of_int]; [apply Huint|].
  constructor; [discriminate | apply Huint].
Qed.

Lemma before_separator (sep : N) (a b x y : jsstring) :
  Forall (fun c => c <> sep) a -> Forall (fun c => c <> sep) b ->
  a ++ sep :: x = b ++ sep :: y -> a = b.
Proof.
  intros Ha. revert b.
  induction Ha as [|c a Hc Ha IH]; intros b Hb; destruct Hb as [|d b Hd Hb];
    cbn [app]; intros H.
  - reflexivity.
  - injection H as H1 H2. congruence.
  - injection H as H1 H2. congruence.
  - injection H as H1 H2. f_equal; [assumption | now apply (IH b)].
Qed.

(** X25. Reports made at different times of the clock have different
    identifiers, whatever the random generator gives. *)
Theorem report_ids_differ_with_the_clock (env1 env2 : GeminiClient.Env)
    (reading1 reading2 : nat)
    (Hclock : GeminiClient.Date_now env1 reading1 <> GeminiClient.Date_now env2 reading2) :
  GeminiClient.generateReportId env1 reading1
  <> GeminiClient.generateReportId env2 reading2.
Proof.
  unfold GeminiClient.generateReportId. intros H. apply Hclock.
  apply app_inv_head in H.
  apply decimal_injective.
  change (js "_" ++ ?x) with (ch "_" :: x) in H.
  eapply before_separator; [| |exact H]; apply decimal_no_underscore.
Qed.

Lemma report_ids_differ_with_the_clock_witness :
  GeminiClient.generateReportId clock 0 <> GeminiClient.generateReportId clock 1.
Proof.
  apply report_ids_differ_with_the_clock. discriminate.
Defined.

(** ** From the analysis text to the dashboard *)

(** X26. What the dashboard shows after a Gemini analysis follows from
    the issues listed, not from the numbers the response claimed: when
    the text parsed into a report, the quality card shows 100 less 20, 10
    and 5 for each listed issue of high, medium and low severity, never
    below 0, and the issues card the number of listed issues.  When it
    did not, the cards show 100 and 0 issues although the report lists
    one placeholder issue. *)
Theorem dashboard_follows_the_issues (env : GeminiClient.Env) (analysisText : Value)
    (filename : jsstring) (window : App.Window) :
  let r := GeminiClient.parseAnalysisResponse env analysisText filename in
  let issues := listed (GeminiClient.issues r) in
  let shown := App.updateDashboardFromSummary window
                 (dashboard_summary (GeminiClient.report_summary r)) in
  (returned (GeminiClient.parsed_report env analysisText filename) = true ->
   App.qualityValue shown
   = penalised 20 10 5 (severity_count "high" issues) (severity_count "medium" issues)
       (severity_count "low" issues)
   /\ App.issuesValue shown = Some (Z.of_nat (List.length issues)))
  /\ (returned (GeminiClient.parsed_report env analysisText filename) = false ->
      App.qualityValue shown = 100
      /\ App.issuesValue shown = Some 0
      /\ List.length issues = 1%nat).
Proof.
  cbv zeta. unfold GeminiClient.parseAnalysisResponse.
  destruct (GeminiClient.parsed_report env analysisText filename) as [r|] eqn:Hr;
    cbn [returned]; (split; [|discriminate]) || (split; [discriminate|]); intros _.
  - unfold GeminiClient.parsed_report in Hr.
    destruct (GeminiClient.parsed analysisText) as [analysis|]; cbn [JS.bind] in Hr;
      [|discriminate].
    destruct (GeminiClient.build env analysis filename) as [report|]; cbn [JS.bind] in Hr;
      [|discriminate].
    apply validateIssueCounts_written in Hr as (Hrest & Hsummary & _).
    assert (Hissues : GeminiClient.issues r = GeminiClient.issues report)
      by (rewrite Hrest; reflexivity).
    rewrite Hissues.
    unfold App.updateDashboardFromSummary. cbn [App.qualityValue App.issuesValue].
    rewrite calculateQualityScore_penalised, Hsummary. split; reflexivity.
  - unfold App.updateDashboardFromSummary. cbn [App.qualityValue App.issuesValue].
    rewrite calculateQualityScore_penalised. repeat split.
Qed.

Lemma dashboard_follows_the_issues_witness :
  let text := JString (quoted
    "{'summary': {'total_issues': 0, 'overall_quality_score': 99}, 'issues': [{'severity': 'High'}, {'severity': 'low'}]}") in
  let window := {| App.currentAnalysisTime := None; App.Math_random := 0 |} in
  let r := GeminiClient.parseAnalysisResponse clock text (js "a.py") in
  App.qualityValue (App.updateDashboardFromSummary window
                      (dashboard_summary (GeminiClient.report_summary r)))
  = 75.
Proof.
  intros text window r.
  refine (proj1 (proj1 (dashboard_follows_the_issues clock text (js "a.py") window) _)).
  vm_compute. reflexivity.
Defined.

(** ** The delay before a retry *)

(** X27. With the default handlers a retry waits 2 seconds after a
    network failure, 5 seconds after a server error, and after a 429 the
    number of seconds of the Retry-After header when it holds an integer,
    60 when there is none and 1 when it says 0. *)
Theorem retry_waits_as_told (onLine : bool) (error : APIClient.RequestError)
    (attempt maxRetries : nat) (retryDelay : Z)
    (Hretry : APIClient.handleError APIClient.initializeDefaultErrorHandlers
                onLine error attempt maxRetries = APIClient.Retry retryDelay) :
  retryDelay = expected_delay onLine error.
Proof.
  revert Hretry.
  unfold APIClient.handleError, APIClient.categorizeError, expected_delay.
  generalize (attempt <? maxRetries)%nat. intros more.
  destruct (negb onLine || str_eqb (APIClient.name error) (js "NetworkError")).
  { rewrite default_handlers_network. cbn. destruct more; [|discriminate].
    now intros [= <-]. }
  destruct (APIClient.status_is error (Z.eqb 401) || APIClient.status_is error (Z.eqb 403)).
  { rewrite default_handlers_auth. cbn. discriminate. }
  destruct (APIClient.status_is error (Z.eqb 429)).
  { change (APIClient.initializeDefaultErrorHandlers !! js "rateLimit")
      with (Some (fun error : APIClient.RequestError =>
                    let retryAfter := match APIClient.retryAfter error with
                                      | Some s => s
                                      | None => 60
                                      end in
                    {| APIClient.retry := true;
                       APIClient.delay := Some (retryAfter * 1000) |})).
    cbv zeta. cbn [APIClient.retry APIClient.delay andb].
    destruct more; [|discriminate].
    destruct (APIClient.retryAfter error) as [s|].
    - destruct s as [|p|p]; cbn; now intros [= <-].
    - now intros [= <-]. }
  destruct (APIClient.status_is error (fun s => (400 <=? s) && (s <? 500))).
  { rewrite default_handlers_validation. cbn. discriminate. }
  destruct (APIClient.status_is error (fun s => 500 <=? s)).
  { rewrite default_handlers_server. cbn. destruct more; [|discriminate].
    now intros [= <-]. }
  rewrite default_handlers_unknown. discriminate.
Qed.

Lemma retry_waits_as_told_witness :
  7000 = expected_delay true
           {| APIClient.name := js "Error"; APIClient.status := Some 429;
              APIClient.retryAfter := Some 7 |}.
Proof.
  apply (retry_waits_as_told true
           {| APIClient.name := js "Error"; APIClient.status := Some 429;
              APIClient.retryAfter := Some 7 |} 1 3 7000).
  reflexivity.
Defined.
